(** * intel-ipmi-oem: the sensor and SDR command handlers of sensorcommands.cpp

    A shallow embedding of [src/sensorcommands.cpp]: the threshold and
    topology watchers, the sensor map cache, Get Sensor Reading, Set and Get
    Sensor Thresholds, Get Sensor Event Enable and Event Status, Get SDR
    Repository Info, Reserve SDR Repository and Get SDR, followed by the
    properties proved about them.

    Conventions.
    - Fixed-width integers are [Z] with the wrap-around written out
      ([uint8_t], [uint16_t], [size_t]).
    - [double] is the kernel's binary64 [float].
    - [std::map] / [flat_map] objects that are only searched are [gmap]s;
      the sensor tree, which is iterated in key order, is an association
      list in iteration order.
    - File-scope and function-static variables are the fields of [State];
      every handler is a function of the state in the [Handler] monad.
    - Functions, types and constants that the file takes from headers that
      are not part of the sources at hand are the fields of [Platform]. *)

From Stdlib Require Import ZArith List String Ascii Bool Lia.
From Stdlib Require Import Floats Uint63.
From stdpp Require Import gmap strings list fin_maps.

Local Open Scope Z_scope.

(** ** Machine integers *)

Definition uint8_t (z : Z) : Z := z mod 2 ^ 8.
Definition uint16_t (z : Z) : Z := z mod 2 ^ 16.

(** Conversion of a C++ [int] to [double] (exact below 2^53). *)
Definition double_of_int (z : Z) : float :=
  if z <? 0 then PrimFloat.opp (PrimFloat.of_uint63 (Uint63.of_Z (- z)))
  else PrimFloat.of_uint63 (Uint63.of_Z z).

(** ** Completion codes

    Modelled from the spec: the completion codes are declared in
    ipmid/api.h, outside the sources; the values are those of the IPMI
    specification ("invalid reservation id", "request data length invalid",
    "invalid field request", "response error"). *)

Definition ipmi_ret_t := Z.
Definition IPMI_CC_OK : ipmi_ret_t := 0x00.
Definition IPMI_CC_INVALID_RESERVATION_ID : ipmi_ret_t := 0xC5.
Definition IPMI_CC_REQ_DATA_LEN_INVALID : ipmi_ret_t := 0xC7.
Definition IPMI_CC_INVALID_FIELD_REQUEST : ipmi_ret_t := 0xCC.
Definition IPMI_CC_RESPONSE_ERROR : ipmi_ret_t := 0xCE.

(** [ipmi::RspType<...>]: an error completion code without payload, or
    success with the payload. *)
Inductive RspType (A : Type) : Type :=
| response (cc : ipmi_ret_t)
| responseSuccess (a : A).
Arguments response {A} cc.
Arguments responseSuccess {A} a.

Definition responseInvalidReservationId {A} : RspType A :=
  response IPMI_CC_INVALID_RESERVATION_ID.
Definition responseInvalidFieldRequest {A} : RspType A :=
  response IPMI_CC_INVALID_FIELD_REQUEST.
Definition responseResponseError {A} : RspType A :=
  response IPMI_CC_RESPONSE_ERROR.

(** ** D-Bus values and the sensor maps *)

(** Modelled from the spec: [DbusVariant] is declared in commandutils.hpp,
    which is not among the sources; the backend store holds booleans,
    integers, doubles and strings as property values. *)
Inductive DbusVariant : Type :=
| VariantString (s : string)
| VariantBool (b : bool)
| VariantInt (z : Z)
| VariantDouble (d : float).

(** [std::map<std::string, DbusVariant>]: the properties of one interface. *)
Abbreviation PropertyMap := (gmap string DbusVariant).
(** [SensorMap]: interface name to properties. *)
Abbreviation SensorMap := (gmap string (gmap string DbusVariant)).
(** [ManagedObjectType]: object path to [SensorMap]. *)
Abbreviation ManagedObjectType := (gmap string (gmap string (gmap string DbusVariant))).
(** [SensorSubTree]: object path to (connection to interface names), in
    iteration (key) order. *)
Definition SensorSubTree : Type := list (string * list (string * list string)).

Definition sensorMapUpdatePeriod : Z := 2.

(** [std::chrono::steady_clock] counts nanoseconds; [duration_cast<seconds>]
    truncates towards zero. *)
Definition duration_cast_seconds (ticks : Z) : Z := Z.quot ticks 1000000000.

(** ** Linearization attributes (out-parameters of getSensorAttributes) *)

Record SensorAttributes : Type := {
  mValue : Z;   (* int16_t *)
  rExp : Z;     (* int8_t *)
  bValue : Z;   (* int16_t *)
  bExp : Z;     (* int8_t *)
  bSigned : bool
}.

(** ** SDR records

    Modelled from the spec: the record structs are declared in
    sensorhandler.hpp, outside the sources. The fields are those the source
    assigns, in the order and widths of the fixed-layout full sensor record
    and FRU device locator record of IPMI v2.0 (packed, 64 and 32 bytes);
    the properties that depend on the sizes say so. *)

Definition FULL_RECORD_ID_STR_MAX_LENGTH : nat := 16.
Definition FRU_RECORD_DEVICE_ID_MAX_LENGTH : nat := 16.

Record SensorDataRecordHeader : Type := {
  record_id_lsb : Z;
  record_id_msb : Z;
  sdr_version : Z;
  record_type : Z;
  record_length : Z
}.

Record SensorDataRecordKey : Type := {
  owner_id : Z;
  owner_lun : Z;
  sensor_number : Z
}.

Record SensorDataFullRecordBody : Type := {
  entity_id : Z;
  entity_instance : Z;
  sensor_initialization : Z;
  sensor_capabilities : Z;
  sensor_type : Z;
  event_reading_type : Z;
  supported_assertions : Z * Z;
  supported_deassertions : Z * Z;
  discrete_reading_setting_mask : Z * Z;
  sensor_units_1 : Z;
  sensor_units_2_base : Z;
  sensor_units_3_modifier : Z;
  linearization : Z;
  m_lsb : Z;
  m_msb_and_tolerance : Z;
  b_lsb : Z;
  b_msb_and_accuracy_lsb : Z;
  accuracy_and_sensor_direction : Z;
  r_b_exponents : Z;
  analog_characteristic_flags : Z;
  nominal_reading : Z;
  normal_max : Z;
  normal_min : Z;
  sensor_max : Z;
  sensor_min : Z;
  upper_nonrecoverable_threshold : Z;
  upper_critical_threshold : Z;
  upper_noncritical_threshold : Z;
  lower_nonrecoverable_threshold : Z;
  lower_critical_threshold : Z;
  lower_noncritical_threshold : Z;
  positive_threshold_hysteresis : Z;
  negative_threshold_hysteresis : Z;
  reserved : Z;                     (* uint16_t *)
  oem_reserved : Z;
  id_string_info : Z;
  id_string : list Z                (* char[FULL_RECORD_ID_STR_MAX_LENGTH] *)
}.

Record SensorDataFullRecord : Type := {
  header : SensorDataRecordHeader;
  key : SensorDataRecordKey;
  body : SensorDataFullRecordBody
}.

Record SensorDataFruRecordKey : Type := {
  deviceAddress : Z;
  fruID : Z;
  accessLun : Z;
  channelNumber : Z
}.

Record SensorDataFruRecordBody : Type := {
  fru_reserved : Z;
  deviceType : Z;
  deviceTypeModifier : Z;
  entityID : Z;
  entityInstance : Z;
  oem : Z;
  deviceIDLen : Z;
  deviceID : list Z                 (* char[FRU_RECORD_DEVICE_ID_MAX_LENGTH] *)
}.

Record SensorDataFruRecord : Type := {
  fru_header : SensorDataRecordHeader;
  fru_key : SensorDataFruRecordKey;
  fru_body : SensorDataFruRecordBody
}.

(** A [char[n]] member occupies exactly [n] bytes. *)
Definition char_array (n : nat) (l : list Z) : list Z :=
  take n (map uint8_t l ++ replicate n 0).

Definition header_bytes (h : SensorDataRecordHeader) : list Z :=
  map uint8_t
    [record_id_lsb h; record_id_msb h; sdr_version h; record_type h;
     record_length h].

Definition key_bytes (k : SensorDataRecordKey) : list Z :=
  map uint8_t [owner_id k; owner_lun k; sensor_number k].

Definition full_body_bytes (b : SensorDataFullRecordBody) : list Z :=
  map uint8_t
    [entity_id b; entity_instance b; sensor_initialization b;
     sensor_capabilities b; sensor_type b; event_reading_type b;
     fst (supported_assertions b); snd (supported_assertions b);
     fst (supported_deassertions b); snd (supported_deassertions b);
     fst (discrete_reading_setting_mask b);
     snd (discrete_reading_setting_mask b);
     sensor_units_1 b; sensor_units_2_base b; sensor_units_3_modifier b;
     linearization b; m_lsb b; m_msb_and_tolerance b; b_lsb b;
     b_msb_and_accuracy_lsb b; accuracy_and_sensor_direction b;
     r_b_exponents b; analog_characteristic_flags b; nominal_reading b;
     normal_max b; normal_min b; sensor_max b; sensor_min b;
     upper_nonrecoverable_threshold b; upper_critical_threshold b;
     upper_noncritical_threshold b; lower_nonrecoverable_threshold b;
     lower_critical_threshold b; lower_noncritical_threshold b;
     positive_threshold_hysteresis b; negative_threshold_hysteresis b;
     Z.land (reserved b) 0xFF; Z.shiftr (reserved b) 8;
     oem_reserved b; id_string_info b]
  ++ char_array FULL_RECORD_ID_STR_MAX_LENGTH (id_string b).

(** The object representation read by [reinterpret_cast<uint8_t *>(&record)]. *)
Definition full_record_bytes (r : SensorDataFullRecord) : list Z :=
  header_bytes (header r) ++ key_bytes (key r) ++ full_body_bytes (body r).

Definition fru_record_bytes (r : SensorDataFruRecord) : list Z :=
  header_bytes (fru_header r)
  ++ map uint8_t
       [deviceAddress (fru_key r); fruID (fru_key r); accessLun (fru_key r);
        channelNumber (fru_key r)]
  ++ map uint8_t
       [fru_reserved (fru_body r); deviceType (fru_body r);
        deviceTypeModifier (fru_body r); entityID (fru_body r);
        entityInstance (fru_body r); oem (fru_body r);
        deviceIDLen (fru_body r)]
  ++ char_array FRU_RECORD_DEVICE_ID_MAX_LENGTH (deviceID (fru_body r)).

Definition sizeof_SensorDataRecordHeader : Z := 5.
Definition sizeof_SensorDataFullRecord : Z := 64.
Definition sizeof_SensorDataFruRecord : Z := 32.

(** ** Enumerations of sensorcommands.hpp and sdrutils.hpp

    The header values are not part of the sources at hand; every handler
    takes them from the platform, and the properties below hold for all
    values unless a statement says otherwise. *)

Record SensorThresholdReqEnable : Type := {
  setLowerNonCritical : Z;
  setLowerCritical : Z;
  setLowerNonRecoverable : Z;
  setUpperNonCritical : Z;
  setUpperCritical : Z;
  setUpperNonRecoverable : Z
}.

Record IPMISensorEventEnableThresholds : Type := {
  upperCriticalGoingHigh : Z;
  upperNonCriticalGoingHigh : Z;
  lowerCriticalGoingLow : Z;
  lowerNonCriticalGoingLow : Z
}.

Record IPMISensorReadingByte3 : Type := {
  upperCritical : Z;
  upperNonCritical : Z;
  lowerCritical : Z;
  lowerNonCritical : Z
}.

Record SensorUnits : Type := {
  degreesC : Z;
  volts : Z;
  amps : Z;
  rpm : Z;
  watts : Z
}.

(** Modelled from the spec: [SensorThresholdReq] is declared in
    sensorcommands.hpp, outside the sources; the request of Set Sensor
    Thresholds, [static_cast] from the 8 request bytes (sensor number, mask,
    six threshold bytes). *)
Record SensorThresholdReq : Type := {
  sensorNum : Z;
  mask : Z;
  req_lowerNonCritical : Z;
  req_lowerCritical : Z;
  req_lowerNonRecoverable : Z;
  req_upperNonCritical : Z;
  req_upperCritical : Z;
  req_upperNonRecoverable : Z
}.

(** Modelled from the spec: [IPMIThresholds] is declared in
    sensorcommands.hpp, outside the sources; the raw threshold bytes that
    the sensor exposes, each absent when the backend lacks the property. *)
Record IPMIThresholds : Type := {
  warningLow : option Z;
  warningHigh : option Z;
  criticalLow : option Z;
  criticalHigh : option Z
}.

(** ** The platform: collaborators declared outside sensorcommands.cpp *)

Record Platform : Type := {
  (** [size_t] is 64 bits wide ([true]) or 32 bits wide ([false]). *)
  lp64 : bool;
  (* sensorutils.hpp *)
  (** [None]: the visitor throws (the variant holds no arithmetic value). *)
  VariantToDoubleVisitor : DbusVariant -> option float;
  (** [getSensorAttributes(max, min, mValue, rExp, bValue, bExp, bSigned)];
      [None] when it returns false. *)
  getSensorAttributes : float -> float -> option SensorAttributes;
  (** [scaleIPMIValueFromDouble(value, mValue, rExp, bValue, bExp, bSigned)]. *)
  scaleIPMIValueFromDouble : float -> Z -> Z -> Z -> Z -> bool -> Z;
  (** [std::pow]. *)
  pow : float -> float -> float;
  (* sdrutils.hpp *)
  (** [getSensorSubtree(sensorTree)]: the result and the tree it leaves. *)
  getSensorSubtree : SensorSubTree -> bool * SensorSubTree;
  (** [getSensorConnection(sensnum, connection, path)], which reads and may
      refill the global sensor tree: status, connection, path, tree. *)
  getSensorConnection :
    SensorSubTree -> Z -> (ipmi_ret_t * string * string) * SensorSubTree;
  getSensorTypeFromPath : string -> Z;
  getSensorTypeStringFromPath : string -> string;
  getSensorEventTypeFromPath : string -> Z;
  ipmiSdrVersion : Z;
  SENSOR_DATA_FULL_RECORD : Z;
  (* storagecommands.hpp *)
  getFruSdrCount : ipmi_ret_t * Z;
  getFruSdrs : Z -> ipmi_ret_t * SensorDataFruRecord;
  (* the bus *)
  (** The [GetManagedObjects] call on a connection; [None]: it throws. *)
  GetManagedObjects : string -> option ManagedObjectType;
  (** [ipmi::setDbusProperty]; [false]: it throws. *)
  setDbusProperty : string -> string -> string -> string -> DbusVariant -> bool;
  (* enumerations *)
  thresholdReqEnable : SensorThresholdReqEnable;
  eventEnableThresholds : IPMISensorEventEnableThresholds;
  readingByte3 : IPMISensorReadingByte3;
  units : SensorUnits
}.

Definition size_t (P : Platform) (z : Z) : Z :=
  z mod 2 ^ (if lp64 P then 64 else 32).

(** ** Process state *)

(** Calls that leave the process, in the order they are issued. *)
Inductive BackendCall : Type :=
| CallGetSensorSubtree
| CallGetSensorConnection (sensnum : Z)
| CallGetFruSdrCount
| CallGetFruSdrs (fruIndex : Z)
| CallGetManagedObjects (connection : string)
| CallSetDbusProperty
    (connection path interface property : string) (value : DbusVariant).

Record State : Type := {
  sdrReservationID : Z;                                   (* uint16_t *)
  sensorTree : SensorSubTree;
  SensorCache : gmap string (gmap string (gmap string (gmap string DbusVariant)));
  (** function-static in getSensorMap *)
  updateTimeMap : gmap string Z;
  thresholdDeassertMap : gmap string (gmap string (option bool));
  (** ghost: the backend calls issued so far, oldest first *)
  backendCalls : list BackendCall
}.

Definition set_sdrReservationID (v : Z) (st : State) : State :=
  {| sdrReservationID := v; sensorTree := sensorTree st;
     SensorCache := SensorCache st; updateTimeMap := updateTimeMap st;
     thresholdDeassertMap := thresholdDeassertMap st;
     backendCalls := backendCalls st |}.

Definition set_sensorTree (v : SensorSubTree) (st : State) : State :=
  {| sdrReservationID := sdrReservationID st; sensorTree := v;
     SensorCache := SensorCache st; updateTimeMap := updateTimeMap st;
     thresholdDeassertMap := thresholdDeassertMap st;
     backendCalls := backendCalls st |}.

Definition set_SensorCache
    (v : gmap string (gmap string (gmap string (gmap string DbusVariant))))
    (st : State) : State :=
  {| sdrReservationID := sdrReservationID st; sensorTree := sensorTree st;
     SensorCache := v; updateTimeMap := updateTimeMap st;
     thresholdDeassertMap := thresholdDeassertMap st;
     backendCalls := backendCalls st |}.

Definition set_updateTimeMap (v : gmap string Z) (st : State) : State :=
  {| sdrReservationID := sdrReservationID st; sensorTree := sensorTree st;
     SensorCache := SensorCache st; updateTimeMap := v;
     thresholdDeassertMap := thresholdDeassertMap st;
     backendCalls := backendCalls st |}.

Definition set_thresholdDeassertMap
    (v : gmap string (gmap string (option bool))) (st : State) : State :=
  {| sdrReservationID := sdrReservationID st; sensorTree := sensorTree st;
     SensorCache := SensorCache st; updateTimeMap := updateTimeMap st;
     thresholdDeassertMap := v;
     backendCalls := backendCalls st |}.

Definition log_call (c : BackendCall) (st : State) : State :=
  {| sdrReservationID := sdrReservationID st; sensorTree := sensorTree st;
     SensorCache := SensorCache st; updateTimeMap := updateTimeMap st;
     thresholdDeassertMap := thresholdDeassertMap st;
     backendCalls := backendCalls st ++ [c] |}.

(** All caches and the reservation counter are empty/zero on startup. *)
Definition startup : State :=
  {| sdrReservationID := 0; sensorTree := [];
     SensorCache := ∅; updateTimeMap := ∅; thresholdDeassertMap := ∅;
     backendCalls := [] |}.

(** ** The handler monad

    A statement of a handler either falls through with a value, executes
    [return r], lets an exception escape, or reads [len] bytes at [offset]
    beyond the end of a [size]-byte object (undefined behaviour). *)

Inductive Step (R A : Type) : Type :=
| Next (a : A)
| Return (r : R)
| Throw
| Overread (offset len size : Z).
Arguments Next {R A} a.
Arguments Return {R A} r.
Arguments Throw {R A}.
Arguments Overread {R A} offset len size.

Definition Handler (R A : Type) : Type := State -> Step R A * State.

Definition ret {R A} (a : A) : Handler R A := fun st => (Next a, st).

Definition bind {R A B} (m : Handler R A) (k : A -> Handler R B) : Handler R B :=
  fun st =>
    match m st with
    | (Next a, st') => k a st'
    | (Return r, st') => (Return r, st')
    | (Throw, st') => (Throw, st')
    | (Overread o l s, st') => (Overread o l s, st')
    end.

Definition reply {R A} (r : R) : Handler R A := fun st => (Return r, st).
Definition throw {R A} : Handler R A := fun st => (Throw, st).
Definition overread {R A} (o l s : Z) : Handler R A :=
  fun st => (Overread o l s, st).
Definition gets {R A} (f : State -> A) : Handler R A := fun st => (Next (f st), st).
Definition modify {R} (f : State -> State) : Handler R unit :=
  fun st => (Next tt, f st).
(** An optional value whose absence is an exception. *)
Definition orThrow {R A} (o : option A) : Handler R A :=
  match o with Some a => ret a | None => throw end.

Declare Scope handler_scope.
Delimit Scope handler_scope with handler.
Notation "x <- m ;; k" := (bind m (fun x => k))
  (at level 100, m at next level, right associativity) : handler_scope.
Notation "m ;; k" := (bind m (fun _ => k))
  (at level 100, right associativity) : handler_scope.

Local Open Scope handler_scope.

(** ** Attribute-change watcher: the [thresholdChanged] match callback *)

(** [std::variant<bool, double>] *)
Inductive AlarmVariant : Type :=
| AlarmBool (b : bool)
| AlarmDouble (d : float).

(** A PropertiesChanged signal: the object path of the message and the
    changed properties, in the key order in which the flat_map iterates. *)
Record PropertiesChanged : Type := {
  get_path : string;
  values : list (string * AlarmVariant)
}.

(** [pair.first.find("Alarm") != std::string::npos] *)
Definition containsAlarm (name : string) : bool :=
  match String.index 0 "Alarm" name with
  | Some _ => true
  | None => false
  end.

(** The value read through [thresholdDeassertMap[path][name]]; an entry
    that does not exist yet reads as the empty optional. *)
Definition latchOf (m : gmap string (gmap string (option bool)))
    (path name : string) : option bool :=
  default None (default ∅ (m !! path) !! name).

Definition thresholdChanged (m : PropertiesChanged) (st : State) : State :=
  match find (fun pair => containsAlarm (fst pair)) (values m) with
  | None => st
  | Some findAssert =>
      match snd findAssert with
      | AlarmDouble _ => st         (* "Assert non bool": logged, ignored *)
      | AlarmBool ptr =>
          let byPath := default ∅ (thresholdDeassertMap st !! get_path m) in
          if ptr then
            set_thresholdDeassertMap
              (<[get_path m := <[fst findAssert := Some ptr]> byPath]>
                 (thresholdDeassertMap st)) st
          else
            (* operator[] creates the entry; [if (value)] tests has_value *)
            let value := default None (byPath !! fst findAssert) in
            let value := if bool_decide (is_Some value) then Some ptr else value in
            set_thresholdDeassertMap
              (<[get_path m := <[fst findAssert := value]> byPath]>
                 (thresholdDeassertMap st)) st
      end
  end.

(** ** getSensorMaxMin *)

(** [None]: the visitor threw while converting a range property. *)
Definition getSensorMaxMin (P : Platform) (sensorPropertyMap : PropertyMap)
    : option (float * float) :=
  let maxMap := sensorPropertyMap !! "MaxValue" in
  let minMap := sensorPropertyMap !! "MinValue" in
  let max := 127%float in
  let min := (-128)%float in
  match (match maxMap with
         | Some v => VariantToDoubleVisitor P v
         | None => Some max
         end) with
  | None => None
  | Some max =>
      match (match minMap with
             | Some v => VariantToDoubleVisitor P v
             | None => Some min
             end) with
      | None => None
      | Some min => Some (max, min)
      end
  end.

(** ** Sensor map cache: getSensorMap *)

(** [now] is the reading of the steady clock taken by the call; the result
    is the out-parameter [sensorMap] when the function returns true. *)
Definition getSensorMap {R} (P : Platform) (now : Z)
    (sensorConnection sensorPath : string) : Handler R (option SensorMap) :=
  updateFind <- gets (fun st => updateTimeMap st !! sensorConnection) ;;
  let lastUpdate := default 0 updateFind in
  (* [false]: the [return false] of the catch block *)
  enumerated <-
    (if duration_cast_seconds (now - lastUpdate) >? sensorMapUpdatePeriod then
       modify (fun st =>
         set_updateTimeMap (<[sensorConnection := now]> (updateTimeMap st)) st) ;;
       modify (log_call (CallGetManagedObjects sensorConnection)) ;;
       match GetManagedObjects P sensorConnection with
       | None => ret false       (* caught: logged, return false *)
       | Some managedObjects =>
           modify (fun st =>
             set_SensorCache
               (<[sensorConnection := managedObjects]> (SensorCache st)) st) ;;
           ret true
       end
     else ret true) ;;
  if negb enumerated then ret None
  else
    connection <- gets (fun st => SensorCache st !! sensorConnection) ;;
    match connection with
    | None => ret None
    | Some objects =>
        match objects !! sensorPath with
        | None => ret None
        | Some sensorMap => ret (Some sensorMap)
        end
    end.

(** ** Set Sensor Thresholds *)

(** The body of the loop over [thresholdsToSet]: decode the raw byte with
    the linear formula and write the property. *)
Fixpoint writeThresholds {R} (P : Platform) (connection path : string)
    (a : SensorAttributes) (thresholdsToSet : list (string * Z * string))
    : Handler R unit :=
  match thresholdsToSet with
  | [] => ret tt
  | (propertyName, thresholdValue, interface) :: rest =>
      let valueToSet :=
        PrimFloat.mul
          (PrimFloat.add
             (double_of_int (mValue a * thresholdValue))
             (PrimFloat.mul (double_of_int (bValue a))
                (pow P 10%float (double_of_int (bExp a)))))
          (pow P 10%float (double_of_int (rExp a))) in
      modify (log_call (CallSetDbusProperty connection path interface
                          propertyName (VariantDouble valueToSet))) ;;
      (if setDbusProperty P connection path interface propertyName
            (VariantDouble valueToSet)
       then ret tt else throw) ;;
      writeThresholds P connection path a rest
  end.

Definition nonzero (z : Z) : bool := negb (z =? 0).

(** The handler returns an [ipmi_ret_t]; [*dataLen] is 0 on every path. *)
Definition ipmiSenSetSensorThresholds (P : Platform) (now : Z)
    (dataLen : Z) (req : SensorThresholdReq) : Handler ipmi_ret_t Empty_set :=
  let E := thresholdReqEnable P in
  if negb (dataLen =? 8) then reply IPMI_CC_REQ_DATA_LEN_INVALID else
  (* upper two bits reserved *)
  if nonzero (Z.land (mask req) 0xC0) then reply IPMI_CC_INVALID_FIELD_REQUEST else
  (* lower nc and upper nc not supported on any sensor *)
  if nonzero (Z.land (mask req) (setLowerNonRecoverable E))
     || nonzero (Z.land (mask req) (setUpperNonRecoverable E))
  then reply IPMI_CC_INVALID_FIELD_REQUEST else
  (* if no bits are set in the mask, nothing to do *)
  if mask req =? 0 then reply IPMI_CC_OK else
  modify (log_call (CallGetSensorConnection (sensorNum req))) ;;
  tree <- gets sensorTree ;;
  let lookup := getSensorConnection P tree (sensorNum req) in
  modify (set_sensorTree (snd lookup)) ;;
  let status := fst (fst (fst lookup)) in
  let connection := snd (fst (fst lookup)) in
  let path := snd (fst lookup) in
  if nonzero status then reply status else
  found <- getSensorMap P now connection path ;;
  match found with
  | None => reply IPMI_CC_RESPONSE_ERROR
  | Some sensorMap =>
  match sensorMap !! "xyz.openbmc_project.Sensor.Value" with
  | None => reply IPMI_CC_RESPONSE_ERROR
  | Some sensorObject =>
  maxmin <- orThrow (getSensorMaxMin P sensorObject) ;;
  match getSensorAttributes P (fst maxmin) (snd maxmin) with
  | None => reply IPMI_CC_RESPONSE_ERROR
  | Some attrs =>
  let setLowerCritical := nonzero (Z.land (mask req) (setLowerCritical E)) in
  let setUpperCritical := nonzero (Z.land (mask req) (setUpperCritical E)) in
  let setLowerWarning := nonzero (Z.land (mask req) (setLowerNonCritical E)) in
  let setUpperWarning := nonzero (Z.land (mask req) (setUpperNonCritical E)) in
  let thresholdsToSet : list (string * Z * string) := [] in
  (* verify all needed fields are present *)
  thresholdsToSet <-
    (if setLowerCritical || setUpperCritical then
       let interface := "xyz.openbmc_project.Sensor.Threshold.Critical"%string in
       match sensorMap !! interface with
       | None => reply IPMI_CC_INVALID_FIELD_REQUEST
       | Some findThreshold =>
           thresholdsToSet <-
             (if setLowerCritical then
                match findThreshold !! "CriticalLow" with
                | None => reply IPMI_CC_INVALID_FIELD_REQUEST
                | Some _ =>
                    ret (thresholdsToSet ++
                           [("CriticalLow"%string, req_lowerCritical req, interface)])
                end
              else ret thresholdsToSet) ;;
           (if setUpperCritical then
              match findThreshold !! "CriticalHigh" with
              | None => reply IPMI_CC_INVALID_FIELD_REQUEST
              | Some _ =>
                  ret (thresholdsToSet ++
                         [("CriticalHigh"%string, req_upperCritical req, interface)])
              end
            else ret thresholdsToSet)
       end
     else ret thresholdsToSet) ;;
  thresholdsToSet <-
    (if setLowerWarning || setUpperWarning then
       let interface := "xyz.openbmc_project.Sensor.Threshold.Warning"%string in
       match sensorMap !! interface with
       | None => reply IPMI_CC_INVALID_FIELD_REQUEST
       | Some findThreshold =>
           thresholdsToSet <-
             (if setLowerWarning then
                match findThreshold !! "WarningLow" with
                | None => reply IPMI_CC_INVALID_FIELD_REQUEST
                | Some _ =>
                    ret (thresholdsToSet ++
                           [("WarningLow"%string, req_lowerNonCritical req, interface)])
                end
              else ret thresholdsToSet) ;;
           (if setUpperWarning then
              match findThreshold !! "WarningHigh" with
              | None => reply IPMI_CC_INVALID_FIELD_REQUEST
              | Some _ =>
                  ret (thresholdsToSet ++
                         [("WarningHigh"%string, req_upperNonCritical req, interface)])
              end
            else ret thresholdsToSet)
       end
     else ret thresholdsToSet) ;;
  writeThresholds P connection path attrs thresholdsToSet ;;
  reply IPMI_CC_OK
  end end end.

(** ** getIPMIThresholds *)

(** The raw byte of one threshold property, when the property exists;
    the outer [None] is an exception of the visitor. *)
Definition scaledThreshold (P : Platform) (a : SensorAttributes)
    (property : option DbusVariant) : option (option Z) :=
  match property with
  | None => Some None
  | Some v =>
      match VariantToDoubleVisitor P v with
      | None => None
      | Some value =>
          Some (Some (scaleIPMIValueFromDouble P value (mValue a) (rExp a)
                        (bValue a) (bExp a) (bSigned a)))
      end
  end.

(** [None]: the function throws ("Invalid sensor map", "Invalid sensor
    atrributes", or the visitor's exception). *)
Definition getIPMIThresholds (P : Platform) (sensorMap : SensorMap)
    : option IPMIThresholds :=
  let warningInterface :=
    sensorMap !! "xyz.openbmc_project.Sensor.Threshold.Warning" in
  let criticalInterface :=
    sensorMap !! "xyz.openbmc_project.Sensor.Threshold.Critical" in
  if bool_decide (is_Some warningInterface) || bool_decide (is_Some criticalInterface)
  then
    match sensorMap !! "xyz.openbmc_project.Sensor.Value" with
    | None => None
    | Some sensorPair =>
        match getSensorMaxMin P sensorPair with
        | None => None
        | Some (max, min) =>
            match getSensorAttributes P max min with
            | None => None
            | Some a =>
                let warningMap := default ∅ warningInterface in
                let criticalMap := default ∅ criticalInterface in
                match scaledThreshold P a (warningMap !! "WarningHigh") with
                | None => None
                | Some respWarningHigh =>
                match scaledThreshold P a (warningMap !! "WarningLow") with
                | None => None
                | Some respWarningLow =>
                match scaledThreshold P a (criticalMap !! "CriticalHigh") with
                | None => None
                | Some respCriticalHigh =>
                match scaledThreshold P a (criticalMap !! "CriticalLow") with
                | None => None
                | Some respCriticalLow =>
                    Some {| warningLow := respWarningLow;
                            warningHigh := respWarningHigh;
                            criticalLow := respCriticalLow;
                            criticalHigh := respCriticalHigh |}
                end end end end
            end
        end
    end
  else
    Some {| warningLow := None; warningHigh := None;
            criticalLow := None; criticalHigh := None |}.

(** ** Reserve SDR Repository *)

(** Result: completion code, [*dataLen] on return, and the response bytes
    written. *)
Definition ipmiStorageReserveSDR (dataLen : Z) (st : State)
    : (ipmi_ret_t * Z * list Z) * State :=
  if nonzero dataLen then ((IPMI_CC_REQ_DATA_LEN_INVALID, 0, []), st)
  else
    let id := uint16_t (sdrReservationID st + 1) in
    let id := if id =? 0 then uint16_t (id + 1) else id in
    ((IPMI_CC_OK, 2, [Z.land id 0xFF; uint8_t (Z.shiftr id 8)]),
     set_sdrReservationID id st).

(** The 16-bit reservation ID that a requester reads from the response. *)
Definition reservationIdOfResponse (resp : list Z) : Z :=
  match resp with
  | [ls; ms] => ls + 256 * ms
  | _ => 0
  end.

(** ** Get SDR *)

Definition string_bytes (s : string) : list Z :=
  map (fun c => Z.of_nat (nat_of_ascii c)) (list_ascii_of_string s).

(** [std::string::rfind] of one character. *)
Fixpoint rfind (c : ascii) (s : string) : option nat :=
  match s with
  | EmptyString => None
  | String a rest =>
      match rfind c rest with
      | Some i => Some (S i)
      | None => if Ascii.eqb a c then Some O else None
      end
  end.

(** [std::replace(name.begin(), name.end(), from, to)] *)
Fixpoint replace_char (from to : ascii) (s : string) : string :=
  match s with
  | EmptyString => EmptyString
  | String a rest =>
      String (if Ascii.eqb a from then to else a) (replace_char from to rest)
  end.

(** [c_str()] seen by a C function: the characters before the first NUL. *)
Fixpoint c_str (l : list Z) : list Z :=
  match l with
  | [] => []
  | c :: rest => if c =? 0 then [] else c :: c_str rest
  end.

(** [std::strncpy(dst, src, n)]: copies at most [n] characters and pads
    with NUL. *)
Definition strncpy (n : nat) (src : list Z) : list Z :=
  take n (c_str src ++ replicate n 0).

(** The display name: last path segment, underscores to spaces, truncated. *)
Definition sensorName (path : string) : string :=
  let name :=
    match rfind "/"%char path with
    | Some nameStart =>
        String.substring (S nameStart) (String.length path - S nameStart)%nat path
    | None => EmptyString
    end in
  let name := replace_char "_"%char " "%char name in
  if (FULL_RECORD_ID_STR_MAX_LENGTH <? String.length name)%nat
  then String.substring 0 FULL_RECORD_ID_STR_MAX_LENGTH name
  else name.

(** The file-scope [sensorUnits] table, searched with [strcmp]. *)
Definition sensorUnits (P : Platform) (type : string) : option Z :=
  if String.eqb type "temperature" then Some (degreesC (units P))
  else if String.eqb type "voltage" then Some (volts (units P))
  else if String.eqb type "current" then Some (amps (units P))
  else if String.eqb type "fan_tach" then Some (rpm (units P))
  else if String.eqb type "power" then Some (watts (units P))
  else None.

(** The loop over [sensorTree] that selects the sensor of a record:
    [None] is the early [responseResponseError]; when the loop ends without
    a hit, [connection] and [path] keep their initial empty value. *)
Fixpoint selectSensor (tree : SensorSubTree) (sensorIndex : Z)
    : option (string * string) :=
  match tree with
  | [] => Some (EmptyString, EmptyString)
  | sensor :: rest =>
      if sensorIndex =? 0 then
        match snd sensor with
        | [] => None
        | first :: _ => Some (fst first, fst sensor)
        end
      else selectSensor rest (uint16_t (sensorIndex - 1))
  end.

(** The bytes [respStart, respStart + bytesToRead) of an object. *)
Definition readWindow {R} (object : list Z) (offset bytesToRead : Z)
    : Handler R (list Z) :=
  if offset + bytesToRead <=? Z.of_nat (length object)
  then ret (take (Z.to_nat bytesToRead) (drop (Z.to_nat offset) object))
  else overread offset bytesToRead (Z.of_nat (length object)).

(** The four statements that assign [record.body.r_b_exponents]. *)
Definition pack_r_b_exponents (bExp rExp : Z) : Z :=
  let r_b_exponents := uint8_t (Z.land bExp 0x7) in
  let r_b_exponents :=
    if bExp <? 0 then uint8_t (Z.lor r_b_exponents (Z.shiftl 1 3))
    else r_b_exponents in
  let r_b_exponents := uint8_t (Z.shiftl (Z.land rExp 0x7) 4) in
  let r_b_exponents :=
    if rExp <? 0 then uint8_t (Z.lor r_b_exponents (Z.shiftl 1 7))
    else r_b_exponents in
  r_b_exponents.

(** The 10-bit M and B: the bit-8 flag moved to bit 6, the sign to bit 7. *)
Definition pack_msb (value : Z) : Z :=
  let msb := if Z.land value (Z.shiftl 1 8) >? 0 then Z.shiftl 1 6 else 0 in
  if value <? 0 then uint8_t (Z.lor msb (Z.shiftl 1 7)) else msb.

(** [x |= bits] when the threshold is present. *)
Definition orWhen {A} (present : option A) (bits x : Z) : Z :=
  match present with
  | Some _ => uint8_t (Z.lor x bits)
  | None => x
  end.

(** The full record of a live sensor, from the zero-initialised record to
    the last assignment; [Return] carries the early error responses. *)
Definition buildFullRecord {T} (P : Platform) (recordID : Z) (path : string)
    (sensorMap : SensorMap) : Handler (RspType T) SensorDataFullRecord :=
  let Ev := eventEnableThresholds P in
  let B3 := readingByte3 P in
  let sensornumber := Z.land recordID 0xFF in
  let record_header :=
    {| record_id_msb := uint8_t (Z.shiftl recordID 8);
       record_id_lsb := Z.land recordID 0xFF;
       sdr_version := ipmiSdrVersion P;
       record_type := SENSOR_DATA_FULL_RECORD P;
       record_length :=
         sizeof_SensorDataFullRecord - sizeof_SensorDataRecordHeader |} in
  let record_key :=
    {| owner_id := 0x20; owner_lun := 0x0; sensor_number := sensornumber |} in
  let type := getSensorTypeStringFromPath P path in
  let findUnits := sensorUnits P type in
  match sensorMap !! "xyz.openbmc_project.Sensor.Value" with
  | None => reply responseResponseError
  | Some sensorObject =>
  let maxObject := sensorObject !! "MaxValue" in
  let minObject := sensorObject !! "MinValue" in
  let max := 128%float in
  let min := (-127)%float in
  max <- orThrow (match maxObject with
                  | Some v => VariantToDoubleVisitor P v
                  | None => Some max
                  end) ;;
  min <- orThrow (match minObject with
                  | Some v => VariantToDoubleVisitor P v
                  | None => Some min
                  end) ;;
  match getSensorAttributes P max min with
  | None => reply responseResponseError
  | Some a =>
  let name := sensorName path in
  match getIPMIThresholds P sensorMap with
  | None => reply responseResponseError      (* catch (std::exception &) *)
  | Some thresholdData =>
  let supported_deassertions1 :=
    orWhen (criticalHigh thresholdData) (upperCriticalGoingHigh Ev) 0 in
  let supported_assertions1 :=
    orWhen (criticalHigh thresholdData) (upperCriticalGoingHigh Ev) 0 in
  let mask0 := orWhen (criticalHigh thresholdData) (upperCritical B3) 0 in
  let supported_deassertions0 :=
    orWhen (warningHigh thresholdData) (upperNonCriticalGoingHigh Ev) 0 in
  let supported_assertions0 :=
    orWhen (warningHigh thresholdData) (upperNonCriticalGoingHigh Ev) 0 in
  let mask0 := orWhen (warningHigh thresholdData) (upperNonCritical B3) mask0 in
  let supported_deassertions0 :=
    orWhen (criticalLow thresholdData) (lowerCriticalGoingLow Ev)
      supported_deassertions0 in
  let supported_assertions0 :=
    orWhen (criticalLow thresholdData) (lowerCriticalGoingLow Ev)
      supported_assertions0 in
  let mask0 := orWhen (criticalLow thresholdData) (lowerCritical B3) mask0 in
  let supported_deassertions0 :=
    orWhen (warningLow thresholdData) (lowerNonCriticalGoingLow Ev)
      supported_deassertions0 in
  let supported_assertions0 :=
    orWhen (warningLow thresholdData) (lowerNonCriticalGoingLow Ev)
      supported_assertions0 in
  let mask0 := orWhen (warningLow thresholdData) (lowerNonCritical B3) mask0 in
  (* everything that is readable is setable *)
  let mask1 := mask0 in
  ret {| header := record_header;
         key := record_key;
         body :=
           {| entity_id := 0x0;
              entity_instance := 0x01;
              sensor_initialization := 0;
              sensor_capabilities := 0x68;
              sensor_type := uint8_t (getSensorTypeFromPath P path);
              event_reading_type := uint8_t (getSensorEventTypeFromPath P path);
              supported_assertions :=
                (supported_assertions0, supported_assertions1);
              supported_deassertions :=
                (supported_deassertions0, supported_deassertions1);
              discrete_reading_setting_mask := (mask0, mask1);
              sensor_units_1 := if bSigned a then Z.shiftl 1 7 else 0;
              sensor_units_2_base := uint8_t (default 0 findUnits);
              sensor_units_3_modifier := 0;
              linearization := 0;
              m_lsb := Z.land (mValue a) 0xFF;
              m_msb_and_tolerance := pack_msb (mValue a);
              b_lsb := Z.land (bValue a) 0xFF;
              b_msb_and_accuracy_lsb := pack_msb (bValue a);
              accuracy_and_sensor_direction := 0;
              r_b_exponents := pack_r_b_exponents (bExp a) (rExp a);
              analog_characteristic_flags := 0;
              nominal_reading := 0;
              normal_max := 0;
              normal_min := 0;
              sensor_max := 0;
              sensor_min := 0;
              upper_nonrecoverable_threshold := 0;
              upper_critical_threshold := default 0 (criticalHigh thresholdData);
              upper_noncritical_threshold := default 0 (warningHigh thresholdData);
              lower_nonrecoverable_threshold := 0;
              lower_critical_threshold := default 0 (criticalLow thresholdData);
              lower_noncritical_threshold := default 0 (warningLow thresholdData);
              positive_threshold_hysteresis := 0;
              negative_threshold_hysteresis := 0;
              reserved := 0;
              oem_reserved := 0;
              id_string_info := Z.of_nat (String.length name);
              id_string :=
                strncpy FULL_RECORD_ID_STR_MAX_LENGTH (string_bytes name) |} |}
  end end end.

(** [bytesToRead] after the clamp against the object size
    ([sizeof(...) - offset] is computed in [size_t], stored in [uint8_t]). *)
Definition clampBytesToRead (P : Platform) (sizeof_record offset bytesToRead : Z)
    : Z :=
  if sizeof_record <? offset + bytesToRead
  then uint8_t (size_t P (sizeof_record - offset))
  else bytesToRead.

Definition set_record_id (recordID : Z) (data : SensorDataFruRecord)
    : SensorDataFruRecord :=
  {| fru_header :=
       {| record_id_lsb := Z.land recordID 0xFF;
          record_id_msb := uint8_t (Z.shiftl recordID 8);
          sdr_version := sdr_version (fru_header data);
          record_type := record_type (fru_header data);
          record_length := record_length (fru_header data) |};
     fru_key := fru_key data;
     fru_body := fru_body data |}.

(** Success carries (next record ID, payload). *)
Definition ipmiStorageGetSDR (P : Platform) (now : Z)
    (reservationID recordID offset bytesToRead : Z)
    : Handler (RspType (Z * list Z)) Empty_set :=
  let lastRecordIndex := 0xFFFF in
  (* reservation required for partial reads with non zero offset into record *)
  current <- gets sdrReservationID ;;
  if ((current =? 0) || negb (reservationID =? current)) && nonzero offset
  then reply responseInvalidReservationId else
  tree <- gets sensorTree ;;
  haveTree <-
    (match tree with
     | [] =>
         modify (log_call CallGetSensorSubtree) ;;
         modify (set_sensorTree (snd (getSensorSubtree P tree))) ;;
         ret (fst (getSensorSubtree P tree))
     | _ :: _ => ret true
     end) ;;
  if negb haveTree then reply responseResponseError else
  modify (log_call CallGetFruSdrCount) ;;
  let ret_ := fst (getFruSdrCount P) in
  let fruCount := size_t P (snd (getFruSdrCount P)) in
  if negb (ret_ =? IPMI_CC_OK) then reply (response ret_) else
  tree <- gets sensorTree ;;
  let sensorTree_size := Z.of_nat (length tree) in
  let lastRecord := size_t P (sensorTree_size + fruCount - 1) in
  let recordID :=
    if recordID =? lastRecordIndex then uint16_t lastRecord else recordID in
  if recordID >? lastRecord then reply responseInvalidFieldRequest else
  let nextRecordId :=
    if lastRecord >? recordID then uint16_t (recordID + 1) else 0xFFFF in
  if recordID >=? sensorTree_size then
    let fruIndex := size_t P (recordID - sensorTree_size) in
    if fruIndex >=? fruCount then reply responseInvalidFieldRequest else
    if offset >? sizeof_SensorDataFruRecord then reply responseInvalidFieldRequest
    else
    modify (log_call (CallGetFruSdrs fruIndex)) ;;
    let ret_ := fst (getFruSdrs P fruIndex) in
    let data := snd (getFruSdrs P fruIndex) in
    if negb (ret_ =? IPMI_CC_OK) then reply (response ret_) else
    let data := set_record_id recordID data in
    let bytesToRead :=
      clampBytesToRead P sizeof_SensorDataFruRecord offset bytesToRead in
    recordData <- readWindow (fru_record_bytes data) offset bytesToRead ;;
    reply (responseSuccess (nextRecordId, recordData))
  else
  match selectSensor tree recordID with
  | None => reply responseResponseError
  | Some (connection, path) =>
  found <- getSensorMap P now connection path ;;
  match found with
  | None => reply responseResponseError
  | Some sensorMap =>
  record <- buildFullRecord P recordID path sensorMap ;;
  let bytesToRead :=
    clampBytesToRead P sizeof_SensorDataFullRecord offset bytesToRead in
  recordData <- readWindow (full_record_bytes record) offset bytesToRead ;;
  reply (responseSuccess (nextRecordId, recordData))
  end end.

(** ** A concrete platform

    The enumeration values of the IPMI v2.0 specification and a small
    backend with one temperature sensor; used to evaluate the handlers. *)

Definition ipmiThresholdReqEnable : SensorThresholdReqEnable :=
  {| setLowerNonCritical := 0x1; setLowerCritical := 0x2;
     setLowerNonRecoverable := 0x4; setUpperNonCritical := 0x8;
     setUpperCritical := 0x10; setUpperNonRecoverable := 0x20 |}.

Definition ipmiEventEnableThresholds : IPMISensorEventEnableThresholds :=
  {| upperCriticalGoingHigh := 0x02; upperNonCriticalGoingHigh := 0x80;
     lowerCriticalGoingLow := 0x04; lowerNonCriticalGoingLow := 0x01 |}.

Definition ipmiReadingByte3 : IPMISensorReadingByte3 :=
  {| upperCritical := 0x10; upperNonCritical := 0x08;
     lowerCritical := 0x02; lowerNonCritical := 0x01 |}.

Definition ipmiSensorUnits : SensorUnits :=
  {| degreesC := 0x01; volts := 0x04; amps := 0x05; rpm := 0x12;
     watts := 0x06 |}.

Definition demoPath : string := "/xyz/openbmc_project/sensors/temperature/CPU_Temp".
Definition demoConnection : string := "xyz.openbmc_project.HwmonTempSensor".

(** A sensor with a value and a warning interface but no range properties
    and no critical interface. *)
Definition demoValueProperties : PropertyMap :=
  <["Value" := VariantDouble 42.5%float]> ∅.

Definition demoSensorMap : SensorMap :=
  <["xyz.openbmc_project.Sensor.Value" := demoValueProperties]>
  (<["xyz.openbmc_project.Sensor.Threshold.Warning" :=
      <["WarningHigh" := VariantDouble 80%float]>
      (<["WarningLow" := VariantDouble 5%float]> ∅)]> ∅).

Definition demoTree : SensorSubTree :=
  [(demoPath, [(demoConnection, ["xyz.openbmc_project.Sensor.Value"%string])])].

Definition demoFru : SensorDataFruRecord :=
  {| fru_header :=
       {| record_id_lsb := 0; record_id_msb := 0; sdr_version := 0x51;
          record_type := 0x11; record_length := 27 |};
     fru_key :=
       {| deviceAddress := 0; fruID := 0; accessLun := 0; channelNumber := 0 |};
     fru_body :=
       {| fru_reserved := 0; deviceType := 0x10; deviceTypeModifier := 0;
          entityID := 0; entityInstance := 1; oem := 0; deviceIDLen := 3;
          deviceID := string_bytes "BMC" |} |}.

(** The integral part of a double. *)
Definition truncate_double (d : float) : Z :=
  let fe := PrimFloat.frshiftexp (PrimFloat.abs d) in
  let mantissa := Uint63.to_Z (PrimFloat.normfr_mantissa (fst fe)) in
  let exponent := Uint63.to_Z (snd fe) - FloatOps.shift - 53 in
  let magnitude := Z.shiftl mantissa exponent in
  if PrimFloat.ltb d 0%float then - magnitude else magnitude.

(** A stand-in linearization: slope 1, no offset, signed exactly when the
    range reaches below zero, and the exponent taken from the upper bound. *)
Definition demoAttributes (max min : float) : option SensorAttributes :=
  if PrimFloat.ltb min max then
    Some {| mValue := 1;
            rExp := if PrimFloat.ltb 127%float max then -1 else 0;
            bValue := 0;
            bExp := -2;
            bSigned := PrimFloat.ltb min 0%float |}
  else None.

(** The backend of the demo sensor: enumeration of [demoConnection] yields
    the given sensor map at [demoPath]; every other connection fails. *)
Definition demoBackend (sensorMap : SensorMap)
    (connection : string) : option ManagedObjectType :=
  if String.eqb connection demoConnection
  then Some (<[demoPath := sensorMap]> ∅)
  else None.

Definition demoPlatformWith
    (managed : string -> option ManagedObjectType) : Platform :=
  {| lp64 := false;
     VariantToDoubleVisitor := fun v =>
       match v with
       | VariantDouble d => Some d
       | VariantInt z => Some (double_of_int z)
       | VariantBool b => Some (if b then 1%float else 0%float)
       | VariantString _ => None
       end;
     getSensorAttributes := demoAttributes;
     scaleIPMIValueFromDouble := fun value m r b be sgn =>
       uint8_t (truncate_double value);
     pow := fun _ _ => 1%float;
     getSensorSubtree := fun _ => (true, demoTree);
     getSensorConnection := fun tree sensnum =>
       if sensnum =? 0 then ((0, demoConnection, demoPath), demoTree)
       else ((IPMI_CC_INVALID_FIELD_REQUEST, EmptyString, EmptyString), demoTree);
     getSensorTypeFromPath := fun _ => 0x01;
     getSensorTypeStringFromPath := fun _ => "temperature"%string;
     getSensorEventTypeFromPath := fun _ => 0x01;
     ipmiSdrVersion := 0x51;
     SENSOR_DATA_FULL_RECORD := 0x01;
     getFruSdrCount := (IPMI_CC_OK, 2);
     getFruSdrs := fun _ => (IPMI_CC_OK, demoFru);
     GetManagedObjects := managed;
     setDbusProperty := fun _ _ _ _ _ => true;
     thresholdReqEnable := ipmiThresholdReqEnable;
     eventEnableThresholds := ipmiEventEnableThresholds;
     readingByte3 := ipmiReadingByte3;
     units := ipmiSensorUnits |}.

Definition demoPlatform : Platform := demoPlatformWith (demoBackend demoSensorMap).

(** A state with one issued reservation and the demo sensor in the tree. *)
Definition demoState : State :=
  set_sensorTree demoTree (set_sdrReservationID 1 startup).

(** One hour of steady-clock time. *)
Definition demoNow : Z := 3600 * 1000000000.

(** The zero-initialised full record ([record = {0}]). *)
Definition zeroFullRecord : SensorDataFullRecord :=
  {| header :=
       {| record_id_lsb := 0; record_id_msb := 0; sdr_version := 0;
          record_type := 0; record_length := 0 |};
     key := {| owner_id := 0; owner_lun := 0; sensor_number := 0 |};
     body :=
       {| entity_id := 0; entity_instance := 0; sensor_initialization := 0;
          sensor_capabilities := 0; sensor_type := 0; event_reading_type := 0;
          supported_assertions := (0, 0); supported_deassertions := (0, 0);
          discrete_reading_setting_mask := (0, 0); sensor_units_1 := 0;
          sensor_units_2_base := 0; sensor_units_3_modifier := 0;
          linearization := 0; m_lsb := 0; m_msb_and_tolerance := 0;
          b_lsb := 0; b_msb_and_accuracy_lsb := 0;
          accuracy_and_sensor_direction := 0; r_b_exponents := 0;
          analog_characteristic_flags := 0; nominal_reading := 0;
          normal_max := 0; normal_min := 0; sensor_max := 0; sensor_min := 0;
          upper_nonrecoverable_threshold := 0; upper_critical_threshold := 0;
          upper_noncritical_threshold := 0;
          lower_nonrecoverable_threshold := 0; lower_critical_threshold := 0;
          lower_noncritical_threshold := 0;
          positive_threshold_hysteresis := 0;
          negative_threshold_hysteresis := 0; reserved := 0;
          oem_reserved := 0; id_string_info := 0; id_string := [] |} |}.

(** The full record that Get SDR assembles for the demo sensor. *)
Definition demoRecord : SensorDataFullRecord :=
  Eval vm_compute in
    match fst (buildFullRecord (T := Z * list Z) demoPlatform 0 demoPath
                 demoSensorMap demoState) with
    | Next record => record
    | _ => zeroFullRecord
    end.

(** ** The latch discipline in the words of the specification

    What one notification means for the latch of a (sensor path, alarm
    name): an assertion, a deassertion, or nothing. *)

Inductive LatchEvent : Type :=
| Assertion
| Deassertion
| NoEvent.

Definition latchEvent (path name : string) (m : PropertiesChanged) : LatchEvent :=
  match find (fun pair => containsAlarm (fst pair)) (values m) with
  | Some (n, AlarmBool b) =>
      if bool_decide (get_path m = path /\ n = name)
      then (if b then Assertion else Deassertion)
      else NoEvent
  | _ => NoEvent
  end.

(** An assertion overwrites the latch with "asserted"; a deassertion sets
    it to "deasserted" only if a value was recorded before. *)
Definition latchStep (latch : option bool) (e : LatchEvent) : option bool :=
  match e with
  | Assertion => Some true
  | Deassertion =>
      match latch with
      | Some _ => Some false
      | None => None
      end
  | NoEvent => latch
  end.

(** The watcher run over a sequence of notifications, oldest first. *)
Definition processNotifications (ms : list PropertiesChanged) (st : State)
    : State :=
  foldl (fun st m => thresholdChanged m st) st ms.

(** ** Observations on the ghost call log *)

Definition isPropertyWrite (c : BackendCall) : bool :=
  match c with
  | CallSetDbusProperty _ _ _ _ _ => true
  | _ => false
  end.

(** The property writes issued so far. *)
Definition propertyWrites (st : State) : list BackendCall :=
  List.filter isPropertyWrite (backendCalls st).

(** A mask selects a threshold whose interface or property the sensor map
    lacks. *)
Definition lacksProperty (sensorMap : SensorMap) (interface property : string)
    : bool :=
  match sensorMap !! interface with
  | None => true
  | Some properties =>
      match properties !! property with
      | None => true
      | Some _ => false
      end
  end.

Definition selectsMissingThreshold (E : SensorThresholdReqEnable) (mask : Z)
    (sensorMap : SensorMap) : bool :=
  (nonzero (Z.land mask (setLowerCritical E))
   && lacksProperty sensorMap "xyz.openbmc_project.Sensor.Threshold.Critical"
        "CriticalLow")
  || (nonzero (Z.land mask (setUpperCritical E))
      && lacksProperty sensorMap "xyz.openbmc_project.Sensor.Threshold.Critical"
           "CriticalHigh")
  || (nonzero (Z.land mask (setLowerNonCritical E))
      && lacksProperty sensorMap "xyz.openbmc_project.Sensor.Threshold.Warning"
           "WarningLow")
  || (nonzero (Z.land mask (setUpperNonCritical E))
      && lacksProperty sensorMap "xyz.openbmc_project.Sensor.Threshold.Warning"
           "WarningHigh").

(** ** The record space seen by Get SDR *)

(** The sensor tree that Get SDR works on: the stored one, or the one that
    [getSensorSubtree] leaves when the stored one is empty. *)
Definition sensorTreeAfterRefresh (P : Platform) (st : State) : SensorSubTree :=
  match sensorTree st with
  | [] => snd (getSensorSubtree P [])
  | tree => tree
  end.

(** sensorCount + fruCount *)
Definition recordCount (P : Platform) (st : State) : Z :=
  Z.of_nat (length (sensorTreeAfterRefresh P st))
  + size_t P (snd (getFruSdrCount P)).

(** The reservation check lets the call through. *)
Definition passesReservationCheck (reservationID offset : Z) (st : State) : Prop :=
  offset = 0 \/ (sdrReservationID st <> 0 /\ reservationID = sdrReservationID st).

(** The sensor tree is there or can be fetched. *)
Definition sensorTreeAvailable (P : Platform) (st : State) : Prop :=
  sensorTree st <> [] \/ fst (getSensorSubtree P []) = true.

(** ** The range of a sensor with given defaults *)

(** The range properties of a Value interface, each replaced by a default
    when absent; [None] when the visitor throws. *)
Definition rangeWithDefaults (P : Platform) (props : PropertyMap)
    (defaultMax defaultMin : float) : option (float * float) :=
  match (match props !! "MaxValue" with
         | Some v => VariantToDoubleVisitor P v
         | None => Some defaultMax
         end) with
  | None => None
  | Some max =>
      match (match props !! "MinValue" with
             | Some v => VariantToDoubleVisitor P v
             | None => Some defaultMin
             end) with
      | None => None
      | Some min => Some (max, min)
      end
  end.

(** ** Predicates on handlers used in the proofs *)

(** The handler neither reads nor writes the reservation counter. *)
Definition Commutes {R A} (m : Handler R A) : Prop :=
  forall v st,
    m (set_sdrReservationID v st)
    = (fst (m st), set_sdrReservationID v (snd (m st))).

(** Every [return] of the handler carries a value in [Q]. *)
Definition Replies {R A} (Q : R -> Prop) (m : Handler R A) : Prop :=
  forall st r st', m st = (Return r, st') -> Q r.

(** ** Further demo data *)

(** A platform whose enumeration always fails. *)
Definition failingPlatform : Platform := demoPlatformWith (fun _ => None).

(** A deassertion of [CriticalAlarmHigh] for the demo sensor. *)
Definition demoDeassertion : PropertiesChanged :=
  {| get_path := demoPath;
     values := [("CriticalAlarmHigh"%string, AlarmBool false)] |}.

(** A mask with a reserved bit next to the lower-critical bit. *)
Definition reservedBitRequest : SensorThresholdReq :=
  {| sensorNum := 0; mask := 0x42; req_lowerNonCritical := 0;
     req_lowerCritical := 10; req_lowerNonRecoverable := 0;
     req_upperNonCritical := 0; req_upperCritical := 0;
     req_upperNonRecoverable := 0 |}.

(** A request to set the lower critical threshold only. *)
Definition lowerCriticalRequest : SensorThresholdReq :=
  {| sensorNum := 0; mask := 0x02; req_lowerNonCritical := 0;
     req_lowerCritical := 10; req_lowerNonRecoverable := 0;
     req_upperNonCritical := 0; req_upperCritical := 0;
     req_upperNonRecoverable := 0 |}.

(** A sensor that exposes a warning interface and nothing else: no value
    interface and no critical interface. *)
Definition warningOnlySensorMap : SensorMap :=
  <["xyz.openbmc_project.Sensor.Threshold.Warning" :=
      <["WarningHigh" := VariantDouble 80%float]> ∅]> ∅.

Definition warningOnlyPlatform : Platform :=
  demoPlatformWith (demoBackend warningOnlySensorMap).

(** A sensor whose range does not convert: the value interface carries a
    string as [MaxValue]; no threshold interface. *)
Definition unconvertibleSensorMap : SensorMap :=
  <["xyz.openbmc_project.Sensor.Value" :=
      <["MaxValue" := VariantString "n/a"]> demoValueProperties]> ∅.

Definition unconvertiblePlatform : Platform :=
  demoPlatformWith (demoBackend unconvertibleSensorMap).

(** The state in which Set Sensor Thresholds consults the sensor map: the
    lookup of the sensor is logged and has left the tree [tree']. *)
Definition stateAfterLookup (req : SensorThresholdReq) (tree' : SensorSubTree)
    (st : State) : State :=
  set_sensorTree tree'
    (log_call (CallGetSensorConnection (sensorNum req)) st).

(** A refresh is attempted when the stored timestamp of the connection (the
    epoch when there is none) is more than the update period old. *)
Definition refreshDue (now : Z) (sensorConnection : string) (st : State) : bool :=
  duration_cast_seconds (now - default 0 (updateTimeMap st !! sensorConnection))
    >? sensorMapUpdatePeriod.

(** ** Further declarations of sensorcommands.hpp and storagecommands.hpp

    The handlers below use enumerations and response sizes that the headers
    declare; as for [Platform], the values are parameters. *)

Module IPMISensorReadingByte2.
Record t : Type := {
  eventMessagesEnable : Z;
  sensorScanningEnable : Z
}.
End IPMISensorReadingByte2.

Module IPMISensorEventEnableByte2.
Record t : Type := {
  eventMessagesEnable : Z;
  sensorScanningEnable : Z
}.
End IPMISensorEventEnableByte2.

(** Bit positions in the [readable] byte of Get Sensor Thresholds. *)
Module IPMIThresholdRespBits.
Record t : Type := {
  lowerNonCritical : Z;
  lowerCritical : Z;
  lowerNonRecoverable : Z;
  upperNonCritical : Z;
  upperCritical : Z;
  upperNonRecoverable : Z
}.
End IPMIThresholdRespBits.

(** The members of [IPMISensorEventEnableThresholds] that only the event
    handlers use. *)
Record IPMISensorEventEnableDeassertions : Type := {
  upperNonCriticalGoingLow : Z;
  lowerNonCriticalGoingHigh : Z;
  upperCriticalGoingLow : Z;
  lowerCriticalGoingHigh : Z
}.

Module SdrRepositoryInfoOps.
Record t : Type := {
  allocCommandSupported : Z;
  reserveSDRRepositoryCommandSupported : Z;
  overflow : Z
}.
End SdrRepositoryInfoOps.

Record SensorCommandsHeader : Type := {
  readingByte2 : IPMISensorReadingByte2.t;
  eventEnableByte2 : IPMISensorEventEnableByte2.t;
  thresholdRespBits : IPMIThresholdRespBits.t;
  eventEnableDeassertions : IPMISensorEventEnableDeassertions;
  repositoryInfoOps : SdrRepositoryInfoOps.t;
  sizeof_SensorEventEnableResp : Z;
  sizeof_SensorEventStatusResp : Z;
  sizeof_GetSDRInfoResp : Z
}.

Definition uint32_t (z : Z) : Z := z mod 2 ^ 32.

(** ** The sensor lookup shared by the sensor handlers *)

(** The call [getSensorConnection(sensnum, connection, path)] on the global
    sensor tree: status, connection and path. *)
Definition callGetSensorConnection {R} (P : Platform) (sensnum : Z)
    : Handler R (ipmi_ret_t * string * string) :=
  modify (log_call (CallGetSensorConnection sensnum)) ;;
  tree <- gets sensorTree ;;
  let lookup := getSensorConnection P tree sensnum in
  modify (set_sensorTree (snd lookup)) ;;
  ret (fst lookup).

(** [std::get<bool>(variant)]: throws [bad_variant_access] on every other
    alternative. *)
Definition get_bool {R} (v : DbusVariant) : Handler R bool :=
  match v with
  | VariantBool b => ret b
  | _ => throw
  end.

(** ** Get Sensor Reading *)

(** [if (alarm != end) { if (std::get<bool>(alarm->second)) thresholds |= bit; }] *)
Definition orAlarm {R} (alarm : option DbusVariant) (bit thresholds : Z)
    : Handler R Z :=
  match alarm with
  | None => ret thresholds
  | Some v =>
      set <- get_bool v ;;
      ret (if set then uint8_t (Z.lor thresholds bit) else thresholds)
  end.

(** Success carries (value, operation, thresholds, optional discrete byte). *)
Definition ipmiSenGetSensorReading (P : Platform) (Hd : SensorCommandsHeader)
    (now sensnum : Z) : Handler (RspType (Z * Z * Z * option Z)) Empty_set :=
  let B2 := readingByte2 Hd in
  let B3 := readingByte3 P in
  lookup <- callGetSensorConnection P sensnum ;;
  let status := fst (fst lookup) in
  let connection := snd (fst lookup) in
  let path := snd lookup in
  if nonzero status then reply (response status) else
  found <- getSensorMap P now connection path ;;
  match found with
  | None => reply responseResponseError
  | Some sensorMap =>
  match sensorMap !! "xyz.openbmc_project.Sensor.Value" with
  | None => reply responseResponseError
  | Some sensorObject =>
  match sensorObject !! "Value" with
  | None => reply responseResponseError
  | Some valueVariant =>
  reading <- orThrow (VariantToDoubleVisitor P valueVariant) ;;
  maxmin <- orThrow (getSensorMaxMin P sensorObject) ;;
  match getSensorAttributes P (fst maxmin) (snd maxmin) with
  | None => reply responseResponseError
  | Some a =>
  let value :=
    uint8_t (scaleIPMIValueFromDouble P reading (mValue a) (rExp a) (bValue a)
               (bExp a) (bSigned a)) in
  let operation := uint8_t (IPMISensorReadingByte2.sensorScanningEnable B2) in
  let operation :=
    uint8_t (Z.lor operation (IPMISensorReadingByte2.eventMessagesEnable B2)) in
  let thresholds := 0 in
  thresholds <-
    (match sensorMap !! "xyz.openbmc_project.Sensor.Threshold.Warning" with
     | None => ret thresholds
     | Some warningObject =>
         let alarmHigh := warningObject !! "WarningAlarmHigh" in
         let alarmLow := warningObject !! "WarningAlarmLow" in
         thresholds <- orAlarm alarmHigh (upperNonCritical B3) thresholds ;;
         orAlarm alarmLow (lowerNonCritical B3) thresholds
     end) ;;
  thresholds <-
    (match sensorMap !! "xyz.openbmc_project.Sensor.Threshold.Critical" with
     | None => ret thresholds
     | Some criticalObject =>
         let alarmHigh := criticalObject !! "CriticalAlarmHigh" in
         let alarmLow := criticalObject !! "CriticalAlarmLow" in
         thresholds <- orAlarm alarmHigh (upperCritical B3) thresholds ;;
         orAlarm alarmLow (lowerCritical B3) thresholds
     end) ;;
  (* no discrete as of today so optional byte is never returned *)
  reply (responseSuccess (value, operation, thresholds, None))
  end end end end.

(** ** Get Sensor Thresholds *)

(** Success carries (readable, lowerNC, lowerCritical, lowerNonRecoverable,
    upperNC, upperCritical, upperNonRecoverable). *)
Definition ipmiSenGetSensorThresholds (P : Platform) (Hd : SensorCommandsHeader)
    (now sensorNumber : Z)
    : Handler (RspType (Z * Z * Z * Z * Z * Z * Z)) Empty_set :=
  let Bits := thresholdRespBits Hd in
  lookup <- callGetSensorConnection P sensorNumber ;;
  let status := fst (fst lookup) in
  let connection := snd (fst lookup) in
  let path := snd lookup in
  if nonzero status then reply (response status) else
  found <- getSensorMap P now connection path ;;
  match found with
  | None => reply responseResponseError
  | Some sensorMap =>
  match getIPMIThresholds P sensorMap with
  | None => reply responseResponseError        (* catch (std::exception &) *)
  | Some thresholdData =>
  let readable := 0 in
  let lowerNonRecoverable := 0 in
  let upperNonRecoverable := 0 in
  let readable :=
    orWhen (warningHigh thresholdData)
      (Z.shiftl 1 (uint8_t (IPMIThresholdRespBits.upperNonCritical Bits)))
      readable in
  let upperNC := default 0 (warningHigh thresholdData) in
  let readable :=
    orWhen (warningLow thresholdData)
      (Z.shiftl 1 (uint8_t (IPMIThresholdRespBits.lowerNonCritical Bits)))
      readable in
  let lowerNC := default 0 (warningLow thresholdData) in
  let readable :=
    orWhen (criticalHigh thresholdData)
      (Z.shiftl 1 (uint8_t (IPMIThresholdRespBits.upperCritical Bits)))
      readable in
  let upperCritical := default 0 (criticalHigh thresholdData) in
  let readable :=
    orWhen (criticalLow thresholdData)
      (Z.shiftl 1 (uint8_t (IPMIThresholdRespBits.lowerCritical Bits)))
      readable in
  let lowerCritical := default 0 (criticalLow thresholdData) in
  reply (responseSuccess (readable, lowerNC, lowerCritical, lowerNonRecoverable,
                          upperNC, upperCritical, upperNonRecoverable))
  end end.

(** ** Get Sensor Event Enable *)

(** Modelled from the spec: [SensorEventEnableResp] is declared in
    sensorcommands.hpp, outside the sources; the fields are those the
    handler assigns. *)
Module SensorEventEnableResp.
Record t : Type := {
  enabled : Z;
  assertionEnabledLSB : Z;
  assertionEnabledMSB : Z;
  deassertionEnabledLSB : Z;
  deassertionEnabledMSB : Z
}.
End SensorEventEnableResp.

(** What the handler leaves in the response buffer: the whole structure
    ([*dataLen = sizeof(SensorEventEnableResp)]) for a threshold sensor, one
    byte ([*dataLen = 1]) otherwise. *)
Inductive EventEnableResponse : Type :=
| EventEnableThresholds (resp : SensorEventEnableResp.t)
| EventEnableByte (enabled : Z).

(** Result: completion code, [*dataLen] on return, the response written. *)
Definition ipmiSenGetSensorEventEnable (P : Platform) (Hd : SensorCommandsHeader)
    (now dataLen sensnum : Z)
    : Handler (ipmi_ret_t * Z * option EventEnableResponse) Empty_set :=
  let B2 := eventEnableByte2 Hd in
  let Ev := eventEnableThresholds P in
  let De := eventEnableDeassertions Hd in
  if negb (dataLen =? 1) then reply (IPMI_CC_REQ_DATA_LEN_INVALID, 0, None) else
  lookup <- callGetSensorConnection P sensnum ;;
  let status := fst (fst lookup) in
  let connection := snd (fst lookup) in
  let path := snd lookup in
  if nonzero status then reply (status, 0, None) else
  found <- getSensorMap P now connection path ;;
  match found with
  | None => reply (IPMI_CC_RESPONSE_ERROR, 0, None)
  | Some sensorMap =>
  let warningInterface :=
    sensorMap !! "xyz.openbmc_project.Sensor.Threshold.Warning" in
  let criticalInterface :=
    sensorMap !! "xyz.openbmc_project.Sensor.Threshold.Critical" in
  if bool_decide (is_Some warningInterface)
     || bool_decide (is_Some criticalInterface)
  then
    (* assume all threshold sensors *)
    let enabled := uint8_t (IPMISensorEventEnableByte2.sensorScanningEnable B2) in
    let assertionEnabledLSB := 0 in
    let assertionEnabledMSB := 0 in
    let deassertionEnabledLSB := 0 in
    let deassertionEnabledMSB := 0 in
    let warningMap := default ∅ warningInterface in
    let warningHigh := warningMap !! "WarningHigh" in
    let warningLow := warningMap !! "WarningLow" in
    let assertionEnabledLSB :=
      orWhen warningHigh (upperNonCriticalGoingHigh Ev) assertionEnabledLSB in
    let deassertionEnabledLSB :=
      orWhen warningHigh (upperNonCriticalGoingLow De) deassertionEnabledLSB in
    let assertionEnabledLSB :=
      orWhen warningLow (lowerNonCriticalGoingLow Ev) assertionEnabledLSB in
    let deassertionEnabledLSB :=
      orWhen warningLow (lowerNonCriticalGoingHigh De) deassertionEnabledLSB in
    let criticalMap := default ∅ criticalInterface in
    let criticalHigh := criticalMap !! "CriticalHigh" in
    let criticalLow := criticalMap !! "CriticalLow" in
    let assertionEnabledMSB :=
      orWhen criticalHigh (upperCriticalGoingHigh Ev) assertionEnabledMSB in
    let deassertionEnabledMSB :=
      orWhen criticalHigh (upperCriticalGoingLow De) deassertionEnabledMSB in
    let assertionEnabledLSB :=
      orWhen criticalLow (lowerCriticalGoingLow Ev) assertionEnabledLSB in
    let deassertionEnabledLSB :=
      orWhen criticalLow (lowerCriticalGoingHigh De) deassertionEnabledLSB in
    reply (IPMI_CC_OK, sizeof_SensorEventEnableResp Hd,
           Some (EventEnableThresholds
                   {| SensorEventEnableResp.enabled := enabled;
                      SensorEventEnableResp.assertionEnabledLSB :=
                        assertionEnabledLSB;
                      SensorEventEnableResp.assertionEnabledMSB :=
                        assertionEnabledMSB;
                      SensorEventEnableResp.deassertionEnabledLSB :=
                        deassertionEnabledLSB;
                      SensorEventEnableResp.deassertionEnabledMSB :=
                        deassertionEnabledMSB |}))
  else
    (* no thresholds enabled *)
    let resp := uint8_t (IPMISensorEventEnableByte2.eventMessagesEnable B2) in
    let resp :=
      uint8_t (Z.lor resp (IPMISensorEventEnableByte2.sensorScanningEnable B2)) in
    reply (IPMI_CC_OK, 1, Some (EventEnableByte resp))
  end.

(** ** Get Sensor Event Status *)

(** Modelled from the spec: [SensorEventStatusResp] is declared in
    sensorcommands.hpp, outside the sources; the fields are those the
    handler assigns. *)
Module SensorEventStatusResp.
Record t : Type := {
  enabled : Z;
  assertionsLSB : Z;
  assertionsMSB : Z;
  deassertionsLSB : Z;
  deassertionsMSB : Z
}.
End SensorEventStatusResp.

(** [thresholdDeassertMap[path][name]] read into a local: [operator[]]
    creates the entries that do not exist yet. *)
Definition readLatch {R} (path name : string) : Handler R (option bool) :=
  byPath <- gets (fun st => default ∅ (thresholdDeassertMap st !! path)) ;;
  let value := default None (byPath !! name) in
  modify (fun st =>
    set_thresholdDeassertMap
      (<[path := <[name := value]> byPath]> (thresholdDeassertMap st)) st) ;;
  ret value.

(** [if (latch && !*latch) x |= bits] *)
Definition orDeasserted (latch : option bool) (bits x : Z) : Z :=
  match latch with
  | Some false => uint8_t (Z.lor x bits)
  | _ => x
  end.

(** An alarm flag that starts as [false] and is read with [get<bool>] when
    the property exists. *)
Definition alarmFlag {R} (alarm : option DbusVariant) : Handler R bool :=
  match alarm with
  | None => ret false
  | Some v => get_bool v
  end.

Definition orIf (flag : bool) (bits x : Z) : Z :=
  if flag then uint8_t (Z.lor x bits) else x.

(** Result: completion code, [*dataLen] on return, the response written. *)
Definition ipmiSenGetSensorEventStatus (P : Platform) (Hd : SensorCommandsHeader)
    (now dataLen sensnum : Z)
    : Handler (ipmi_ret_t * Z * option SensorEventStatusResp.t) Empty_set :=
  let B2 := eventEnableByte2 Hd in
  let Ev := eventEnableThresholds P in
  let De := eventEnableDeassertions Hd in
  if negb (dataLen =? 1) then reply (IPMI_CC_REQ_DATA_LEN_INVALID, 0, None) else
  lookup <- callGetSensorConnection P sensnum ;;
  let status := fst (fst lookup) in
  let connection := snd (fst lookup) in
  let path := snd lookup in
  if nonzero status then reply (status, 0, None) else
  found <- getSensorMap P now connection path ;;
  match found with
  | None => reply (IPMI_CC_RESPONSE_ERROR, 0, None)
  | Some sensorMap =>
  let warningInterface :=
    sensorMap !! "xyz.openbmc_project.Sensor.Threshold.Warning" in
  let criticalInterface :=
    sensorMap !! "xyz.openbmc_project.Sensor.Threshold.Critical" in
  let enabled := uint8_t (IPMISensorEventEnableByte2.sensorScanningEnable B2) in
  let assertionsLSB := 0 in
  let assertionsMSB := 0 in
  let deassertionsLSB := 0 in
  let deassertionsMSB := 0 in
  criticalDeassertHigh <- readLatch path "CriticalAlarmHigh" ;;
  criticalDeassertLow <- readLatch path "CriticalAlarmLow" ;;
  warningDeassertHigh <- readLatch path "WarningAlarmHigh" ;;
  warningDeassertLow <- readLatch path "WarningAlarmLow" ;;
  let deassertionsMSB :=
    orDeasserted criticalDeassertHigh (upperCriticalGoingHigh Ev)
      deassertionsMSB in
  let deassertionsMSB :=
    orDeasserted criticalDeassertLow (upperCriticalGoingLow De)
      deassertionsMSB in
  let deassertionsLSB :=
    orDeasserted warningDeassertHigh (upperNonCriticalGoingHigh Ev)
      deassertionsLSB in
  let deassertionsLSB :=
    orDeasserted warningDeassertLow (lowerNonCriticalGoingHigh De)
      deassertionsLSB in
  if bool_decide (is_Some warningInterface)
     || bool_decide (is_Some criticalInterface)
  then
    let enabled := uint8_t (IPMISensorEventEnableByte2.eventMessagesEnable B2) in
    assertionsLSB <-
      (match warningInterface with
       | None => ret assertionsLSB
       | Some warningMap =>
           warningHighAlarm <- alarmFlag (warningMap !! "WarningAlarmHigh") ;;
           warningLowAlarm <- alarmFlag (warningMap !! "WarningAlarmLow") ;;
           let assertionsLSB :=
             orIf warningHighAlarm (upperNonCriticalGoingHigh Ev) assertionsLSB in
           (* lower nc going low *)
           ret (orIf warningLowAlarm 1 assertionsLSB)
       end) ;;
    assertions <-
      (match criticalInterface with
       | None => ret (assertionsLSB, assertionsMSB)
       | Some criticalMap =>
           criticalHighAlarm <- alarmFlag (criticalMap !! "CriticalAlarmHigh") ;;
           criticalLowAlarm <- alarmFlag (criticalMap !! "CriticalAlarmLow") ;;
           let assertionsMSB :=
             orIf criticalHighAlarm (upperCriticalGoingHigh Ev) assertionsMSB in
           ret (orIf criticalLowAlarm (lowerCriticalGoingLow Ev) assertionsLSB,
                assertionsMSB)
       end) ;;
    reply (IPMI_CC_OK, sizeof_SensorEventStatusResp Hd,
           Some {| SensorEventStatusResp.enabled := enabled;
                   SensorEventStatusResp.assertionsLSB := fst assertions;
                   SensorEventStatusResp.assertionsMSB := snd assertions;
                   SensorEventStatusResp.deassertionsLSB := deassertionsLSB;
                   SensorEventStatusResp.deassertionsMSB := deassertionsMSB |})
  else
    (* no thresholds enabled, don't need assertionMSB *)
    reply (IPMI_CC_OK, sizeof_SensorEventStatusResp Hd - 1,
           Some {| SensorEventStatusResp.enabled := enabled;
                   SensorEventStatusResp.assertionsLSB := assertionsLSB;
                   SensorEventStatusResp.assertionsMSB := assertionsMSB;
                   SensorEventStatusResp.deassertionsLSB := deassertionsLSB;
                   SensorEventStatusResp.deassertionsMSB := deassertionsMSB |})
  end.

(** ** SDR repository information *)

Definition noTimestamp : Z := 0xFFFFFFFF.

(** The file-scope [sdrLastAdd] and [sdrLastRemove] (uint32_t). *)
Record SdrTimestamps : Type := {
  sdrLastAdd : Z;
  sdrLastRemove : Z
}.

Definition noTimestamps : SdrTimestamps :=
  {| sdrLastAdd := noTimestamp; sdrLastRemove := noTimestamp |}.

(** The [sensorAdded] and [sensorRemoved] match callbacks; [systemSeconds]
    is the reading of the system clock in seconds since the epoch. *)
Definition sensorAdded (systemSeconds : Z) (w : State * SdrTimestamps)
    : State * SdrTimestamps :=
  (set_sensorTree [] (fst w),
   {| sdrLastAdd := uint32_t systemSeconds;
      sdrLastRemove := sdrLastRemove (snd w) |}).

Definition sensorRemoved (systemSeconds : Z) (w : State * SdrTimestamps)
    : State * SdrTimestamps :=
  (set_sensorTree [] (fst w),
   {| sdrLastAdd := sdrLastAdd (snd w);
      sdrLastRemove := uint32_t systemSeconds |}).

(** Modelled from the spec: [GetSDRInfoResp] is declared in
    storagecommands.hpp, outside the sources; the fields are those the
    handler assigns. *)
Record GetSDRInfoResp : Type := {
  sdrVersion : Z;
  recordCountLS : Z;
  recordCountMS : Z;
  freeSpace : Z * Z;
  mostRecentAddition : Z;
  mostRecentErase : Z;
  operationSupport : Z
}.

(** Result: completion code, [*dataLen] on return, the response written. *)
Definition ipmiStorageGetSDRRepositoryInfo (P : Platform)
    (Hd : SensorCommandsHeader) (stamps : SdrTimestamps) (dataLen : Z)
    : Handler (ipmi_ret_t * Z * option GetSDRInfoResp) Empty_set :=
  let Ops := repositoryInfoOps Hd in
  if nonzero dataLen then reply (IPMI_CC_REQ_DATA_LEN_INVALID, 0, None) else
  tree <- gets sensorTree ;;
  haveTree <-
    (match tree with
     | [] =>
         modify (log_call CallGetSensorSubtree) ;;
         modify (set_sensorTree (snd (getSensorSubtree P tree))) ;;
         ret (fst (getSensorSubtree P tree))
     | _ :: _ => ret true
     end) ;;
  if negb haveTree then reply (IPMI_CC_RESPONSE_ERROR, 0, None) else
  tree <- gets sensorTree ;;
  let recordCount := uint16_t (Z.of_nat (length tree)) in
  (* write not supported *)
  let operationSupport := uint8_t (SdrRepositoryInfoOps.overflow Ops) in
  let operationSupport :=
    uint8_t (Z.lor operationSupport
               (SdrRepositoryInfoOps.allocCommandSupported Ops)) in
  let operationSupport :=
    uint8_t (Z.lor operationSupport
               (SdrRepositoryInfoOps.reserveSDRRepositoryCommandSupported Ops)) in
  reply (IPMI_CC_OK, sizeof_GetSDRInfoResp Hd,
         Some {| sdrVersion := ipmiSdrVersion P;
                 (* todo: for now, sdr count is number of sensors *)
                 recordCountLS := Z.land recordCount 0xFF;
                 recordCountMS := Z.shiftr recordCount 8;
                 (* free space unspcified *)
                 freeSpace := (0xFF, 0xFF);
                 mostRecentAddition := sdrLastAdd stamps;
                 mostRecentErase := sdrLastRemove stamps;
                 operationSupport := operationSupport |}).

(** ** Sequences of reservations *)

(** [n] consecutive Reserve SDR Repository calls with a correct request. *)
Fixpoint reserveTimes (n : nat) (st : State) : State :=
  match n with
  | O => st
  | S n => reserveTimes n (snd (ipmiStorageReserveSDR 0 st))
  end.

(** ** The writes of Set Sensor Thresholds *)

(** The value that the loop over [thresholdsToSet] writes for a raw byte. *)
Definition valueToSet (P : Platform) (a : SensorAttributes) (thresholdValue : Z)
    : float :=
  PrimFloat.mul
    (PrimFloat.add
       (double_of_int (mValue a * thresholdValue))
       (PrimFloat.mul (double_of_int (bValue a))
          (pow P 10%float (double_of_int (bExp a)))))
    (pow P 10%float (double_of_int (rExp a))).

(** The property write of one element of [thresholdsToSet]. *)
Definition thresholdWrite (P : Platform) (connection path : string)
    (a : SensorAttributes) (t : string * Z * string) : BackendCall :=
  CallSetDbusProperty connection path (snd t) (fst (fst t))
    (VariantDouble (valueToSet P a (snd (fst t)))).

(** The backend accepts that write. *)
Definition writeAccepted (P : Platform) (connection path : string)
    (a : SensorAttributes) (t : string * Z * string) : bool :=
  setDbusProperty P connection path (snd t) (fst (fst t))
    (VariantDouble (valueToSet P a (snd (fst t)))).

(** The state after the writes of a list of thresholds were issued. *)
Definition logWrites (P : Platform) (connection path : string)
    (a : SensorAttributes) (ts : list (string * Z * string)) (st : State)
    : State :=
  foldl (fun st t => log_call (thresholdWrite P connection path a t) st) st ts.

(** The thresholds that a request selects, in the order in which the
    handler collects them. *)
Definition selectedThresholds (E : SensorThresholdReqEnable)
    (req : SensorThresholdReq) : list (string * Z * string) :=
  (if nonzero (Z.land (mask req) (setLowerCritical E))
   then [("CriticalLow"%string, req_lowerCritical req,
          "xyz.openbmc_project.Sensor.Threshold.Critical"%string)]
   else [])
  ++ (if nonzero (Z.land (mask req) (setUpperCritical E))
      then [("CriticalHigh"%string, req_upperCritical req,
             "xyz.openbmc_project.Sensor.Threshold.Critical"%string)]
      else [])
  ++ (if nonzero (Z.land (mask req) (setLowerNonCritical E))
      then [("WarningLow"%string, req_lowerNonCritical req,
             "xyz.openbmc_project.Sensor.Threshold.Warning"%string)]
      else [])
  ++ (if nonzero (Z.land (mask req) (setUpperNonCritical E))
      then [("WarningHigh"%string, req_upperNonCritical req,
             "xyz.openbmc_project.Sensor.Threshold.Warning"%string)]
      else []).

(** A request to set both warning thresholds. *)
Definition warningRequest : SensorThresholdReq :=
  {| sensorNum := 0; mask := 0x09; req_lowerNonCritical := 5;
     req_lowerCritical := 0; req_lowerNonRecoverable := 0;
     req_upperNonCritical := 80; req_upperCritical := 0;
     req_upperNonRecoverable := 0 |}.

(** A backend that rejects every write of [WarningHigh]. *)
Definition rejectingPlatform : Platform :=
  {| lp64 := lp64 demoPlatform;
     VariantToDoubleVisitor := VariantToDoubleVisitor demoPlatform;
     getSensorAttributes := getSensorAttributes demoPlatform;
     scaleIPMIValueFromDouble := scaleIPMIValueFromDouble demoPlatform;
     pow := pow demoPlatform;
     getSensorSubtree := getSensorSubtree demoPlatform;
     getSensorConnection := getSensorConnection demoPlatform;
     getSensorTypeFromPath := getSensorTypeFromPath demoPlatform;
     getSensorTypeStringFromPath := getSensorTypeStringFromPath demoPlatform;
     getSensorEventTypeFromPath := getSensorEventTypeFromPath demoPlatform;
     ipmiSdrVersion := ipmiSdrVersion demoPlatform;
     SENSOR_DATA_FULL_RECORD := SENSOR_DATA_FULL_RECORD demoPlatform;
     getFruSdrCount := getFruSdrCount demoPlatform;
     getFruSdrs := getFruSdrs demoPlatform;
     GetManagedObjects := GetManagedObjects demoPlatform;
     setDbusProperty := fun _ _ _ property _ =>
       negb (String.eqb property "WarningHigh");
     thresholdReqEnable := thresholdReqEnable demoPlatform;
     eventEnableThresholds := eventEnableThresholds demoPlatform;
     readingByte3 := readingByte3 demoPlatform;
     units := units demoPlatform |}.

(** ** The record that Get SDR serves *)

(** The record ID after the substitution of the last record for 0xFFFF. *)
Definition effectiveRecordID (P : Platform) (st : State) (recordID : Z) : Z :=
  if recordID =? 0xFFFF then uint16_t (size_t P (recordCount P st - 1))
  else recordID.

(** ** The state in which a sensor handler consults the sensor map *)

(** The lookup of the sensor is logged and has left the tree [tree']. *)
Definition stateAfterSensorLookup (sensnum : Z) (tree' : SensorSubTree)
    (st : State) : State :=
  set_sensorTree tree' (log_call (CallGetSensorConnection sensnum) st).

(** ** Relations that a handler maintains between the state before and
    after it *)

Definition Preserves {R A} (I : State -> State -> Prop) (m : Handler R A)
    : Prop :=
  forall st, I st (snd (m st)).

(** No property write is issued. *)
Definition sameWrites (st st' : State) : Prop :=
  propertyWrites st' = propertyWrites st.

(** Every deassertion latch reads as before. *)
Definition sameLatches (st st' : State) : Prop :=
  forall path name,
    latchOf (thresholdDeassertMap st') path name
    = latchOf (thresholdDeassertMap st) path name.

(** The alarm property exists and holds [true]. *)
Definition alarmSet (alarm : option DbusVariant) : bool :=
  match alarm with
  | Some (VariantBool true) => true
  | _ => false
  end.

(** The alarm property is absent or holds a boolean. *)
Definition booleanOrAbsent (alarm : option DbusVariant) : Prop :=
  match alarm with
  | None | Some (VariantBool _) => True
  | Some _ => False
  end.

(** The property of an interface of a sensor map. *)
Definition propertyOf (sensorMap : SensorMap) (interface property : string)
    : option DbusVariant :=
  sensorMap !! interface ≫= (.!! property).

(** ** Header values of the IPMI specification and further demo sensors *)

Definition ipmiSensorCommandsHeader : SensorCommandsHeader :=
  {| readingByte2 :=
       {| IPMISensorReadingByte2.eventMessagesEnable := 0x80;
          IPMISensorReadingByte2.sensorScanningEnable := 0x40 |};
     eventEnableByte2 :=
       {| IPMISensorEventEnableByte2.eventMessagesEnable := 0x80;
          IPMISensorEventEnableByte2.sensorScanningEnable := 0x40 |};
     thresholdRespBits :=
       {| IPMIThresholdRespBits.lowerNonCritical := 0;
          IPMIThresholdRespBits.lowerCritical := 1;
          IPMIThresholdRespBits.lowerNonRecoverable := 2;
          IPMIThresholdRespBits.upperNonCritical := 3;
          IPMIThresholdRespBits.upperCritical := 4;
          IPMIThresholdRespBits.upperNonRecoverable := 5 |};
     eventEnableDeassertions :=
       {| upperNonCriticalGoingLow := 0x40; lowerNonCriticalGoingHigh := 0x02;
          upperCriticalGoingLow := 0x01; lowerCriticalGoingHigh := 0x08 |};
     repositoryInfoOps :=
       {| SdrRepositoryInfoOps.allocCommandSupported := 0x01;
          SdrRepositoryInfoOps.reserveSDRRepositoryCommandSupported := 0x02;
          SdrRepositoryInfoOps.overflow := 0x80 |};
     sizeof_SensorEventEnableResp := 5;
     sizeof_SensorEventStatusResp := 5;
     sizeof_GetSDRInfoResp := 14 |}.

(** A sensor whose reading equals its upper warning threshold, with the
    upper warning alarm raised and the upper critical alarm clear. *)
Definition alarmValueProperties : PropertyMap :=
  <["Value" := VariantDouble 80%float]> ∅.

Definition alarmWarningProperties : PropertyMap :=
  <["WarningHigh" := VariantDouble 80%float]>
  (<["WarningAlarmHigh" := VariantBool true]> ∅).

Definition alarmCriticalProperties : PropertyMap :=
  <["CriticalHigh" := VariantDouble 95%float]>
  (<["CriticalAlarmHigh" := VariantBool false]> ∅).

Definition alarmSensorMap : SensorMap :=
  <["xyz.openbmc_project.Sensor.Value" := alarmValueProperties]>
  (<["xyz.openbmc_project.Sensor.Threshold.Warning" := alarmWarningProperties]>
   (<["xyz.openbmc_project.Sensor.Threshold.Critical" :=
       alarmCriticalProperties]> ∅)).

Definition alarmPlatform : Platform :=
  demoPlatformWith (demoBackend alarmSensorMap).

(** A sensor with a value interface only. *)
Definition plainSensorMap : SensorMap :=
  <["xyz.openbmc_project.Sensor.Value" := demoValueProperties]> ∅.

Definition plainPlatform : Platform :=
  demoPlatformWith (demoBackend plainSensorMap).

(** An assertion of [CriticalAlarmHigh] for the demo sensor. *)
Definition demoAssertion : PropertiesChanged :=
  {| get_path := demoPath;
     values := [("CriticalAlarmHigh"%string, AlarmBool true)] |}.

(** The alarm byte of Get Sensor Reading in terms of the alarm properties
    that hold [true]. *)
Definition alarmByte (B3 : IPMISensorReadingByte3) (sensorMap : SensorMap) : Z :=
  let warning := "xyz.openbmc_project.Sensor.Threshold.Warning"%string in
  let critical := "xyz.openbmc_project.Sensor.Threshold.Critical"%string in
  orIf (alarmSet (propertyOf sensorMap critical "CriticalAlarmLow"))
    (lowerCritical B3)
    (orIf (alarmSet (propertyOf sensorMap critical "CriticalAlarmHigh"))
       (upperCritical B3)
       (orIf (alarmSet (propertyOf sensorMap warning "WarningAlarmLow"))
          (lowerNonCritical B3)
          (orIf (alarmSet (propertyOf sensorMap warning "WarningAlarmHigh"))
             (upperNonCritical B3) 0))).

(** The latch holds a deassertion. *)
Definition deasserted (latch : option bool) : bool :=
  match latch with
  | Some false => true
  | _ => false
  end.

(** The state after an assertion and a deassertion of the upper critical
    alarm of the demo sensor. *)
Definition deassertedState : State :=
  thresholdChanged demoDeassertion (thresholdChanged demoAssertion startup).

(** ** A backend whose content changes *)

(** The platform with another answer to [GetManagedObjects]: what the
    backend holds at a later time. *)
Definition withManagedObjects (managed : string -> option ManagedObjectType)
    (P : Platform) : Platform :=
  {| lp64 := lp64 P;
     VariantToDoubleVisitor := VariantToDoubleVisitor P;
     getSensorAttributes := getSensorAttributes P;
     scaleIPMIValueFromDouble := scaleIPMIValueFromDouble P;
     pow := pow P;
     getSensorSubtree := getSensorSubtree P;
     getSensorConnection := getSensorConnection P;
     getSensorTypeFromPath := getSensorTypeFromPath P;
     getSensorTypeStringFromPath := getSensorTypeStringFromPath P;
     getSensorEventTypeFromPath := getSensorEventTypeFromPath P;
     ipmiSdrVersion := ipmiSdrVersion P;
     SENSOR_DATA_FULL_RECORD := SENSOR_DATA_FULL_RECORD P;
     getFruSdrCount := getFruSdrCount P;
     getFruSdrs := getFruSdrs P;
     GetManagedObjects := managed;
     setDbusProperty := setDbusProperty P;
     thresholdReqEnable := thresholdReqEnable P;
     eventEnableThresholds := eventEnableThresholds P;
     readingByte3 := readingByte3 P;
     units := units P |}.


(** ** Chunked reads of a record *)

(** The state in which Get SDR has made sure of the sensor tree. *)
Definition stateWithTree (P : Platform) (st : State) : State :=
  match sensorTree st with
  | [] =>
      set_sensorTree (snd (getSensorSubtree P []))
        (log_call CallGetSensorSubtree st)
  | _ :: _ => st
  end.

(** The bytes [offset, offset + bytesToRead) of a full record, cut off at
    its end. *)
Definition recordWindow (P : Platform) (record : SensorDataFullRecord)
    (offset bytesToRead : Z) : list Z :=
  take (Z.to_nat (clampBytesToRead P sizeof_SensorDataFullRecord offset
                    bytesToRead))
    (drop (Z.to_nat offset) (full_record_bytes record)).

(** * Properties *)

(** ** Machine-integer facts *)

Lemma uint8_t_range z : 0 <= uint8_t z < 256.
Proof. unfold uint8_t. apply Z.mod_pos_bound. lia. Qed.

Lemma uint16_t_range z : 0 <= uint16_t z < 65536.
Proof. unfold uint16_t. apply Z.mod_pos_bound. lia. Qed.

Lemma uint8_t_small z : 0 <= z < 256 -> uint8_t z = z.
Proof. intros H. unfold uint8_t. apply Z.mod_small. lia. Qed.

Lemma uint16_t_small z : 0 <= z < 65536 -> uint16_t z = z.
Proof. intros H. unfold uint16_t. apply Z.mod_small. lia. Qed.

Lemma size_t_small P z : 0 <= z < 2 ^ 32 -> size_t P z = z.
Proof.
  intros H. unfold size_t. apply Z.mod_small.
  destruct (lp64 P); lia.
Qed.

Lemma size_t_range P z : 0 <= size_t P z.
Proof.
  unfold size_t. apply Z.mod_pos_bound. destruct (lp64 P); lia.
Qed.

Lemma uint8_t_size_t P z : uint8_t (size_t P z) = uint8_t z.
Proof.
  unfold uint8_t, size_t.
  apply Z.mod_mod_divide. destruct (lp64 P).
  - exists (2 ^ 56). lia.
  - exists (2 ^ 24). lia.
Qed.

Lemma land_7_cases z :
  Z.land z 7 = 0 \/ Z.land z 7 = 1 \/ Z.land z 7 = 2 \/ Z.land z 7 = 3 \/
  Z.land z 7 = 4 \/ Z.land z 7 = 5 \/ Z.land z 7 = 6 \/ Z.land z 7 = 7.
Proof.
  assert (E : Z.land z 7 = z mod 8) by (apply (Z.land_ones z 3); lia).
  rewrite E.
  pose proof (Z.mod_pos_bound z 8 ltac:(lia)). lia.
Qed.

(** ** Reserve SDR Repository *)

(** The next reservation ID is a non-zero 16-bit value. *)
Lemma reserve_id_range st :
  0 < sdrReservationID (snd (ipmiStorageReserveSDR 0 st)) < 65536.
Proof.
  unfold ipmiStorageReserveSDR. simpl.
  pose proof (uint16_t_range (sdrReservationID st + 1)) as H.
  destruct (uint16_t (sdrReservationID st + 1) =? 0) eqn:E; simpl.
  - apply Z.eqb_eq in E. rewrite E. vm_compute. split; reflexivity.
  - apply Z.eqb_neq in E. lia.
Qed.

(** The response bytes are the little-endian encoding of the new counter. *)
Lemma reserve_response st :
  fst (ipmiStorageReserveSDR 0 st) =
    (IPMI_CC_OK, 2,
     [Z.land (sdrReservationID (snd (ipmiStorageReserveSDR 0 st))) 0xFF;
      uint8_t (Z.shiftr (sdrReservationID (snd (ipmiStorageReserveSDR 0 st))) 8)]).
Proof. reflexivity. Qed.

Lemma little_endian_16 id :
  0 <= id < 65536 ->
  reservationIdOfResponse [Z.land id 0xFF; uint8_t (Z.shiftr id 8)] = id.
Proof.
  intros H. unfold reservationIdOfResponse.
  change 0xFF with (Z.ones 8). rewrite Z.land_ones by lia.
  rewrite Z.shiftr_div_pow2 by lia.
  rewrite uint8_t_small.
  - pose proof (Z.div_mod id (2 ^ 8) ltac:(lia)). lia.
  - split.
    + apply Z.div_pos; lia.
    + apply Z.div_lt_upper_bound; lia.
Qed.

Lemma reserve_step st :
  0 < sdrReservationID st < 65536 ->
  sdrReservationID (snd (ipmiStorageReserveSDR 0 st)) <> sdrReservationID st.
Proof.
  intros H. unfold ipmiStorageReserveSDR. simpl.
  destruct (Z.eq_dec (sdrReservationID st) 65535) as [E | E].
  - rewrite E. vm_compute. discriminate.
  - rewrite (uint16_t_small (sdrReservationID st + 1)) by lia.
    destruct (sdrReservationID st + 1 =? 0) eqn:E0; simpl.
    + apply Z.eqb_eq in E0. lia.
    + lia.
Qed.

Lemma reserve_response_id st :
  reservationIdOfResponse (snd (fst (ipmiStorageReserveSDR 0 st))) =
  sdrReservationID (snd (ipmiStorageReserveSDR 0 st)).
Proof.
  pose proof (reserve_id_range st) as R.
  rewrite reserve_response.
  generalize dependent (sdrReservationID (snd (ipmiStorageReserveSDR 0 st))).
  intros id R. apply little_endian_16. lia.
Qed.

(** C8. Reserve SDR Repository with a correctly sized (empty) request always
    succeeds, the reservation ID it returns is never 0, and two consecutive
    calls never return the same ID; the ID returned is the new value of the
    counter. *)
Theorem reserve_nonzero_and_fresh (st : State) :
  let first := ipmiStorageReserveSDR 0 st in
  let second := ipmiStorageReserveSDR 0 (snd first) in
  fst (fst (fst first)) = IPMI_CC_OK /\
  fst (fst (fst second)) = IPMI_CC_OK /\
  reservationIdOfResponse (snd (fst first)) = sdrReservationID (snd first) /\
  reservationIdOfResponse (snd (fst second)) = sdrReservationID (snd second) /\
  reservationIdOfResponse (snd (fst first)) <> 0 /\
  reservationIdOfResponse (snd (fst second)) <> 0 /\
  reservationIdOfResponse (snd (fst first)) <>
    reservationIdOfResponse (snd (fst second)).
Proof.
  intros first second.
  pose proof (reserve_id_range st) as R1.
  pose proof (reserve_id_range (snd first)) as R2.
  pose proof (reserve_step (snd first) R1) as S.
  pose proof (reserve_response_id st) as I1.
  pose proof (reserve_response_id (snd first)) as I2.
  fold first in R1, I1. fold second in R2, S, I2.
  rewrite I1, I2.
  repeat split; try reflexivity; try lia.
Qed.

(** ** The exponent byte of a full record *)

Ltac land_7_split r :=
  let H := fresh "H" in
  destruct (land_7_cases r) as [H | [H | [H | [H | [H | [H | [H | H]]]]]]];
  rewrite H.

(** Only the two assignments from [rExp] survive. *)
Lemma pack_r_b_exponents_value b r :
  pack_r_b_exponents b r =
  Z.lor (Z.shiftl (Z.land r 0x7) 4) (if r <? 0 then Z.shiftl 1 7 else 0).
Proof.
  unfold pack_r_b_exponents. cbv zeta.
  land_7_split r; destruct (r <? 0); reflexivity.
Qed.

Lemma pack_r_b_exponents_bExp b b' r :
  pack_r_b_exponents b r = pack_r_b_exponents b' r.
Proof. reflexivity. Qed.

Lemma pack_r_b_exponents_sign b r :
  Z.testbit (pack_r_b_exponents b r) 7 = (r <? 0).
Proof.
  rewrite pack_r_b_exponents_value.
  land_7_split r; destruct (r <? 0); reflexivity.
Qed.

Lemma pack_r_b_exponents_low_nibble b r :
  Z.land (pack_r_b_exponents b r) 0x0F = 0.
Proof.
  rewrite pack_r_b_exponents_value.
  land_7_split r; destruct (r <? 0); reflexivity.
Qed.

(** What a successfully assembled full record is made of. *)
Lemma buildFullRecord_inv {T} P recordID path (sensorMap : SensorMap) st record st' :
  buildFullRecord (T := T) P recordID path sensorMap st = (Next record, st') ->
  exists sensorObject max min a thresholdData,
    sensorMap !! "xyz.openbmc_project.Sensor.Value" = Some sensorObject /\
    match sensorObject !! "MaxValue" with
    | Some v => VariantToDoubleVisitor P v
    | None => Some 128%float
    end = Some max /\
    match sensorObject !! "MinValue" with
    | Some v => VariantToDoubleVisitor P v
    | None => Some (-127)%float
    end = Some min /\
    getSensorAttributes P max min = Some a /\
    getIPMIThresholds P sensorMap = Some thresholdData /\
    m_lsb (body record) = Z.land (mValue a) 0xFF /\
    m_msb_and_tolerance (body record) = pack_msb (mValue a) /\
    b_lsb (body record) = Z.land (bValue a) 0xFF /\
    b_msb_and_accuracy_lsb (body record) = pack_msb (bValue a) /\
    r_b_exponents (body record) = pack_r_b_exponents (bExp a) (rExp a) /\
    upper_noncritical_threshold (body record) =
      default 0 (warningHigh thresholdData) /\
    st' = st.
Proof.
  unfold buildFullRecord, bind, orThrow. intros H.
  destruct (sensorMap !! "xyz.openbmc_project.Sensor.Value")
    as [sensorObject |]; [| discriminate H].
  exists sensorObject.
  destruct (match sensorObject !! "MaxValue" with
            | Some v => VariantToDoubleVisitor P v
            | None => Some 128%float
            end) as [max |]; [| discriminate H].
  exists max. cbn [ret throw] in H.
  destruct (match sensorObject !! "MinValue" with
            | Some v => VariantToDoubleVisitor P v
            | None => Some (-127)%float
            end) as [min |]; [| discriminate H].
  exists min. cbn [ret throw] in H.
  destruct (getSensorAttributes P max min) as [a |]; [| discriminate H].
  exists a.
  destruct (getIPMIThresholds P sensorMap) as [thresholdData |];
    [| discriminate H].
  exists thresholdData.
  unfold ret in H. injection H as Hrec Hst. subst record st'.
  repeat split; reflexivity.
Qed.

(** The byte at offset 29 of the object representation is [r_b_exponents]. *)
Lemma full_record_byte_29 r :
  nth 29 (full_record_bytes r) 0 = uint8_t (r_b_exponents (body r)).
Proof. reflexivity. Qed.

(** C1. In every full record that Get SDR assembles for a live sensor, the
    [r_b_exponents] byte is [(rExp & 0x7) << 4] with bit 7 set exactly when
    [rExp < 0]; its low nibble is zero and it is the same byte for every
    value of [bExp], whose assignment is overwritten. *)
Theorem r_b_exponents_encodes_rExp_only
    (P : Platform) (recordID : Z) (path : string) (sensorMap : SensorMap)
    (st st' : State) (record : SensorDataFullRecord) :
  buildFullRecord (T := Z * list Z) P recordID path sensorMap st
    = (Next record, st') ->
  exists a max min,
    getSensorAttributes P max min = Some a /\
    r_b_exponents (body record) =
      Z.lor (Z.shiftl (Z.land (rExp a) 0x7) 4)
            (if rExp a <? 0 then Z.shiftl 1 7 else 0) /\
    Z.testbit (r_b_exponents (body record)) 7 = (rExp a <? 0) /\
    Z.land (r_b_exponents (body record)) 0x0F = 0 /\
    (forall bExp', r_b_exponents (body record)
                   = pack_r_b_exponents bExp' (rExp a)) /\
    nth 29 (full_record_bytes record) 0 = r_b_exponents (body record).
Proof.
  intros H.
  destruct (buildFullRecord_inv _ _ _ _ _ _ _ H)
    as (obj & max & min & a & td & _ & _ & _ & Ha & _ & _ & _ & _ & _ & Hr & _).
  exists a, max, min. rewrite Hr.
  split; [exact Ha |].
  split; [apply pack_r_b_exponents_value |].
  split; [apply pack_r_b_exponents_sign |].
  split; [apply pack_r_b_exponents_low_nibble |].
  split; [intros b'; apply pack_r_b_exponents_bExp |].
  rewrite full_record_byte_29, Hr.
  apply uint8_t_small.
  rewrite pack_r_b_exponents_value.
  land_7_split (rExp a); destruct (rExp a <? 0); vm_compute; split; congruence.
Qed.

Lemma r_b_exponents_encodes_rExp_only_witness :
  buildFullRecord (T := Z * list Z) demoPlatform 0 demoPath demoSensorMap
    demoState = (Next demoRecord, demoState) /\
  exists a max min,
    getSensorAttributes demoPlatform max min = Some a /\
    r_b_exponents (body demoRecord) =
      Z.lor (Z.shiftl (Z.land (rExp a) 0x7) 4)
            (if rExp a <? 0 then Z.shiftl 1 7 else 0) /\
    Z.testbit (r_b_exponents (body demoRecord)) 7 = (rExp a <? 0) /\
    Z.land (r_b_exponents (body demoRecord)) 0x0F = 0 /\
    (forall bExp', r_b_exponents (body demoRecord)
                   = pack_r_b_exponents bExp' (rExp a)) /\
    nth 29 (full_record_bytes demoRecord) 0 = r_b_exponents (body demoRecord).
Proof.
  split.
  - vm_compute. reflexivity.
  - apply (r_b_exponents_encodes_rExp_only demoPlatform 0 demoPath
             demoSensorMap demoState demoState demoRecord).
    vm_compute. reflexivity.
Defined.

(** ** The threshold watcher *)

Lemma latchOf_insert (tdm : gmap string (gmap string (option bool)))
    (p n path name : string) (v : option bool) :
  latchOf (<[p := <[n := v]> (default ∅ (tdm !! p))]> tdm) path name =
  if bool_decide (p = path /\ n = name) then v else latchOf tdm path name.
Proof.
  unfold latchOf.
  destruct (decide (p = path)) as [-> | Hp].
  - rewrite lookup_insert_eq. simpl.
    destruct (decide (n = name)) as [-> | Hn].
    + rewrite lookup_insert_eq. simpl.
      rewrite bool_decide_eq_true_2 by done. reflexivity.
    + rewrite lookup_insert_ne by done.
      rewrite bool_decide_eq_false_2 by (intros [_ ?]; done). reflexivity.
  - rewrite lookup_insert_ne by done.
    rewrite bool_decide_eq_false_2 by (intros [? _]; done). reflexivity.
Qed.

(** One notification acts on every latch as the specification's step. *)
Lemma thresholdChanged_latch (m : PropertiesChanged) (st : State)
    (path name : string) :
  latchOf (thresholdDeassertMap (thresholdChanged m st)) path name =
  latchStep (latchOf (thresholdDeassertMap st) path name)
            (latchEvent path name m).
Proof.
  unfold thresholdChanged, latchEvent.
  destruct (find (fun pair => containsAlarm (fst pair)) (values m))
    as [[n [b | d]] |]; simpl; try reflexivity.
  destruct b; simpl; rewrite latchOf_insert.
  - destruct (bool_decide (get_path m = path /\ n = name)); reflexivity.
  - destruct (bool_decide (get_path m = path /\ n = name)) eqn:E;
      [| reflexivity].
    apply bool_decide_eq_true in E as [<- <-].
    unfold latchOf, latchStep.
    destruct (default None (default ∅ (thresholdDeassertMap st !! get_path m) !! n))
      as [old |]; reflexivity.
Qed.

(** A run of the watcher refines the fold of the specification's step. *)
Lemma processNotifications_latch (ms : list PropertiesChanged) (st : State)
    (path name : string) :
  latchOf (thresholdDeassertMap (processNotifications ms st)) path name =
  foldl latchStep (latchOf (thresholdDeassertMap st) path name)
        (map (latchEvent path name) ms).
Proof.
  unfold processNotifications. revert st.
  induction ms as [| m ms IH]; intros st; simpl.
  - reflexivity.
  - rewrite IH, thresholdChanged_latch. reflexivity.
Qed.

(** Without an assertion an absent latch stays absent. *)
Lemma latchStep_absent (events : list LatchEvent) :
  ~ In Assertion events -> foldl latchStep None events = None.
Proof.
  induction events as [| e events IH]; intros Hno; simpl.
  - reflexivity.
  - destruct e; simpl.
    + exfalso. apply Hno. left. reflexivity.
    + apply IH. intros Hin. apply Hno. right. exact Hin.
    + apply IH. intros Hin. apply Hno. right. exact Hin.
Qed.

(** C4. A notification whose Alarm boolean is true sets the latch of its
    (sensor path, alarm name) to asserted whatever it was; one whose Alarm
    boolean is false sets it to deasserted only if a value was recorded
    before; hence over any sequence of notifications a latch that was absent
    and is never asserted stays absent, and is never read as deasserted. *)
Theorem deassertion_latch_discipline :
  (forall (m : PropertiesChanged) (st : State) (name : string),
      find (fun pair => containsAlarm (fst pair)) (values m)
        = Some (name, AlarmBool true) ->
      latchOf (thresholdDeassertMap (thresholdChanged m st)) (get_path m) name
        = Some true) /\
  (forall (m : PropertiesChanged) (st : State) (name : string),
      find (fun pair => containsAlarm (fst pair)) (values m)
        = Some (name, AlarmBool false) ->
      latchOf (thresholdDeassertMap (thresholdChanged m st)) (get_path m) name
        = match latchOf (thresholdDeassertMap st) (get_path m) name with
          | Some _ => Some false
          | None => None
          end) /\
  (forall (ms : list PropertiesChanged) (st : State) (path name : string),
      latchOf (thresholdDeassertMap st) path name = None ->
      ~ In Assertion (map (latchEvent path name) ms) ->
      latchOf (thresholdDeassertMap (processNotifications ms st)) path name
        = None).
Proof.
  split; [| split].
  - intros m st name Hfind.
    rewrite thresholdChanged_latch. unfold latchEvent. rewrite Hfind.
    rewrite bool_decide_eq_true_2 by done. reflexivity.
  - intros m st name Hfind.
    rewrite thresholdChanged_latch. unfold latchEvent. rewrite Hfind.
    rewrite bool_decide_eq_true_2 by done. reflexivity.
  - intros ms st path name Habsent Hno.
    rewrite processNotifications_latch, Habsent.
    apply latchStep_absent. exact Hno.
Qed.

Lemma deassertion_latch_discipline_witness :
  latchOf (thresholdDeassertMap
             (processNotifications [demoDeassertion; demoDeassertion] startup))
    demoPath "CriticalAlarmHigh" = None.
Proof.
  apply (proj2 (proj2 deassertion_latch_discipline)
           [demoDeassertion; demoDeassertion] startup demoPath
           "CriticalAlarmHigh"%string).
  - reflexivity.
  - vm_compute. intros [H | [H | []]]; discriminate H.
Defined.

(** ** The sensor map cache *)

Lemma getSensorMap_updateTimeMap {R} P now c p (st : State) :
  updateTimeMap (snd (getSensorMap (R := R) P now c p st)) =
  if refreshDue now c st then <[c := now]> (updateTimeMap st)
  else updateTimeMap st.
Proof.
  unfold getSensorMap, refreshDue, bind, gets, modify, ret. simpl.
  destruct (duration_cast_seconds (now - default 0 (updateTimeMap st !! c))
              >? sensorMapUpdatePeriod); simpl.
  - destruct (GetManagedObjects P c) as [objects |]; simpl; [| reflexivity].
    rewrite lookup_insert_eq.
    destruct (objects !! p); reflexivity.
  - destruct (SensorCache st !! c) as [objects |]; simpl; [| reflexivity].
    destruct (objects !! p); reflexivity.
Qed.

Lemma getSensorMap_failed {R} P now c p (st : State) :
  refreshDue now c st = true ->
  GetManagedObjects P c = None ->
  getSensorMap (R := R) P now c p st =
  (Next None,
   log_call (CallGetManagedObjects c)
     (set_updateTimeMap (<[c := now]> (updateTimeMap st)) st)).
Proof.
  unfold getSensorMap, refreshDue, bind, gets, modify, ret. simpl.
  intros -> ->. reflexivity.
Qed.

(** A due refresh that succeeds serves the sensor from the fresh tree. *)
Lemma getSensorMap_refreshed {R} P now c p (st : State)
    (objects : ManagedObjectType) (sensorMap : SensorMap) :
  refreshDue now c st = true ->
  GetManagedObjects P c = Some objects ->
  objects !! p = Some sensorMap ->
  fst (getSensorMap (R := R) P now c p st) = Next (Some sensorMap).
Proof.
  unfold getSensorMap, refreshDue, bind, gets, modify, ret. simpl.
  intros -> -> Hp. simpl. rewrite lookup_insert_eq, Hp. reflexivity.
Qed.

(** The cache only issues enumerations, never property writes. *)
Lemma getSensorMap_propertyWrites {R} P now c p (st : State) :
  propertyWrites (snd (getSensorMap (R := R) P now c p st)) = propertyWrites st.
Proof.
  unfold getSensorMap, propertyWrites, bind, gets, modify, ret. simpl.
  destruct (duration_cast_seconds (now - default 0 (updateTimeMap st !! c))
              >? sensorMapUpdatePeriod); simpl.
  - destruct (GetManagedObjects P c) as [objects |]; simpl.
    + rewrite lookup_insert_eq.
      destruct (objects !! p); simpl; rewrite List.filter_app; simpl;
        apply app_nil_r.
    + rewrite List.filter_app. simpl. apply app_nil_r.
  - destruct (SensorCache st !! c) as [objects |]; simpl; [| reflexivity].
    destruct (objects !! p); reflexivity.
Qed.

(** A due refresh whose enumeration succeeds: the timestamp is set, the
    call is logged, the tree of the connection is replaced, and the
    sensor is looked up in the fresh tree. *)
Lemma getSensorMap_enumerated {R} P now c p (st : State)
    (objects : ManagedObjectType) :
  refreshDue now c st = true ->
  GetManagedObjects P c = Some objects ->
  getSensorMap (R := R) P now c p st =
  (Next (objects !! p),
   set_SensorCache (<[c := objects]> (SensorCache st))
     (log_call (CallGetManagedObjects c)
        (set_updateTimeMap (<[c := now]> (updateTimeMap st)) st))).
Proof.
  unfold getSensorMap, refreshDue, bind, gets, modify, ret. simpl.
  intros -> ->. simpl. rewrite lookup_insert_eq.
  destruct (objects !! p); reflexivity.
Qed.

(** ** Set Sensor Thresholds: the mask checks *)

(** C9. A request of the correct length whose mask has a reserved upper bit
    or a non-recoverable bit set is answered with invalid-field-request, and
    one whose mask is zero with success; in both cases the state, and with it
    the log of backend calls, is left as it was: the handler returns before
    the sensor lookup. *)
Theorem setThresholds_mask_checks
    (P : Platform) (now : Z) (req : SensorThresholdReq) (st : State) :
  (Z.land (mask req) 0xC0 <> 0 \/
   Z.land (mask req) (setLowerNonRecoverable (thresholdReqEnable P)) <> 0 \/
   Z.land (mask req) (setUpperNonRecoverable (thresholdReqEnable P)) <> 0 ->
   ipmiSenSetSensorThresholds P now 8 req st
     = (Return IPMI_CC_INVALID_FIELD_REQUEST, st)) /\
  (mask req = 0 ->
   ipmiSenSetSensorThresholds P now 8 req st = (Return IPMI_CC_OK, st)).
Proof.
  unfold ipmiSenSetSensorThresholds. cbv zeta. simpl (negb (8 =? 8)). cbv iota.
  split.
  - intros H. unfold nonzero.
    destruct (Z.land (mask req) 192 =? 0) eqn:E1; simpl; [| reflexivity].
    destruct (Z.land (mask req) (setLowerNonRecoverable (thresholdReqEnable P)) =? 0)
      eqn:E2; simpl; [| reflexivity].
    destruct (Z.land (mask req) (setUpperNonRecoverable (thresholdReqEnable P)) =? 0)
      eqn:E3; simpl; [| reflexivity].
    apply Z.eqb_eq in E1, E2, E3. tauto.
  - intros H. rewrite H. rewrite !Z.land_0_l. reflexivity.
Qed.

Lemma setThresholds_mask_checks_witness :
  ipmiSenSetSensorThresholds demoPlatform demoNow 8 reservedBitRequest demoState
    = (Return IPMI_CC_INVALID_FIELD_REQUEST, demoState).
Proof.
  apply (proj1 (setThresholds_mask_checks demoPlatform demoNow
                  reservedBitRequest demoState)).
  left. vm_compute. discriminate.
Defined.

(** ** Compositional facts about handlers *)

Ltac hsimpl :=
  cbn [fst snd negb sensorTree set_sensorTree log_call sdrReservationID
       set_sdrReservationID updateTimeMap set_updateTimeMap SensorCache
       set_SensorCache backendCalls thresholdDeassertMap].

Section Composition.
Context {R : Type}.

Lemma commutes_ret {A} (a : A) : Commutes (ret (R := R) a).
Proof. intros v st. reflexivity. Qed.

Lemma commutes_reply {A} (r : R) : Commutes (reply (A := A) r).
Proof. intros v st. reflexivity. Qed.

Lemma commutes_throw {A} : Commutes (throw (R := R) (A := A)).
Proof. intros v st. reflexivity. Qed.

Lemma commutes_overread {A} o l s :
  Commutes (overread (R := R) (A := A) o l s).
Proof. intros v st. reflexivity. Qed.

Lemma commutes_bind {A B} (m : Handler R A) (k : A -> Handler R B) :
  Commutes m -> (forall a, Commutes (k a)) -> Commutes (bind m k).
Proof.
  intros Hm Hk v st. unfold bind. rewrite Hm.
  destruct (m st) as [[a | r | | o l s] st1]; simpl; try reflexivity.
  apply Hk.
Qed.

Lemma commutes_gets {A} (f : State -> A) :
  (forall v st, f (set_sdrReservationID v st) = f st) ->
  Commutes (gets (R := R) f).
Proof. intros Hf v st. unfold gets. rewrite Hf. reflexivity. Qed.

Lemma commutes_modify (f : State -> State) :
  (forall v st, f (set_sdrReservationID v st) = set_sdrReservationID v (f st)) ->
  Commutes (modify (R := R) f).
Proof. intros Hf v st. unfold modify. rewrite Hf. reflexivity. Qed.

Variable Q : R -> Prop.

Lemma replies_ret {A} (a : A) : Replies Q (ret (R := R) a).
Proof. intros st r st' H. discriminate H. Qed.

Lemma replies_reply {A} (r : R) : Q r -> Replies Q (reply (A := A) r).
Proof. intros Hr st r' st' H. injection H as <- _. exact Hr. Qed.

Lemma replies_throw {A} : Replies Q (throw (R := R) (A := A)).
Proof. intros st r st' H. discriminate H. Qed.

Lemma replies_overread {A} o l s :
  Replies Q (overread (R := R) (A := A) o l s).
Proof. intros st r st' H. discriminate H. Qed.

Lemma replies_gets {A} (f : State -> A) : Replies Q (gets (R := R) f).
Proof. intros st r st' H. discriminate H. Qed.

Lemma replies_modify (f : State -> State) : Replies Q (modify (R := R) f).
Proof. intros st r st' H. discriminate H. Qed.

Lemma replies_bind {A B} (m : Handler R A) (k : A -> Handler R B) :
  Replies Q m -> (forall a, Replies Q (k a)) -> Replies Q (bind m k).
Proof.
  intros Hm Hk st r st' H. unfold bind in H.
  destruct (m st) as [[a | r0 | | o l s] st1] eqn:E; try discriminate H.
  - exact (Hk a st1 r st' H).
  - injection H as <- _. exact (Hm st r0 st1 E).
Qed.
End Composition.

Ltac handler_cases :=
  match goal with
  | |- _ (if ?c then _ else _) => destruct c
  | |- _ (match ?x with _ => _ end) => destruct x
  | |- _ (orThrow ?x) => unfold orThrow
  end.

Ltac commutes_with tac :=
  repeat first
    [ apply commutes_ret | apply commutes_reply | apply commutes_throw
    | apply commutes_overread
    | apply commutes_gets; reflexivity
    | apply commutes_modify; reflexivity
    | tac
    | apply commutes_bind; [| intros ?]
    | handler_cases
    | progress cbv zeta ].

Lemma commutes_getSensorMap {R} P now c p :
  Commutes (getSensorMap (R := R) P now c p).
Proof. unfold getSensorMap. commutes_with fail. Qed.

Lemma commutes_readWindow {R} obj o l : Commutes (readWindow (R := R) obj o l).
Proof. unfold readWindow. commutes_with fail. Qed.

Lemma commutes_buildFullRecord {T} P r p m :
  Commutes (buildFullRecord (T := T) P r p m).
Proof. unfold buildFullRecord. commutes_with fail. Qed.

Ltac commutes :=
  commutes_with
    ltac:(first [ apply commutes_getSensorMap | apply commutes_readWindow
                | apply commutes_buildFullRecord ]).

Ltac replies_with tac :=
  repeat first
    [ apply replies_ret | apply replies_throw | apply replies_overread
    | apply replies_gets | apply replies_modify
    | tac
    | apply replies_bind; [| intros ?]
    | handler_cases
    | progress cbv zeta ].

Lemma replies_getSensorMap {R} (Q : R -> Prop) P now c p :
  Replies Q (getSensorMap (R := R) P now c p).
Proof. unfold getSensorMap. replies_with fail. Qed.

Lemma replies_readWindow {R} (Q : R -> Prop) obj o l :
  Replies Q (readWindow (R := R) obj o l).
Proof. unfold readWindow. replies_with fail. Qed.

Lemma replies_buildFullRecord {T} (Q : RspType T -> Prop) P r p m :
  Q responseResponseError ->
  Replies Q (buildFullRecord (T := T) P r p m).
Proof.
  intros HQ. unfold buildFullRecord.
  replies_with ltac:(apply replies_reply; exact HQ).
Qed.

(** ** Get SDR: the reservation check *)

(** With offset 0 the handler never looks at the reservation. *)
Lemma getSDR_offset_0 P now rid1 rid2 recordID n v st :
  ipmiStorageGetSDR P now rid1 recordID 0 n (set_sdrReservationID v st) =
  (fst (ipmiStorageGetSDR P now rid2 recordID 0 n st),
   set_sdrReservationID v (snd (ipmiStorageGetSDR P now rid2 recordID 0 n st))).
Proof.
  unfold ipmiStorageGetSDR. cbv zeta.
  match goal with
  | |- context [bind (gets sdrReservationID)
                  (fun current => if _ then _ else ?rest)] =>
      set (afterCheck := rest)
  end.
  assert (HC : Commutes afterCheck) by (subst afterCheck; commutes).
  unfold bind, gets. simpl nonzero. rewrite !andb_false_r.
  apply HC.
Qed.

(** With offset 0, invalid-reservation-id can only be a code that a
    collaborator handed back. *)
Lemma getSDR_offset_0_code P now rid recordID n st :
  fst (getFruSdrCount P) <> IPMI_CC_INVALID_RESERVATION_ID ->
  (forall i, fst (getFruSdrs P i) <> IPMI_CC_INVALID_RESERVATION_ID) ->
  fst (ipmiStorageGetSDR P now rid recordID 0 n st)
    <> Return responseInvalidReservationId.
Proof.
  intros Hcount Hfru.
  set (Q := fun r : RspType (Z * list Z) => r <> responseInvalidReservationId).
  assert (HQ : Replies Q (ipmiStorageGetSDR P now rid recordID 0 n)).
  { unfold ipmiStorageGetSDR. cbv zeta. simpl nonzero.
    apply replies_bind; [apply replies_gets | intros current].
    rewrite andb_false_r.
    replies_with
      ltac:(first
        [ apply replies_getSensorMap | apply replies_readWindow
        | apply replies_buildFullRecord; subst Q; simpl; discriminate
        | apply replies_reply; subst Q; simpl;
          unfold responseInvalidReservationId;
          first [ discriminate
                | intros E; injection E as E;
                  first [ apply Hcount; exact E | eapply Hfru; exact E ] ] ]). }
  intros E.
  destruct (ipmiStorageGetSDR P now rid recordID 0 n st) as [s st'] eqn:Erun.
  simpl in E. subst s.
  exact (HQ st _ st' Erun eq_refl).
Qed.

(** C2. With offset 0 the outcome of Get SDR is the same whatever
    reservation ID is supplied and whatever the reservation counter holds
    (so the call is never rejected for reservation reasons, and answers
    invalid-reservation-id only if a collaborator returns that code); with a
    non-zero offset and no reservation ever issued, or a reservation ID that
    differs from the current one, the call is answered with
    invalid-reservation-id, which carries no record bytes, and the state is
    untouched. *)
Theorem getSDR_reservation_check
    (P : Platform) (now reservationID recordID offset bytesToRead : Z)
    (st : State) :
  (offset = 0 ->
   (forall otherID counter,
      fst (ipmiStorageGetSDR P now otherID recordID offset bytesToRead
             (set_sdrReservationID counter st))
      = fst (ipmiStorageGetSDR P now reservationID recordID offset
               bytesToRead st)) /\
   (fst (getFruSdrCount P) <> IPMI_CC_INVALID_RESERVATION_ID ->
    (forall i, fst (getFruSdrs P i) <> IPMI_CC_INVALID_RESERVATION_ID) ->
    fst (ipmiStorageGetSDR P now reservationID recordID offset bytesToRead st)
      <> Return responseInvalidReservationId)) /\
  (offset <> 0 ->
   sdrReservationID st = 0 \/ reservationID <> sdrReservationID st ->
   ipmiStorageGetSDR P now reservationID recordID offset bytesToRead st
     = (Return (response IPMI_CC_INVALID_RESERVATION_ID), st)).
Proof.
  split.
  - intros ->. split.
    + intros otherID counter.
      rewrite (getSDR_offset_0 P now otherID reservationID). reflexivity.
    + apply getSDR_offset_0_code.
  - intros Hoff Hres.
    unfold ipmiStorageGetSDR, bind, gets. cbv zeta.
    assert (Hcheck : ((sdrReservationID st =? 0)
                     || negb (reservationID =? sdrReservationID st))
                    && nonzero offset = true).
    { apply andb_true_intro. split.
      - destruct Hres as [H0 | Hne].
        + rewrite H0. reflexivity.
        + apply orb_true_iff. right. apply negb_true_iff.
          apply Z.eqb_neq. exact Hne.
      - unfold nonzero. apply negb_true_iff. apply Z.eqb_neq. exact Hoff. }
    rewrite Hcheck. reflexivity.
Qed.

Lemma getSDR_reservation_check_witness :
  ipmiStorageGetSDR demoPlatform demoNow 7 0 16 16 demoState
    = (Return (response IPMI_CC_INVALID_RESERVATION_ID), demoState).
Proof.
  apply (proj2 (getSDR_reservation_check demoPlatform demoNow 7 0 16 16
                  demoState)).
  - lia.
  - right. vm_compute. discriminate.
Defined.

(** ** Get SDR: the last record *)

Lemma gtb_irrefl z : (z >? z) = false.
Proof. rewrite Z.gtb_ltb. apply Z.ltb_irrefl. Qed.

Lemma last_record_index P st :
  1 <= recordCount P st <= 65536 ->
  uint16_t (size_t P (recordCount P st - 1)) = recordCount P st - 1 /\
  size_t P (recordCount P st - 1) = recordCount P st - 1.
Proof.
  intros H. rewrite size_t_small by lia. rewrite uint16_t_small by lia. done.
Qed.

Section Run.
Context {R A B : Type}.

Lemma bind_gets (f : State -> A) (k : A -> Handler R B) st :
  bind (gets f) k st = k (f st) st.
Proof. reflexivity. Qed.

Lemma bind_modify (f : State -> State) (k : unit -> Handler R B) st :
  bind (modify f) k st = k tt (f st).
Proof. reflexivity. Qed.

Lemma bind_ret (a : A) (k : A -> Handler R B) st : bind (ret a) k st = k a st.
Proof. reflexivity. Qed.

Lemma bind_reply (r : R) (k : A -> Handler R B) st :
  bind (reply r) k st = (Return r, st).
Proof. reflexivity. Qed.

Lemma bind_throw (k : A -> Handler R B) st : bind throw k st = (Throw, st).
Proof. reflexivity. Qed.

Lemma bind_assoc {C} (m : Handler R A) (f : A -> Handler R B)
    (k : B -> Handler R C) st :
  bind (bind m f) k st = bind m (fun a => bind (f a) k) st.
Proof.
  unfold bind. destruct (m st) as [[a | r | | o l s] st1]; reflexivity.
Qed.

Lemma replies_run (Q : R -> Prop) (m : Handler R A) st r :
  Replies Q m -> fst (m st) = Return r -> Q r.
Proof.
  intros HQ E. destruct (m st) as [s st'] eqn:Erun. simpl in E. subst s.
  exact (HQ st r st' Erun).
Qed.
End Run.

Lemma sensorTree_log_call c st : sensorTree (log_call c st) = sensorTree st.
Proof. reflexivity. Qed.

Lemma sensorTree_set t st : sensorTree (set_sensorTree t st) = t.
Proof. reflexivity. Qed.

(** Run the straight-line part of a handler on its state. *)
Ltac run :=
  cbv beta iota; cbn [negb];
  repeat (first [ rewrite bind_gets | rewrite bind_modify | rewrite bind_ret
                | rewrite bind_reply | rewrite bind_throw | rewrite bind_assoc
                | rewrite sensorTree_log_call | rewrite sensorTree_set ];
          cbv beta iota; cbn [negb]).

Ltac fold_record_id :=
  repeat match goal with
         | |- context [if ?c =? 65535 then ?a else ?c] =>
             replace (if c =? 65535 then a else c) with c
               by (destruct (c =? 65535); reflexivity)
         end.

Lemma getSDR_last P now rid off len st :
  1 <= recordCount P st <= 65536 ->
  ipmiStorageGetSDR P now rid 0xFFFF off len st =
  ipmiStorageGetSDR P now rid (recordCount P st - 1) off len st.
Proof.
  intros H. destruct (last_record_index P st H) as [E16 Esz].
  unfold recordCount, sensorTreeAfterRefresh in *.
  unfold ipmiStorageGetSDR. cbv zeta. run.
  destruct (((sdrReservationID st =? 0) || negb (rid =? sdrReservationID st))
            && nonzero off) eqn:Hcheck; [reflexivity |].
  run.
  destruct (sensorTree st) as [| sensor0 tree] eqn:Htree; run.
  - destruct (fst (getSensorSubtree P [])) eqn:Hsub; run; [| reflexivity].
    destruct (negb (fst (getFruSdrCount P) =? IPMI_CC_OK)) eqn:Hcount; run;
      [reflexivity |].
    rewrite Z.eqb_refl, E16. fold_record_id. reflexivity.
  - rewrite ?Htree.
    destruct (negb (fst (getFruSdrCount P) =? IPMI_CC_OK)) eqn:Hcount; run;
      [reflexivity |].
    rewrite ?Htree.
    rewrite Z.eqb_refl, E16. fold_record_id. reflexivity.
Qed.

(** Every success that follows the last record announces 0xFFFF. *)
Ltac next_is_last :=
  match goal with
  | |- fst (?m ?s) = Return (responseSuccess (?next, ?payload)) -> _ =>
      let Q := constr:(fun r : RspType (Z * list Z) =>
                         forall n p, r = responseSuccess (n, p) -> n = 65535) in
      let HQ := fresh "HQ" in
      assert (HQ : Replies Q m);
      [ replies_with
          ltac:(first
            [ apply replies_getSensorMap | apply replies_readWindow
            | apply replies_buildFullRecord; intros ? ? ?; discriminate
            | apply replies_reply; intros ? ? E;
              first [ discriminate E | injection E as -> _; reflexivity ] ])
      | intros E; exact (replies_run Q m s _ HQ E next payload eq_refl) ]
  end.

Lemma getSDR_last_next P now rid off len st next payload :
  1 <= recordCount P st <= 65536 ->
  fst (ipmiStorageGetSDR P now rid 0xFFFF off len st)
    = Return (responseSuccess (next, payload)) ->
  next = 0xFFFF.
Proof.
  intros H. destruct (last_record_index P st H) as [E16 Esz].
  unfold recordCount, sensorTreeAfterRefresh in *.
  unfold ipmiStorageGetSDR. cbv zeta. run.
  destruct (((sdrReservationID st =? 0) || negb (rid =? sdrReservationID st))
            && nonzero off) eqn:Hcheck; [discriminate |].
  run.
  destruct (sensorTree st) as [| sensor0 tree] eqn:Htree; run.
  - destruct (fst (getSensorSubtree P [])) eqn:Hsub; run; [| discriminate].
    destruct (negb (fst (getFruSdrCount P) =? IPMI_CC_OK)) eqn:Hcount; run;
      [discriminate |].
    rewrite Z.eqb_refl, E16, Esz, !gtb_irrefl.
    next_is_last.
  - rewrite ?Htree.
    destruct (negb (fst (getFruSdrCount P) =? IPMI_CC_OK)) eqn:Hcount; run;
      [discriminate |].
    rewrite ?Htree.
    rewrite Z.eqb_refl, E16, Esz, !gtb_irrefl.
    next_is_last.
Qed.

Lemma reservation_check_passed rid off st :
  passesReservationCheck rid off st ->
  ((sdrReservationID st =? 0) || negb (rid =? sdrReservationID st))
  && nonzero off = false.
Proof.
  intros [-> | [Hne ->]].
  - apply andb_false_r.
  - apply Z.eqb_neq in Hne. rewrite Hne, Z.eqb_refl. reflexivity.
Qed.

Lemma getSDR_beyond_last P now rid recordID off len st :
  1 <= recordCount P st <= 65536 ->
  recordCount P st - 1 < recordID ->
  recordID <> 0xFFFF ->
  passesReservationCheck rid off st ->
  sensorTreeAvailable P st ->
  fst (getFruSdrCount P) = IPMI_CC_OK ->
  fst (ipmiStorageGetSDR P now rid recordID off len st)
    = Return responseInvalidFieldRequest.
Proof.
  intros H Hbeyond Hne Hpass Htree Hcount.
  destruct (last_record_index P st H) as [E16 Esz].
  apply reservation_check_passed in Hpass.
  apply Z.eqb_neq in Hne.
  unfold recordCount, sensorTreeAfterRefresh, sensorTreeAvailable in *.
  unfold ipmiStorageGetSDR. cbv zeta. run.
  rewrite Hpass. run.
  destruct (sensorTree st) as [| sensor0 tree] eqn:Et; run.
  - destruct Htree as [Htree | Htree]; [congruence |].
    rewrite Htree. run. rewrite Hcount. simpl (negb _). run.
    rewrite Hne, Esz.
    replace (recordID >? _) with true by (symmetry; apply Z.gtb_lt; lia).
    reflexivity.
  - rewrite ?Et. rewrite Hcount. simpl (negb _). run. rewrite ?Et.
    rewrite Hne, Esz.
    replace (recordID >? _) with true by (symmetry; apply Z.gtb_lt; lia).
    reflexivity.
Qed.

(** C7, as stated, fails in its last part: a record ID beyond the last
    record, read at a non-zero offset without the current reservation, is
    answered with invalid-reservation-id and not with invalid-field-request
    (three records, record ID 5, offset 1, reservation 7 instead of 1). *)
Lemma beyond_last_record_without_reservation :
  ~ (forall (P : Platform) (now rid recordID off len : Z) (st : State),
        1 <= recordCount P st <= 65536 ->
        recordCount P st - 1 < recordID ->
        recordID <> 0xFFFF ->
        fst (ipmiStorageGetSDR P now rid recordID off len st)
          = Return responseInvalidFieldRequest).
Proof.
  intros stated.
  specialize (stated demoPlatform demoNow 7 5 1 16 demoState).
  assert (E : fst (ipmiStorageGetSDR demoPlatform demoNow 7 5 1 16 demoState)
              = Return responseInvalidReservationId)
    by (vm_compute; reflexivity).
  rewrite E in stated.
  assert (C : recordCount demoPlatform demoState = 3) by (vm_compute; reflexivity).
  rewrite C in stated.
  specialize (stated ltac:(lia) ltac:(lia) ltac:(lia)).
  discriminate stated.
Qed.

(** C7, amended. When the record space holds between 1 and 65536 records,
    Get SDR with record ID 0xFFFF behaves exactly as with the index of the
    last record (same response, same payload, same state), and when it
    succeeds the next record ID is 0xFFFF; a record ID beyond the last index
    and other than 0xFFFF is answered with invalid-field-request provided
    the call passes the reservation check and the sensor tree and the FRU
    count are available. *)
Theorem getSDR_last_record
    (P : Platform) (now rid off len : Z) (st : State) :
  1 <= recordCount P st <= 65536 ->
  ipmiStorageGetSDR P now rid 0xFFFF off len st
    = ipmiStorageGetSDR P now rid (recordCount P st - 1) off len st /\
  (forall next payload,
      fst (ipmiStorageGetSDR P now rid 0xFFFF off len st)
        = Return (responseSuccess (next, payload)) ->
      next = 0xFFFF) /\
  (forall recordID,
      recordCount P st - 1 < recordID ->
      recordID <> 0xFFFF ->
      passesReservationCheck rid off st ->
      sensorTreeAvailable P st ->
      fst (getFruSdrCount P) = IPMI_CC_OK ->
      fst (ipmiStorageGetSDR P now rid recordID off len st)
        = Return responseInvalidFieldRequest).
Proof.
  intros H. split; [| split].
  - apply getSDR_last. exact H.
  - intros next payload. apply getSDR_last_next. exact H.
  - intros recordID. apply getSDR_beyond_last. exact H.
Qed.

Lemma getSDR_last_record_witness :
  recordCount demoPlatform demoState = 3 /\
  ipmiStorageGetSDR demoPlatform demoNow 1 0xFFFF 8 16 demoState
    = ipmiStorageGetSDR demoPlatform demoNow 1
        (recordCount demoPlatform demoState - 1) 8 16 demoState /\
  fst (ipmiStorageGetSDR demoPlatform demoNow 1 0xFFFF 8 16 demoState)
    = Return (responseSuccess
                (0xFFFF, [0; 0; 16; 0; 0; 1; 0; 3; 66; 77; 67; 0; 0; 0; 0; 0])).
Proof.
  split; [vm_compute; reflexivity |].
  split; [| vm_compute; reflexivity].
  apply (proj1 (getSDR_last_record demoPlatform demoNow 1 8 16 demoState
                  ltac:(vm_compute; split; discriminate))).
Defined.

(** ** Set Sensor Thresholds: validation before writing *)

Lemma selectsMissing_mask_0 E sensorMap :
  selectsMissingThreshold E 0 sensorMap = false.
Proof. unfold selectsMissingThreshold. rewrite !Z.land_0_l. reflexivity. Qed.

(** What the handler does with a request that selects a missing
    threshold, once the sensor is resolved and its map fetched. *)
Lemma setThresholds_missing_outcome P now req st tree' connection path
    (sensorMap : SensorMap) :
  getSensorConnection P (sensorTree st) (sensorNum req)
    = ((0, connection, path), tree') ->
  fst (getSensorMap (R := ipmi_ret_t) P now connection path
         (stateAfterLookup req tree' st))
    = Next (Some sensorMap) ->
  selectsMissingThreshold (thresholdReqEnable P) (mask req) sensorMap = true ->
  let st1 := snd (getSensorMap (R := ipmi_ret_t) P now connection path
                    (stateAfterLookup req tree' st)) in
  ipmiSenSetSensorThresholds P now 8 req st =
  if nonzero (Z.land (mask req) 0xC0)
     || nonzero (Z.land (mask req) (setLowerNonRecoverable (thresholdReqEnable P)))
     || nonzero (Z.land (mask req) (setUpperNonRecoverable (thresholdReqEnable P)))
  then (Return IPMI_CC_INVALID_FIELD_REQUEST, st)
  else
    match sensorMap !! "xyz.openbmc_project.Sensor.Value" with
    | None => (Return IPMI_CC_RESPONSE_ERROR, st1)
    | Some sensorObject =>
        match getSensorMaxMin P sensorObject with
        | None => (Throw, st1)
        | Some (max, min) =>
            match getSensorAttributes P max min with
            | None => (Return IPMI_CC_RESPONSE_ERROR, st1)
            | Some _ => (Return IPMI_CC_INVALID_FIELD_REQUEST, st1)
            end
        end
    end.
Proof.
  intros Hconn Hmap Hmiss st1. subst st1. unfold stateAfterLookup in *.
  unfold ipmiSenSetSensorThresholds. cbv zeta. simpl (negb (8 =? 8)). cbv iota.
  destruct (nonzero (Z.land (mask req) 192)); [reflexivity |].
  cbn [orb].
  destruct (nonzero (Z.land (mask req)
                       (setLowerNonRecoverable (thresholdReqEnable P)))
            || nonzero (Z.land (mask req)
                          (setUpperNonRecoverable (thresholdReqEnable P))));
    [reflexivity |].
  destruct (mask req =? 0) eqn:Hmask.
  { apply Z.eqb_eq in Hmask.
    rewrite Hmask, selectsMissing_mask_0 in Hmiss. discriminate. }
  run. rewrite Hconn. cbn [fst snd]. change (nonzero 0) with false. cbv iota.
  unfold bind at 1.
  destruct (getSensorMap P now connection path _) as [found st1].
  cbn [fst snd] in *. subst found. cbv beta iota.
  destruct (sensorMap !! "xyz.openbmc_project.Sensor.Value")
    as [sensorObject |]; [| reflexivity].
  destruct (getSensorMaxMin P sensorObject) as [[max min] |];
    cbn [orThrow]; run; [| reflexivity].
  cbn [fst snd].
  destruct (getSensorAttributes P max min) as [attrs |]; [| reflexivity].
  unfold selectsMissingThreshold, lacksProperty in Hmiss.
  repeat match goal with
         | |- context [nonzero ?x] =>
             destruct (nonzero x) eqn:?; cbn [orb andb] in *; run
         | |- context [match ?m !! ?k with _ => _ end] =>
             destruct (m !! k) eqn:?; run
         end; try reflexivity.
  all: cbn in Hmiss; discriminate Hmiss.
Qed.

Lemma demoBackend_demoConnection (sensorMap : SensorMap) :
  demoBackend sensorMap demoConnection = Some (<[demoPath := sensorMap]> ∅).
Proof. unfold demoBackend. rewrite String.eqb_refl. reflexivity. Qed.

(** The demo backend serves its sensor map on the first access. *)
Lemma demo_getSensorMap (sensorMap : SensorMap) req st :
  updateTimeMap st = ∅ ->
  fst (getSensorMap (R := ipmi_ret_t) (demoPlatformWith (demoBackend sensorMap))
         demoNow demoConnection demoPath (stateAfterLookup req demoTree st))
  = Next (Some sensorMap).
Proof.
  intros Hst.
  apply (getSensorMap_refreshed _ _ _ _ _ (<[demoPath := sensorMap]> ∅)).
  - unfold refreshDue, stateAfterLookup. simpl updateTimeMap. rewrite Hst.
    rewrite lookup_empty. reflexivity.
  - apply demoBackend_demoConnection.
  - apply lookup_insert_eq.
Qed.

(** C3, as stated, fails: a sensor map without the value interface makes
    the handler answer response-error before it validates the thresholds
    (the demo sensor exposing only a warning interface, mask 0x02). *)
Lemma missing_threshold_on_sensor_without_value :
  ~ (forall (P : Platform) (now : Z) (req : SensorThresholdReq) (st : State)
            (tree' : SensorSubTree) (connection path : string)
            (sensorMap : SensorMap),
        getSensorConnection P (sensorTree st) (sensorNum req)
          = ((0, connection, path), tree') ->
        fst (getSensorMap (R := ipmi_ret_t) P now connection path
               (stateAfterLookup req tree' st))
          = Next (Some sensorMap) ->
        selectsMissingThreshold (thresholdReqEnable P) (mask req) sensorMap
          = true ->
        fst (ipmiSenSetSensorThresholds P now 8 req st)
          = Return IPMI_CC_INVALID_FIELD_REQUEST).
Proof.
  intros stated.
  specialize (stated warningOnlyPlatform demoNow lowerCriticalRequest demoState
                demoTree demoConnection demoPath warningOnlySensorMap).
  assert (E : fst (ipmiSenSetSensorThresholds warningOnlyPlatform demoNow 8
                     lowerCriticalRequest demoState)
              = Return IPMI_CC_RESPONSE_ERROR) by (vm_compute; reflexivity).
  rewrite E in stated.
  specialize (stated ltac:(vm_compute; reflexivity)).
  specialize (stated (demo_getSensorMap warningOnlySensorMap
                       lowerCriticalRequest demoState eq_refl)).
  specialize (stated ltac:(vm_compute; reflexivity)).
  discriminate stated.
Qed.

(** C3, amended. For a request of the correct length whose sensor
    resolves and whose map is fetched, if the mask selects a threshold
    whose interface or property the map lacks, the handler issues no
    property write at all. Its answer is invalid-field-request whenever the
    mask has a reserved bit (0xC0) or a non-recoverable bit set, and
    whenever the map has the value interface and its range converts and
    linearizes. For a mask without reserved and non-recoverable bits the
    checks that precede the validation of the thresholds decide otherwise
    in three cases: the map has no value interface (response-error); a
    range property does not convert to a number (the exception of the
    conversion leaves the handler, no completion code is returned); the
    range converts but does not linearize (response-error). A request of
    another length than 8 is rejected without any effect. *)
Theorem setThresholds_validates_before_writing
    (P : Platform) (now : Z) (req : SensorThresholdReq) (st : State)
    (tree' : SensorSubTree) (connection path : string) (sensorMap : SensorMap) :
  getSensorConnection P (sensorTree st) (sensorNum req)
    = ((0, connection, path), tree') ->
  fst (getSensorMap (R := ipmi_ret_t) P now connection path
         (stateAfterLookup req tree' st))
    = Next (Some sensorMap) ->
  selectsMissingThreshold (thresholdReqEnable P) (mask req) sensorMap = true ->
  let outcome := fst (ipmiSenSetSensorThresholds P now 8 req st) in
  propertyWrites (snd (ipmiSenSetSensorThresholds P now 8 req st))
    = propertyWrites st /\
  (Z.land (mask req) 0xC0 <> 0 \/
   Z.land (mask req) (setLowerNonRecoverable (thresholdReqEnable P)) <> 0 \/
   Z.land (mask req) (setUpperNonRecoverable (thresholdReqEnable P)) <> 0 ->
   outcome = Return IPMI_CC_INVALID_FIELD_REQUEST) /\
  (forall sensorObject max min a,
      sensorMap !! "xyz.openbmc_project.Sensor.Value" = Some sensorObject ->
      getSensorMaxMin P sensorObject = Some (max, min) ->
      getSensorAttributes P max min = Some a ->
      outcome = Return IPMI_CC_INVALID_FIELD_REQUEST) /\
  (Z.land (mask req) 0xC0 = 0 ->
   Z.land (mask req) (setLowerNonRecoverable (thresholdReqEnable P)) = 0 ->
   Z.land (mask req) (setUpperNonRecoverable (thresholdReqEnable P)) = 0 ->
   (sensorMap !! "xyz.openbmc_project.Sensor.Value" = None ->
    outcome = Return IPMI_CC_RESPONSE_ERROR) /\
   (forall sensorObject,
       sensorMap !! "xyz.openbmc_project.Sensor.Value" = Some sensorObject ->
       getSensorMaxMin P sensorObject = None ->
       outcome = Throw) /\
   (forall sensorObject max min,
       sensorMap !! "xyz.openbmc_project.Sensor.Value" = Some sensorObject ->
       getSensorMaxMin P sensorObject = Some (max, min) ->
       getSensorAttributes P max min = None ->
       outcome = Return IPMI_CC_RESPONSE_ERROR)) /\
  (forall dataLen,
      dataLen <> 8 ->
      ipmiSenSetSensorThresholds P now dataLen req st
        = (Return IPMI_CC_REQ_DATA_LEN_INVALID, st)).
Proof.
  intros Hconn Hmap Hmiss outcome. subst outcome.
  pose proof (setThresholds_missing_outcome P now req st tree' connection path
                sensorMap Hconn Hmap Hmiss) as Hout.
  cbv zeta in Hout.
  set (st1 := snd (getSensorMap (R := ipmi_ret_t) P now connection path
                     (stateAfterLookup req tree' st))) in *.
  assert (Hw1 : propertyWrites st1 = propertyWrites st).
  { subst st1. rewrite getSensorMap_propertyWrites.
    unfold propertyWrites, stateAfterLookup. simpl.
    rewrite List.filter_app. simpl. apply app_nil_r. }
  rewrite Hout.
  split; [| split; [| split; [| split]]].
  - destruct (nonzero (Z.land (mask req) 192) || _ || _); [reflexivity |].
    destruct (sensorMap !! "xyz.openbmc_project.Sensor.Value") as [obj |];
      [| exact Hw1].
    destruct (getSensorMaxMin P obj) as [[max min] |]; [| exact Hw1].
    destruct (getSensorAttributes P max min); exact Hw1.
  - intros Hbits. unfold nonzero.
    destruct (Z.eqb_spec (Z.land (mask req) 192) 0) as [E1 | E1];
      [| reflexivity].
    destruct (Z.eqb_spec (Z.land (mask req)
                            (setLowerNonRecoverable (thresholdReqEnable P))) 0)
      as [E2 | E2]; [| reflexivity].
    destruct (Z.eqb_spec (Z.land (mask req)
                            (setUpperNonRecoverable (thresholdReqEnable P))) 0)
      as [E3 | E3]; [| reflexivity].
    exfalso. destruct Hbits as [H | [H | H]]; auto.
  - intros obj max min a Hobj Hrange Hattr.
    destruct (nonzero (Z.land (mask req) 192) || _ || _); [reflexivity |].
    rewrite Hobj, Hrange, Hattr. reflexivity.
  - intros E1 E2 E3. unfold nonzero.
    change 192 with 0xC0. rewrite E1, E2, E3. cbn [Z.eqb negb orb].
    split; [| split].
    + intros ->. reflexivity.
    + intros obj -> ->. reflexivity.
    + intros obj max min -> -> ->. reflexivity.
  - intros dataLen Hlen. unfold ipmiSenSetSensorThresholds. cbv zeta.
    apply Z.eqb_neq in Hlen. rewrite Hlen. reflexivity.
Qed.

Lemma setThresholds_validates_before_writing_witness :
  selectsMissingThreshold (thresholdReqEnable demoPlatform)
    (mask lowerCriticalRequest) demoSensorMap = true /\
  propertyWrites
    (snd (ipmiSenSetSensorThresholds demoPlatform demoNow 8
            lowerCriticalRequest demoState))
    = propertyWrites demoState /\
  fst (ipmiSenSetSensorThresholds demoPlatform demoNow 8 lowerCriticalRequest
         demoState)
    = Return IPMI_CC_INVALID_FIELD_REQUEST.
Proof.
  split; [vm_compute; reflexivity |].
  pose proof
    (setThresholds_validates_before_writing demoPlatform demoNow
       lowerCriticalRequest demoState
       demoTree demoConnection demoPath demoSensorMap
       ltac:(vm_compute; reflexivity)
       (demo_getSensorMap demoSensorMap lowerCriticalRequest demoState eq_refl)
       ltac:(vm_compute; reflexivity)) as [Hwrites [_ [Hcode _]]].
  split; [exact Hwrites |].
  apply (Hcode demoValueProperties
               127%float (-128)%float
               {| mValue := 1; rExp := 0; bValue := 0; bExp := -2;
                  bSigned := true |});
    vm_compute; reflexivity.
Defined.

(** The answers of the mask checks and of the range conversion on demo
    sensors: the mask 0x42 (a reserved bit next to the lower-critical bit)
    on the sensor without a value interface is answered with
    invalid-field-request, and the lower-critical request on a sensor whose
    [MaxValue] is a string lets the exception of the conversion escape. *)
Lemma setThresholds_missing_threshold_examples :
  (selectsMissingThreshold (thresholdReqEnable warningOnlyPlatform)
     (mask reservedBitRequest) warningOnlySensorMap = true /\
   fst (ipmiSenSetSensorThresholds warningOnlyPlatform demoNow 8
          reservedBitRequest demoState)
     = Return IPMI_CC_INVALID_FIELD_REQUEST) /\
  (selectsMissingThreshold (thresholdReqEnable unconvertiblePlatform)
     (mask lowerCriticalRequest) unconvertibleSensorMap = true /\
   fst (ipmiSenSetSensorThresholds unconvertiblePlatform demoNow 8
          lowerCriticalRequest demoState)
     = Throw).
Proof.
  split; split; vm_compute; reflexivity.
Qed.

(** ** Get SDR: the byte window *)

Lemma char_array_length n l : length (char_array n l) = n.
Proof.
  unfold char_array. rewrite length_take, length_app, length_replicate. lia.
Qed.

Lemma full_record_bytes_length r :
  Z.of_nat (length (full_record_bytes r)) = sizeof_SensorDataFullRecord.
Proof.
  unfold full_record_bytes, header_bytes, key_bytes, full_body_bytes.
  rewrite !length_app, char_array_length. reflexivity.
Qed.

Lemma fru_record_bytes_length r :
  Z.of_nat (length (fru_record_bytes r)) = sizeof_SensorDataFruRecord.
Proof.
  unfold fru_record_bytes, header_bytes.
  rewrite !length_app, char_array_length. reflexivity.
Qed.

(** Within the record the clamp keeps the window inside. *)
Lemma clampBytesToRead_inside P size offset bytesToRead :
  0 <= offset <= size -> size < 256 -> 0 <= bytesToRead ->
  0 <= clampBytesToRead P size offset bytesToRead /\
  offset + clampBytesToRead P size offset bytesToRead <= size.
Proof.
  intros Hoff Hsize Hlen. unfold clampBytesToRead.
  destruct (size <? offset + bytesToRead) eqn:E.
  - rewrite uint8_t_size_t, uint8_t_small by lia. lia.
  - apply Z.ltb_ge in E. lia.
Qed.

(** Beyond the record the subtraction wraps: the clamp yields
    [256 + size - offset] bytes. *)
Lemma clampBytesToRead_beyond P size offset bytesToRead :
  0 <= size < offset -> offset < 256 -> 0 <= bytesToRead ->
  clampBytesToRead P size offset bytesToRead = 256 + size - offset.
Proof.
  intros Hoff Hsize Hlen. unfold clampBytesToRead.
  replace (size <? offset + bytesToRead) with true
    by (symmetry; apply Z.ltb_lt; lia).
  rewrite uint8_t_size_t. unfold uint8_t.
  replace (size - offset) with (256 + size - offset + (-1) * 2 ^ 8) by lia.
  rewrite Z.mod_add by lia. apply Z.mod_small. lia.
Qed.

(** A FRU record is never read beyond its end: an offset beyond the record
    is rejected before the window is taken. *)
Lemma fru_window_inside {R} P data offset bytesToRead (st : State) :
  0 <= offset <= sizeof_SensorDataFruRecord -> 0 <= bytesToRead ->
  exists recordData,
    readWindow (R := R) (fru_record_bytes data) offset
      (clampBytesToRead P sizeof_SensorDataFruRecord offset bytesToRead) st
    = (Next recordData, st).
Proof.
  intros Hoff Hlen. unfold readWindow.
  destruct (clampBytesToRead_inside P sizeof_SensorDataFruRecord offset
              bytesToRead Hoff ltac:(reflexivity) Hlen) as [_ Hin].
  rewrite fru_record_bytes_length.
  replace (_ <=? _) with true by (symmetry; apply Z.leb_le; exact Hin).
  eexists. reflexivity.
Qed.

(** A full record read at an offset within the record stays inside. *)
Lemma full_window_inside {R} P record offset bytesToRead (st : State) :
  0 <= offset <= sizeof_SensorDataFullRecord -> 0 <= bytesToRead ->
  exists recordData,
    readWindow (R := R) (full_record_bytes record) offset
      (clampBytesToRead P sizeof_SensorDataFullRecord offset bytesToRead) st
    = (Next recordData, st).
Proof.
  intros Hoff Hlen. unfold readWindow.
  destruct (clampBytesToRead_inside P sizeof_SensorDataFullRecord offset
              bytesToRead Hoff ltac:(reflexivity) Hlen) as [_ Hin].
  rewrite full_record_bytes_length.
  replace (_ <=? _) with true by (symmetry; apply Z.leb_le; exact Hin).
  eexists. reflexivity.
Qed.

(** A full record read at an offset beyond the record: the handler has no
    check of the offset on this path, and the window lies wholly outside. *)
Lemma full_window_outside {R} P record offset bytesToRead (st : State) :
  sizeof_SensorDataFullRecord < offset < 256 -> 0 <= bytesToRead ->
  readWindow (R := R) (full_record_bytes record) offset
    (clampBytesToRead P sizeof_SensorDataFullRecord offset bytesToRead) st
  = (Overread offset (256 + sizeof_SensorDataFullRecord - offset)
       sizeof_SensorDataFullRecord, st).
Proof.
  intros Hoff Hlen. unfold readWindow.
  rewrite clampBytesToRead_beyond by (unfold sizeof_SensorDataFullRecord in *; lia).
  rewrite full_record_bytes_length.
  replace (_ <=? _) with false
    by (symmetry; apply Z.leb_gt; unfold sizeof_SensorDataFullRecord in *; lia).
  reflexivity.
Qed.

(** C6, at the failing input. Get SDR for the live sensor record 0 with
    offset 200 and one byte to read, under the current reservation: the
    clamp sets [bytesToRead] to [uint8_t (64 - 200) = 120] and the handler
    reads the bytes 200..319 of the 64-byte record. *)
Theorem getSDR_full_record_overread :
  fst (ipmiStorageGetSDR demoPlatform demoNow 1 0 200 1 demoState)
    = Overread 200 120 sizeof_SensorDataFullRecord /\
  clampBytesToRead demoPlatform sizeof_SensorDataFullRecord 200 1 = 120 /\
  sizeof_SensorDataFullRecord < 200 + 120.
Proof.
  split; [vm_compute; reflexivity |].
  split; [vm_compute; reflexivity | reflexivity].
Qed.

(** ** The two range defaults *)

Lemma float_127_128 : 127%float <> 128%float.
Proof.
  intros E. apply (f_equal (fun v => PrimFloat.eqb v 127%float)) in E.
  vm_compute in E. discriminate E.
Qed.

Lemma float_m128_m127 : (-128)%float <> (-127)%float.
Proof.
  intros E. apply (f_equal (fun v => PrimFloat.eqb v (-128)%float)) in E.
  vm_compute in E. discriminate E.
Qed.

(** The range that the record assembler passes to getSensorAttributes. *)
Lemma buildFullRecord_range {T} P recordID path (sensorMap : SensorMap)
    (props : PropertyMap) st record st' :
  sensorMap !! "xyz.openbmc_project.Sensor.Value" = Some props ->
  buildFullRecord (T := T) P recordID path sensorMap st = (Next record, st') ->
  exists max min a,
    rangeWithDefaults P props 128%float (-127)%float = Some (max, min) /\
    getSensorAttributes P max min = Some a /\
    m_lsb (body record) = Z.land (mValue a) 0xFF /\
    m_msb_and_tolerance (body record) = pack_msb (mValue a) /\
    b_lsb (body record) = Z.land (bValue a) 0xFF /\
    b_msb_and_accuracy_lsb (body record) = pack_msb (bValue a) /\
    r_b_exponents (body record) = pack_r_b_exponents (bExp a) (rExp a).
Proof.
  intros Hprops H.
  destruct (buildFullRecord_inv _ _ _ _ _ _ _ H)
    as (obj & max & min & a & td & Hobj & Hmax & Hmin & Ha & _ & F1 & F2 & F3
        & F4 & F5 & _).
  rewrite Hprops in Hobj. injection Hobj as <-.
  exists max, min, a. unfold rangeWithDefaults. rewrite Hmax, Hmin.
  repeat split; assumption.
Qed.

(** The range with which getIPMIThresholds scales the threshold bytes (of
    the same record, when called from Get SDR). *)
Lemma getIPMIThresholds_range P (sensorMap : SensorMap) (props : PropertyMap)
    thresholdData :
  sensorMap !! "xyz.openbmc_project.Sensor.Value" = Some props ->
  is_Some (sensorMap !! "xyz.openbmc_project.Sensor.Threshold.Warning") \/
  is_Some (sensorMap !! "xyz.openbmc_project.Sensor.Threshold.Critical") ->
  getIPMIThresholds P sensorMap = Some thresholdData ->
  exists max min a,
    rangeWithDefaults P props 127%float (-128)%float = Some (max, min) /\
    getSensorAttributes P max min = Some a /\
    scaledThreshold P a
      (default ∅ (sensorMap !! "xyz.openbmc_project.Sensor.Threshold.Warning")
         !! "WarningHigh") = Some (warningHigh thresholdData) /\
    scaledThreshold P a
      (default ∅ (sensorMap !! "xyz.openbmc_project.Sensor.Threshold.Warning")
         !! "WarningLow") = Some (warningLow thresholdData) /\
    scaledThreshold P a
      (default ∅ (sensorMap !! "xyz.openbmc_project.Sensor.Threshold.Critical")
         !! "CriticalHigh") = Some (criticalHigh thresholdData) /\
    scaledThreshold P a
      (default ∅ (sensorMap !! "xyz.openbmc_project.Sensor.Threshold.Critical")
         !! "CriticalLow") = Some (criticalLow thresholdData).
Proof.
  intros Hprops Hifaces. unfold getIPMIThresholds. cbv zeta.
  rewrite Hprops.
  replace (bool_decide _ || bool_decide _) with true.
  2: { symmetry. apply orb_true_iff.
       destruct Hifaces as [H | H]; [left | right];
         apply bool_decide_eq_true; exact H. }
  change (getSensorMaxMin P props)
    with (rangeWithDefaults P props 127%float (-128)%float).
  destruct (rangeWithDefaults P props 127%float (-128)%float)
    as [[max min] |]; [| discriminate].
  destruct (getSensorAttributes P max min) as [a |] eqn:Ha; [| discriminate].
  destruct (scaledThreshold P a (_ !! "WarningHigh")) as [wh |] eqn:Hwh;
    [| discriminate].
  destruct (scaledThreshold P a (_ !! "WarningLow")) as [wl |] eqn:Hwl;
    [| discriminate].
  destruct (scaledThreshold P a (_ !! "CriticalHigh")) as [ch |] eqn:Hch;
    [| discriminate].
  destruct (scaledThreshold P a (_ !! "CriticalLow")) as [cl |] eqn:Hcl;
    [| discriminate].
  intros [= <-]. exists max, min, a. cbn [warningHigh warningLow criticalHigh
                                          criticalLow].
  repeat split; assumption.
Qed.

Lemma ranges_differ P (props : PropertyMap) reading sdr :
  props !! "MaxValue" = None \/ props !! "MinValue" = None ->
  rangeWithDefaults P props 127%float (-128)%float = Some reading ->
  rangeWithDefaults P props 128%float (-127)%float = Some sdr ->
  reading <> sdr.
Proof.
  unfold rangeWithDefaults. intros [Habsent | Habsent]; rewrite Habsent.
  - destruct (match props !! "MinValue" with
              | Some v => VariantToDoubleVisitor P v
              | None => Some (-128)%float
              end) as [min1 |]; [| discriminate].
    destruct (match props !! "MinValue" with
              | Some v => VariantToDoubleVisitor P v
              | None => Some (-127)%float
              end) as [min2 |]; [| discriminate].
    intros [= <-] [= <-] E. apply (f_equal fst) in E. exact (float_127_128 E).
  - destruct (match props !! "MaxValue" with
              | Some v => VariantToDoubleVisitor P v
              | None => Some 127%float
              end) as [max1 |]; [| discriminate].
    destruct (match props !! "MaxValue" with
              | Some v => VariantToDoubleVisitor P v
              | None => Some 128%float
              end) as [max2 |]; [| discriminate].
    intros [= <-] [= <-] E. apply (f_equal snd) in E. exact (float_m128_m127 E).
Qed.

(** C10. For a sensor whose value interface lacks MaxValue and/or MinValue,
    getSensorMaxMin (the reading and threshold path) completes the range
    with max = 127 and min = -128, and getIPMIThresholds scales the
    threshold bytes with the attributes of that range, while the record
    assembler of Get SDR completes the range with max = 128 and min = -127
    and derives the M, B and exponent bytes of the record from it; the two
    ranges are never equal, so the two paths hand different ranges to
    getSensorAttributes. *)
Theorem range_defaults_differ
    (P : Platform) (sensorMap : SensorMap) (props : PropertyMap) :
  sensorMap !! "xyz.openbmc_project.Sensor.Value" = Some props ->
  props !! "MaxValue" = None \/ props !! "MinValue" = None ->
  getSensorMaxMin P props = rangeWithDefaults P props 127%float (-128)%float /\
  (forall recordID path st record st',
      buildFullRecord (T := Z * list Z) P recordID path sensorMap st
        = (Next record, st') ->
      exists max min a,
        rangeWithDefaults P props 128%float (-127)%float = Some (max, min) /\
        getSensorAttributes P max min = Some a /\
        m_lsb (body record) = Z.land (mValue a) 0xFF /\
        m_msb_and_tolerance (body record) = pack_msb (mValue a) /\
        b_lsb (body record) = Z.land (bValue a) 0xFF /\
        b_msb_and_accuracy_lsb (body record) = pack_msb (bValue a) /\
        r_b_exponents (body record) = pack_r_b_exponents (bExp a) (rExp a)) /\
  (forall thresholdData,
      is_Some (sensorMap !! "xyz.openbmc_project.Sensor.Threshold.Warning") \/
      is_Some (sensorMap !! "xyz.openbmc_project.Sensor.Threshold.Critical") ->
      getIPMIThresholds P sensorMap = Some thresholdData ->
      exists max min a,
        rangeWithDefaults P props 127%float (-128)%float = Some (max, min) /\
        getSensorAttributes P max min = Some a /\
        scaledThreshold P a
          (default ∅
             (sensorMap !! "xyz.openbmc_project.Sensor.Threshold.Warning")
             !! "WarningHigh") = Some (warningHigh thresholdData) /\
        scaledThreshold P a
          (default ∅
             (sensorMap !! "xyz.openbmc_project.Sensor.Threshold.Warning")
             !! "WarningLow") = Some (warningLow thresholdData) /\
        scaledThreshold P a
          (default ∅
             (sensorMap !! "xyz.openbmc_project.Sensor.Threshold.Critical")
             !! "CriticalHigh") = Some (criticalHigh thresholdData) /\
        scaledThreshold P a
          (default ∅
             (sensorMap !! "xyz.openbmc_project.Sensor.Threshold.Critical")
             !! "CriticalLow") = Some (criticalLow thresholdData)) /\
  (forall reading sdr,
      rangeWithDefaults P props 127%float (-128)%float = Some reading ->
      rangeWithDefaults P props 128%float (-127)%float = Some sdr ->
      reading <> sdr) /\
  (props !! "MaxValue" = None -> props !! "MinValue" = None ->
   getSensorMaxMin P props = Some (127%float, (-128)%float) /\
   rangeWithDefaults P props 128%float (-127)%float
     = Some (128%float, (-127)%float)).
Proof.
  intros Hprops Habsent. split; [reflexivity |]. split; [| split; [| split]].
  - intros recordID path st record st'.
    apply buildFullRecord_range. exact Hprops.
  - intros thresholdData. apply getIPMIThresholds_range. exact Hprops.
  - intros reading sdr. apply ranges_differ. exact Habsent.
  - intros Hmax Hmin. unfold getSensorMaxMin, rangeWithDefaults.
    rewrite Hmax, Hmin. split; reflexivity.
Qed.

(** On the demo platform, whose stand-in for getSensorAttributes takes the
    exponent from the upper bound, the demo sensor gets different
    attributes on the two paths. *)
Lemma range_defaults_differ_witness :
  getSensorMaxMin demoPlatform demoValueProperties
    = Some (127%float, (-128)%float) /\
  rangeWithDefaults demoPlatform demoValueProperties
    128%float (-127)%float = Some (128%float, (-127)%float) /\
  getSensorAttributes demoPlatform 127%float (-128)%float
    <> getSensorAttributes demoPlatform 128%float (-127)%float.
Proof.
  destruct (range_defaults_differ demoPlatform demoSensorMap
              demoValueProperties
              ltac:(vm_compute; reflexivity)
              ltac:(left; vm_compute; reflexivity))
    as (_ & _ & _ & _ & Hboth).
  destruct (Hboth ltac:(vm_compute; reflexivity) ltac:(vm_compute; reflexivity))
    as [Hreading Hsdr].
  split; [exact Hreading |]. split; [exact Hsdr |].
  vm_compute. discriminate.
Defined.

(** ** The exponent byte in the response of Get SDR *)

Lemma nth_window (l : list Z) (i off len : nat) :
  (off <= i)%nat -> (i < off + len)%nat ->
  nth (i - off) (take len (drop off l)) 0 = nth i l 0.
Proof.
  intros Hlo Hhi.
  rewrite !nth_lookup.
  rewrite lookup_take_lt by lia.
  rewrite lookup_drop.
  replace (off + (i - off))%nat with i by lia. reflexivity.
Qed.

Lemma exponent_byte_in_window P record offset bytesToRead :
  0 <= offset <= 29 -> 29 < offset + bytesToRead ->
  nth (Z.to_nat (29 - offset))
    (take (Z.to_nat (clampBytesToRead P sizeof_SensorDataFullRecord offset
                       bytesToRead))
       (drop (Z.to_nat offset) (full_record_bytes record))) 0
  = uint8_t (r_b_exponents (body record)).
Proof.
  intros Hoff Hlen.
  rewrite <- full_record_byte_29.
  replace (Z.to_nat (29 - offset)) with (29 - Z.to_nat offset)%nat by lia.
  apply nth_window; [lia |].
  unfold clampBytesToRead, sizeof_SensorDataFullRecord.
  destruct (64 <? offset + bytesToRead) eqn:E.
  - rewrite uint8_t_size_t, uint8_t_small by lia. lia.
  - apply Z.ltb_ge in E. lia.
Qed.

(** The record-level fact carried to the bytes of the window. *)
Lemma exponent_byte_on_the_wire {T} P recordID path (sensorMap : SensorMap)
    st record st' offset bytesToRead :
  buildFullRecord (T := T) P recordID path sensorMap st = (Next record, st') ->
  0 <= offset <= 29 -> 29 < offset + bytesToRead ->
  Z.land
    (nth (Z.to_nat (29 - offset))
       (take (Z.to_nat (clampBytesToRead P sizeof_SensorDataFullRecord offset
                          bytesToRead))
          (drop (Z.to_nat offset) (full_record_bytes record))) 0) 0x0F = 0.
Proof.
  intros Hb Hoff Hlen.
  destruct (buildFullRecord_inv _ _ _ _ _ _ _ Hb)
    as (obj & max & min & a & td & _ & _ & _ & _ & _ & _ & _ & _ & _ & Hr & _).
  rewrite (exponent_byte_in_window _ _ _ _ Hoff Hlen), Hr.
  rewrite uint8_t_small.
  - apply pack_r_b_exponents_low_nibble.
  - rewrite pack_r_b_exponents_value.
    land_7_split (rExp a); destruct (rExp a <? 0); vm_compute; split;
      congruence.
Qed.

Ltac exponent_byte_finish Hne Hlive Hoff Hlen :=
  rewrite Hne; cbv iota;
  match goal with
  | |- fst ((if ?c then _ else _) _) = _ -> _ =>
      destruct c; [discriminate |]
  end;
  match goal with
  | |- fst ((if ?c then _ else _) _) = _ -> _ =>
      replace c with false
        by (symmetry; rewrite Z.geb_leb; apply Z.leb_gt; lia)
  end;
  match goal with
  | |- context [selectSensor ?t ?r] =>
      destruct (selectSensor t r) as [[? ?] |]; [| discriminate]
  end;
  unfold bind at 1;
  match goal with
  | |- context [getSensorMap ?P ?now ?c ?p ?s] =>
      let Hg := fresh "Hg" in
      destruct (getSensorMap P now c p s) as [[[? |] | ? | |] ?] eqn:Hg;
      try discriminate;
      [| exfalso;
         exact (replies_getSensorMap (fun _ => False) _ _ _ _ _ _ _ Hg)]
  end;
  unfold bind at 1;
  match goal with
  | |- context [buildFullRecord ?P ?r ?p ?m ?s] =>
      let Hb := fresh "Hb" in
      destruct (buildFullRecord P r p m s) as [[? | ? | |] ?] eqn:Hb;
      try discriminate;
      [| rewrite (replies_buildFullRecord
                    (fun r => r = responseResponseError) _ _ _ _ eq_refl
                    _ _ _ Hb);
         discriminate];
      unfold bind at 1, readWindow;
      match goal with
      | |- context [if ?c then ret _ else overread _ _ _] =>
          destruct c; [| discriminate]
      end;
      unfold ret, reply; cbn [fst];
      intros [= _ <-];
      exact (exponent_byte_on_the_wire _ _ _ _ _ _ _ _ _ Hb Hoff Hlen)
  end.

(** Whenever Get SDR answers a read of a live-sensor record whose window
    covers offset 29, the byte it returns there has a zero low nibble. *)
Lemma getSDR_exponent_byte P now rid recordID offset bytesToRead st next payload :
  0 <= recordID < Z.of_nat (length (sensorTreeAfterRefresh P st)) ->
  recordID <> 0xFFFF ->
  0 <= offset <= 29 -> 29 < offset + bytesToRead ->
  fst (ipmiStorageGetSDR P now rid recordID offset bytesToRead st)
    = Return (responseSuccess (next, payload)) ->
  Z.land (nth (Z.to_nat (29 - offset)) payload 0) 0x0F = 0.
Proof.
  intros Hlive Hne Hoff Hlen.
  apply Z.eqb_neq in Hne.
  unfold sensorTreeAfterRefresh in *.
  unfold ipmiStorageGetSDR. cbv zeta. run.
  destruct (((sdrReservationID st =? 0) || negb (rid =? sdrReservationID st))
            && nonzero offset) eqn:Hcheck; [discriminate |].
  run.
  destruct (sensorTree st) as [| sensor0 tree] eqn:Htree; run.
  - destruct (fst (getSensorSubtree P [])) eqn:Hsub; run; [| discriminate].
    destruct (negb (fst (getFruSdrCount P) =? IPMI_CC_OK)) eqn:Hcount; run;
      [discriminate |].
    exponent_byte_finish Hne Hlive Hoff Hlen.
  - rewrite ?Htree.
    destruct (negb (fst (getFruSdrCount P) =? IPMI_CC_OK)) eqn:Hcount; run;
      [discriminate |].
    rewrite ?Htree.
    exponent_byte_finish Hne Hlive Hoff Hlen.
Qed.

(** ** The sensor map cache between refreshes *)

Lemma quot_seconds_within_period d :
  d < 3 * 1000000000 -> (duration_cast_seconds d >? sensorMapUpdatePeriod) = false.
Proof.
  intros H. unfold duration_cast_seconds, sensorMapUpdatePeriod.
  rewrite Z.gtb_ltb. apply Z.ltb_ge.
  destruct (Z_lt_le_dec d 0) as [Hneg | Hpos].
  - pose proof (Z.quot_opp_l d 1000000000 ltac:(lia)) as E.
    pose proof (Z.quot_pos (- d) 1000000000 ltac:(lia) ltac:(lia)). lia.
  - pose proof (Z.quot_lt_upper_bound d 1000000000 3 Hpos ltac:(lia) ltac:(lia)).
    lia.
Qed.

(** Without a due refresh the call answers from the cache and leaves the
    state as it is. *)
Lemma getSensorMap_cached {R} P now c p (st : State) :
  refreshDue now c st = false ->
  getSensorMap (R := R) P now c p st
  = (Next (SensorCache st !! c ≫= (.!! p)), st).
Proof.
  unfold getSensorMap, refreshDue, bind, gets, modify, ret. simpl.
  intros ->. simpl.
  destruct (SensorCache st !! c) as [objects |]; simpl; [| reflexivity].
  destruct (objects !! p); reflexivity.
Qed.

Lemma getSensorMap_SensorCache {R} P now c p (st : State) :
  refreshDue now c st = true ->
  SensorCache (snd (getSensorMap (R := R) P now c p st)) =
  match GetManagedObjects P c with
  | Some objects => <[c := objects]> (SensorCache st)
  | None => SensorCache st
  end.
Proof.
  unfold getSensorMap, refreshDue, bind, gets, modify, ret. simpl.
  intros ->. simpl.
  destruct (GetManagedObjects P c) as [objects |]; simpl; [| reflexivity].
  rewrite lookup_insert_eq. destruct (objects !! p); reflexivity.
Qed.

(** C5, at the failing input. The demo connection is enumerated with
    success at the time [t1]; ten seconds later the backend has begun to
    fail, and one second after that the sensor is asked for again
    ([failingPlatform] is [demoPlatform] with an enumeration that fails).
    The second call is due a refresh, fails and reports failure, leaves
    the cached tree as it was, and yet has moved the timestamp of the
    connection from [t1] to [t2]: the claim says it stays. The third call
    therefore finds the timestamp one second old, issues no backend call
    and serves the sensor map fetched at [t1], eleven seconds old, as a
    success; with the timestamp left at [t1] a refresh would have been
    due. *)
Theorem failed_enumeration_serves_stale_map :
  let c := demoConnection in
  let p := demoPath in
  let t1 := demoNow in
  let t2 := demoNow + 10 * 1000000000 in
  let t3 := demoNow + 11 * 1000000000 in
  let call1 := getSensorMap (R := ipmi_ret_t) demoPlatform t1 c p startup in
  let call2 :=
    getSensorMap (R := ipmi_ret_t) failingPlatform t2 c p (snd call1) in
  let call3 :=
    getSensorMap (R := ipmi_ret_t) failingPlatform t3 c p (snd call2) in
  (fst call1 = Next (Some demoSensorMap) /\
   updateTimeMap (snd call1) !! c = Some t1) /\
  (GetManagedObjects failingPlatform c = None /\
   fst call2 = Next None /\
   SensorCache (snd call2) = SensorCache (snd call1) /\
   updateTimeMap (snd call2) !! c = Some t2 /\
   updateTimeMap (snd call2) !! c <> updateTimeMap (snd call1) !! c) /\
  (refreshDue t3 c (snd call1) = true /\
   refreshDue t3 c (snd call2) = false /\
   fst call3 = Next (Some demoSensorMap) /\
   backendCalls (snd call3) = backendCalls (snd call2) /\
   backendCalls (snd call2)
     = [CallGetManagedObjects c; CallGetManagedObjects c]).
Proof.
  cbv zeta.
  rewrite (getSensorMap_enumerated demoPlatform demoNow demoConnection demoPath
             startup (<[demoPath := demoSensorMap]> ∅))
    by (reflexivity || apply demoBackend_demoConnection).
  cbn [fst snd].
  set (s1 := set_SensorCache _ _).
  assert (Ht1 : updateTimeMap s1 !! demoConnection = Some demoNow).
  { subst s1. cbn [updateTimeMap set_SensorCache log_call set_updateTimeMap].
    apply lookup_insert_eq. }
  assert (Hdue2 : refreshDue (demoNow + 10 * 1000000000) demoConnection s1
                  = true).
  { unfold refreshDue. rewrite Ht1. reflexivity. }
  rewrite (getSensorMap_failed failingPlatform _ demoConnection demoPath s1
             Hdue2 eq_refl).
  cbn [fst snd].
  set (s2 := log_call _ _).
  assert (Ht2 : updateTimeMap s2 !! demoConnection
                = Some (demoNow + 10 * 1000000000)).
  { subst s2. cbn [updateTimeMap log_call set_updateTimeMap].
    apply lookup_insert_eq. }
  assert (Hdue3 : refreshDue (demoNow + 11 * 1000000000) demoConnection s2
                  = false).
  { unfold refreshDue. rewrite Ht2. reflexivity. }
  assert (Hcache : SensorCache s2 = SensorCache s1) by reflexivity.
  rewrite (getSensorMap_cached failingPlatform _ demoConnection demoPath s2
             Hdue3).
  cbn [fst snd].
  split; [| split].
  - split; [| exact Ht1]. rewrite lookup_insert_eq. reflexivity.
  - split; [reflexivity |]. split; [reflexivity |].
    split; [exact Hcache |]. split; [exact Ht2 |].
    rewrite Ht1, Ht2. discriminate.
  - split; [unfold refreshDue; rewrite Ht1; reflexivity |].
    split; [exact Hdue3 |].
    split.
    + rewrite Hcache. subst s1. cbn [SensorCache set_SensorCache].
      rewrite lookup_insert_eq. cbn [mbind option_bind].
      rewrite lookup_insert_eq. reflexivity.
    + split; reflexivity.
Qed.

(** X1. After a refresh attempt for a connection, successful or not, every
    call for that connection made less than three seconds later is answered
    from the cache, for whatever sensor path, without a backend call and
    without any change of the state; after a failed attempt the cache it
    answers from is the one from before the attempt. *)
Theorem getSensorMap_served_from_cache
    (P : Platform) (now now' : Z) (c p p' : string) (st : State) :
  refreshDue now c st = true ->
  now' - now < 3 * 1000000000 ->
  let st1 := snd (getSensorMap (R := ipmi_ret_t) P now c p st) in
  getSensorMap (R := ipmi_ret_t) P now' c p' st1
    = (Next (SensorCache st1 !! c ≫= (.!! p')), st1) /\
  SensorCache st1 =
    match GetManagedObjects P c with
    | Some objects => <[c := objects]> (SensorCache st)
    | None => SensorCache st
    end.
Proof.
  intros Hdue Hsoon st1. split.
  - apply getSensorMap_cached. unfold refreshDue. subst st1.
    rewrite getSensorMap_updateTimeMap, Hdue, lookup_insert_eq.
    apply quot_seconds_within_period. exact Hsoon.
  - apply getSensorMap_SensorCache. exact Hdue.
Qed.

Lemma getSensorMap_served_from_cache_witness :
  let st1 := snd (getSensorMap (R := ipmi_ret_t) failingPlatform demoNow
                    demoConnection demoPath startup) in
  getSensorMap (R := ipmi_ret_t) failingPlatform (demoNow + 1000000000)
    demoConnection demoPath st1
    = (Next (SensorCache st1 !! demoConnection ≫= (.!! demoPath)), st1) /\
  SensorCache st1 =
    match GetManagedObjects failingPlatform demoConnection with
    | Some objects => <[demoConnection := objects]> (SensorCache startup)
    | None => SensorCache startup
    end.
Proof.
  apply (getSensorMap_served_from_cache failingPlatform demoNow
           (demoNow + 1000000000) demoConnection demoPath demoPath startup).
  - vm_compute. reflexivity.
  - lia.
Defined.

(** X2. A call for one connection leaves the cache entry and the timestamp
    of every other connection, the reservation counter, the sensor tree and
    the deassertion latches as they were. *)
Theorem getSensorMap_other_connections
    (P : Platform) (now : Z) (c p c' : string) (st : State) :
  c' <> c ->
  let st1 := snd (getSensorMap (R := ipmi_ret_t) P now c p st) in
  SensorCache st1 !! c' = SensorCache st !! c' /\
  updateTimeMap st1 !! c' = updateTimeMap st !! c' /\
  sdrReservationID st1 = sdrReservationID st /\
  sensorTree st1 = sensorTree st /\
  thresholdDeassertMap st1 = thresholdDeassertMap st.
Proof.
  intros Hne st1. subst st1.
  unfold getSensorMap, bind, gets, modify, ret. simpl.
  destruct (duration_cast_seconds (now - default 0 (updateTimeMap st !! c))
              >? sensorMapUpdatePeriod); simpl.
  - destruct (GetManagedObjects P c) as [objects |]; simpl.
    + rewrite lookup_insert_eq.
      destruct (objects !! p); simpl;
        rewrite !lookup_insert_ne by congruence; done.
    + rewrite lookup_insert_ne by congruence. done.
  - destruct (SensorCache st !! c) as [objects |]; simpl; [| done].
    destruct (objects !! p); done.
Qed.

Lemma getSensorMap_other_connections_witness :
  let st1 := snd (getSensorMap (R := ipmi_ret_t) demoPlatform demoNow
                    demoConnection demoPath startup) in
  SensorCache st1 !! "other"%string = SensorCache startup !! "other"%string /\
  updateTimeMap st1 !! "other"%string = updateTimeMap startup !! "other"%string /\
  sdrReservationID st1 = sdrReservationID startup /\
  sensorTree st1 = sensorTree startup /\
  thresholdDeassertMap st1 = thresholdDeassertMap startup.
Proof.
  apply (getSensorMap_other_connections demoPlatform demoNow demoConnection
           demoPath "other" startup).
  discriminate.
Defined.

(** ** Reservations and Get SDR *)

(** Once the reservation check has let the call through,
    invalid-reservation-id can only be a code of a collaborator. *)
Lemma getSDR_check_passed_code P now rid recordID off n st :
  passesReservationCheck rid off st ->
  fst (getFruSdrCount P) <> IPMI_CC_INVALID_RESERVATION_ID ->
  (forall i, fst (getFruSdrs P i) <> IPMI_CC_INVALID_RESERVATION_ID) ->
  fst (ipmiStorageGetSDR P now rid recordID off n st)
    <> Return responseInvalidReservationId.
Proof.
  intros Hpass Hcount Hfru.
  apply reservation_check_passed in Hpass.
  set (Q := fun r : RspType (Z * list Z) => r <> responseInvalidReservationId).
  unfold ipmiStorageGetSDR. cbv zeta.
  match goal with
  | |- context [bind (gets sdrReservationID)
                  (fun current => if _ then _ else ?rest)] =>
      set (afterCheck := rest)
  end.
  assert (HQ : Replies Q afterCheck).
  { subst afterCheck.
    replies_with
      ltac:(first
        [ apply replies_getSensorMap | apply replies_readWindow
        | apply replies_buildFullRecord; subst Q; simpl; discriminate
        | apply replies_reply; subst Q; simpl;
          unfold responseInvalidReservationId;
          first [ discriminate
                | intros E; injection E as E;
                  first [ apply Hcount; exact E | eapply Hfru; exact E ] ] ]). }
  rewrite bind_gets, Hpass.
  intros E. exact (replies_run Q afterCheck st _ HQ E eq_refl).
Qed.

Lemma reserve_changes_id st :
  sdrReservationID (snd (ipmiStorageReserveSDR 0 st)) <> sdrReservationID st.
Proof.
  pose proof (reserve_id_range st) as R.
  destruct (Z_lt_le_dec 0 (sdrReservationID st)) as [Hpos | Hneg]; [| lia].
  destruct (Z_lt_le_dec (sdrReservationID st) 65536) as [Hlt | Hge]; [| lia].
  apply reserve_step. lia.
Qed.

(** X3. A reservation invalidates the one before it. After Reserve SDR
    Repository, a Get SDR with a non-zero offset that still carries the
    previous reservation ID is answered with invalid-reservation-id and
    changes nothing, while one that carries the ID just returned is not
    cut off by the reservation check: it answers invalid-reservation-id
    only if a collaborator hands that code back. *)
Theorem reserve_invalidates_previous
    (P : Platform) (now recordID offset bytesToRead : Z) (st : State) :
  offset <> 0 ->
  let reserved := ipmiStorageReserveSDR 0 st in
  let newID := reservationIdOfResponse (snd (fst reserved)) in
  ipmiStorageGetSDR P now (sdrReservationID st) recordID offset bytesToRead
    (snd reserved)
    = (Return responseInvalidReservationId, snd reserved) /\
  (fst (getFruSdrCount P) <> IPMI_CC_INVALID_RESERVATION_ID ->
   (forall i, fst (getFruSdrs P i) <> IPMI_CC_INVALID_RESERVATION_ID) ->
   fst (ipmiStorageGetSDR P now newID recordID offset bytesToRead (snd reserved))
     <> Return responseInvalidReservationId).
Proof.
  intros Hoff reserved newID. split.
  - pose proof (reserve_changes_id st) as Hne. fold reserved in Hne.
    unfold ipmiStorageGetSDR. cbv zeta. rewrite bind_gets.
    assert (Hcheck : ((sdrReservationID (snd reserved) =? 0)
                      || negb (sdrReservationID st
                               =? sdrReservationID (snd reserved)))
                     && nonzero offset = true).
    { apply andb_true_intro. split.
      - apply orb_true_iff. right. apply negb_true_iff. apply Z.eqb_neq.
        congruence.
      - unfold nonzero. apply negb_true_iff. apply Z.eqb_neq. exact Hoff. }
    rewrite Hcheck. reflexivity.
  - apply getSDR_check_passed_code. right. subst newID reserved.
    rewrite reserve_response_id.
    pose proof (reserve_id_range st). split; [lia | reflexivity].
Qed.

Lemma reserve_invalidates_previous_witness :
  let reserved := ipmiStorageReserveSDR 0 demoState in
  let newID := reservationIdOfResponse (snd (fst reserved)) in
  ipmiStorageGetSDR demoPlatform demoNow (sdrReservationID demoState) 0 16 16
    (snd reserved)
    = (Return responseInvalidReservationId, snd reserved) /\
  (fst (getFruSdrCount demoPlatform) <> IPMI_CC_INVALID_RESERVATION_ID ->
   (forall i, fst (getFruSdrs demoPlatform i) <> IPMI_CC_INVALID_RESERVATION_ID) ->
   fst (ipmiStorageGetSDR demoPlatform demoNow newID 0 16 16 (snd reserved))
     <> Return responseInvalidReservationId).
Proof.
  apply (reserve_invalidates_previous demoPlatform demoNow 0 16 16 demoState).
  lia.
Defined.

(** One reservation moves the counter to its successor in 1..65535. *)
Lemma reserve_successor st :
  0 <= sdrReservationID st <= 65535 ->
  sdrReservationID (snd (ipmiStorageReserveSDR 0 st))
  = sdrReservationID st mod 65535 + 1.
Proof.
  intros H. unfold ipmiStorageReserveSDR. simpl.
  destruct (Z.eq_dec (sdrReservationID st) 65535) as [E | E].
  - rewrite E. vm_compute. reflexivity.
  - rewrite (uint16_t_small (sdrReservationID st + 1)) by lia.
    rewrite (Z.mod_small (sdrReservationID st) 65535) by lia.
    destruct (sdrReservationID st + 1 =? 0) eqn:E0; simpl; [| reflexivity].
    apply Z.eqb_eq in E0. lia.
Qed.

Lemma reserveTimes_id n : forall st,
  1 <= sdrReservationID st <= 65535 ->
  sdrReservationID (reserveTimes n st)
  = (sdrReservationID st - 1 + Z.of_nat n) mod 65535 + 1.
Proof.
  induction n as [| n IH]; intros st H.
  - simpl. rewrite Z.add_0_r. rewrite Z.mod_small by lia. lia.
  - cbn [reserveTimes].
    pose proof (reserve_id_range st) as R.
    rewrite IH by lia. rewrite reserve_successor by lia.
    replace (sdrReservationID st mod 65535 + 1 - 1 + Z.of_nat n)
      with (sdrReservationID st mod 65535 + Z.of_nat n) by lia.
    rewrite Zplus_mod_idemp_l. f_equal. f_equal. lia.
Qed.

(** X4. The reservation IDs cycle through 1..65535: from a counter in
    0..65535 (0 on startup), the n-th consecutive reservation (n >= 1)
    leaves the counter at ((counter + n - 1) mod 65535) + 1; it is never 0,
    and after 65535 further reservations the same ID is handed out again. *)
Theorem reserve_cycle (n : nat) (st : State) :
  0 <= sdrReservationID st <= 65535 ->
  (0 < n)%nat ->
  sdrReservationID (reserveTimes n st)
    = (sdrReservationID st + Z.of_nat n - 1) mod 65535 + 1 /\
  sdrReservationID (reserveTimes (n + Z.to_nat 65535) st)
    = sdrReservationID (reserveTimes n st).
Proof.
  intros H Hn.
  assert (E : forall k, (0 < k)%nat ->
            sdrReservationID (reserveTimes k st)
            = (sdrReservationID st + Z.of_nat k - 1) mod 65535 + 1).
  { intros k Hk. destruct k as [| k]; [lia |]. cbn [reserveTimes].
    pose proof (reserve_id_range st) as R.
    rewrite reserveTimes_id by lia. rewrite reserve_successor by lia.
    replace (sdrReservationID st mod 65535 + 1 - 1 + Z.of_nat k)
      with (sdrReservationID st mod 65535 + Z.of_nat k) by lia.
    rewrite Zplus_mod_idemp_l. f_equal. f_equal. lia. }
  split; [apply E; exact Hn |].
  rewrite !E by lia. f_equal.
  replace (sdrReservationID st + Z.of_nat (n + Z.to_nat 65535) - 1)
    with (sdrReservationID st + Z.of_nat n - 1 + 1 * 65535) by lia.
  apply Z.mod_add. lia.
Qed.

Lemma reserve_cycle_witness :
  sdrReservationID (reserveTimes 3 startup)
    = (sdrReservationID startup + Z.of_nat 3 - 1) mod 65535 + 1 /\
  sdrReservationID (reserveTimes (3 + Z.to_nat 65535) startup)
    = sdrReservationID (reserveTimes 3 startup).
Proof.
  apply (reserve_cycle 3 startup).
  - vm_compute. split; discriminate.
  - lia.
Defined.

(** ** Set Sensor Thresholds: the writes *)

Lemma logWrites_app P c p a l1 l2 st :
  logWrites P c p a (l1 ++ l2) st = logWrites P c p a l2 (logWrites P c p a l1 st).
Proof. unfold logWrites. apply foldl_app. Qed.

Lemma backendCalls_logWrites P c p a l : forall st,
  backendCalls (logWrites P c p a l st)
  = backendCalls st ++ map (thresholdWrite P c p a) l.
Proof.
  induction l as [| t l IH]; intros st.
  - simpl. symmetry. apply app_nil_r.
  - change (logWrites P c p a (t :: l) st)
      with (logWrites P c p a l (log_call (thresholdWrite P c p a t) st)).
    rewrite IH. simpl. rewrite <- app_assoc. reflexivity.
Qed.

(** As long as the backend accepts the writes the loop goes on. *)
Lemma writeThresholds_accepted {R} P c p a l : forall st,
  forallb (writeAccepted P c p a) l = true ->
  writeThresholds (R := R) P c p a l st = (Next tt, logWrites P c p a l st).
Proof.
  induction l as [| [[name value] interface] l IH]; intros st Hacc.
  - reflexivity.
  - simpl in Hacc. apply andb_true_iff in Hacc as [Ht Hl].
    unfold writeAccepted, valueToSet in Ht. simpl in Ht.
    cbn [writeThresholds]. cbv zeta. run. rewrite Ht. run.
    rewrite IH by exact Hl. reflexivity.
Qed.

Lemma writeThresholds_rejected {R} P c p a t l st :
  writeAccepted P c p a t = false ->
  writeThresholds (R := R) P c p a (t :: l) st
  = (Throw, log_call (thresholdWrite P c p a t) st).
Proof.
  destruct t as [[name value] interface]. intros Ht.
  unfold writeAccepted, valueToSet in Ht. simpl in Ht.
  cbn [writeThresholds]. cbv zeta. run. rewrite Ht. run. reflexivity.
Qed.

Lemma writeThresholds_app {R} P c p a l1 l2 : forall st,
  writeThresholds (R := R) P c p a (l1 ++ l2) st
  = bind (writeThresholds P c p a l1)
      (fun _ => writeThresholds P c p a l2) st.
Proof.
  induction l1 as [| [[name value] interface] l1 IH]; intros st.
  - reflexivity.
  - simpl app. cbn [writeThresholds]. cbv zeta. run.
    destruct (setDbusProperty P c p interface name _); run; [| reflexivity].
    apply IH.
Qed.

(** X5. The write loop of Set Sensor Thresholds has no rollback: the
    thresholds are written in list order for as long as the backend accepts
    them; when it rejects one, the exception leaves the handler (no
    completion code is returned) and the writes issued before it, that of
    the rejected threshold included, stay issued, while none of the
    thresholds after it is attempted. When every write is accepted the loop
    issues exactly one write per threshold. *)
Theorem writeThresholds_stops_at_first_rejection
    (P : Platform) (connection path : string) (a : SensorAttributes)
    (accepted rest : list (string * Z * string)) (t : string * Z * string)
    (st : State) :
  forallb (writeAccepted P connection path a) accepted = true ->
  (writeThresholds (R := ipmi_ret_t) P connection path a accepted st
     = (Next tt, logWrites P connection path a accepted st) /\
   backendCalls (logWrites P connection path a accepted st)
     = backendCalls st ++ map (thresholdWrite P connection path a) accepted) /\
  (writeAccepted P connection path a t = false ->
   writeThresholds (R := ipmi_ret_t) P connection path a
     (accepted ++ t :: rest) st
     = (Throw, logWrites P connection path a (accepted ++ [t]) st) /\
   backendCalls (logWrites P connection path a (accepted ++ [t]) st)
     = backendCalls st
       ++ map (thresholdWrite P connection path a) (accepted ++ [t])).
Proof.
  intros Hacc. split; [split |].
  - apply writeThresholds_accepted. exact Hacc.
  - apply backendCalls_logWrites.
  - intros Hrej. split; [| apply backendCalls_logWrites].
    rewrite writeThresholds_app. unfold bind at 1.
    rewrite writeThresholds_accepted by exact Hacc.
    rewrite writeThresholds_rejected by exact Hrej.
    rewrite logWrites_app. reflexivity.
Qed.

Lemma writeThresholds_stops_at_first_rejection_witness :
  fst (writeThresholds (R := ipmi_ret_t) rejectingPlatform demoConnection
         demoPath {| mValue := 1; rExp := 0; bValue := 0; bExp := 0;
                     bSigned := false |}
         (selectedThresholds ipmiThresholdReqEnable warningRequest) startup)
    = Throw.
Proof.
  pose proof
    (proj2 (writeThresholds_stops_at_first_rejection rejectingPlatform
              demoConnection demoPath
              {| mValue := 1; rExp := 0; bValue := 0; bExp := 0;
                 bSigned := false |}
              [("WarningLow"%string, 5,
                "xyz.openbmc_project.Sensor.Threshold.Warning"%string)]
              []
              ("WarningHigh"%string, 80,
               "xyz.openbmc_project.Sensor.Threshold.Warning"%string)
              startup eq_refl) eq_refl) as [E _].
  exact (f_equal fst E).
Defined.

Lemma propertyWrites_logWrites P c p a l st :
  propertyWrites (logWrites P c p a l st)
  = propertyWrites st ++ map (thresholdWrite P c p a) l.
Proof.
  unfold propertyWrites. rewrite backendCalls_logWrites, List.filter_app.
  f_equal. induction l as [| t l IH]; [reflexivity |].
  simpl. rewrite IH. reflexivity.
Qed.

(** What the handler does with a request that passes the mask checks and
    selects only thresholds that the sensor has, on a backend that accepts
    the writes. *)
Lemma setThresholds_accepted_outcome P now req st tree' connection path
    (sensorMap : SensorMap) (sensorObject : PropertyMap) max min attrs :
  Z.land (mask req) 0xC0 = 0 ->
  Z.land (mask req) (setLowerNonRecoverable (thresholdReqEnable P)) = 0 ->
  Z.land (mask req) (setUpperNonRecoverable (thresholdReqEnable P)) = 0 ->
  mask req <> 0 ->
  getSensorConnection P (sensorTree st) (sensorNum req)
    = ((0, connection, path), tree') ->
  fst (getSensorMap (R := ipmi_ret_t) P now connection path
         (stateAfterLookup req tree' st))
    = Next (Some sensorMap) ->
  sensorMap !! "xyz.openbmc_project.Sensor.Value" = Some sensorObject ->
  getSensorMaxMin P sensorObject = Some (max, min) ->
  getSensorAttributes P max min = Some attrs ->
  selectsMissingThreshold (thresholdReqEnable P) (mask req) sensorMap = false ->
  forallb (writeAccepted P connection path attrs)
    (selectedThresholds (thresholdReqEnable P) req) = true ->
  ipmiSenSetSensorThresholds P now 8 req st =
  (Return IPMI_CC_OK,
   logWrites P connection path attrs
     (selectedThresholds (thresholdReqEnable P) req)
     (snd (getSensorMap (R := ipmi_ret_t) P now connection path
             (stateAfterLookup req tree' st)))).
Proof.
  intros H1 H2 H3 H4 Hconn Hmap Hvalue Hrange Hattrs Hmiss Hacc.
  unfold stateAfterLookup in *.
  unfold ipmiSenSetSensorThresholds. cbv zeta. simpl (negb (8 =? 8)). cbv iota.
  rewrite H1, H2, H3. change (nonzero 0) with false. cbn [orb]. cbv iota.
  apply Z.eqb_neq in H4. rewrite H4.
  run. rewrite Hconn. cbn [fst snd]. change (nonzero 0) with false. cbv iota.
  unfold bind at 1.
  destruct (getSensorMap P now connection path _) as [found st1].
  cbn [fst snd] in *. subst found. cbv beta iota.
  rewrite Hvalue, Hrange. cbn [orThrow]. run. cbn [fst snd]. rewrite Hattrs.
  unfold selectsMissingThreshold, lacksProperty in Hmiss.
  unfold selectedThresholds in *.
  cbv beta iota delta [bind ret reply].
  repeat match goal with
         | |- context [nonzero ?x] =>
             destruct (nonzero x) eqn:?;
             cbn [orb andb app] in Hmiss, Hacc |- *; cbv beta iota
         | |- context [match ?m !! ?k with _ => _ end] =>
             destruct (m !! k) eqn:?; cbv beta iota
         end;
    try (cbn in Hmiss; discriminate Hmiss).
  all: rewrite writeThresholds_accepted by exact Hacc; reflexivity.
Qed.

(** X6. A Set Sensor Thresholds request that passes the mask checks, for a
    sensor that resolves, has its value interface and a linearizable range
    and exposes every selected threshold, on a backend that accepts the
    writes: the handler answers success and issues exactly one property
    write per selected threshold, in the order lower critical, upper
    critical, lower warning, upper warning, each on its threshold interface
    and with the value decoded from the request byte; it issues no other
    write. *)
Theorem setThresholds_writes_selected
    (P : Platform) (now : Z) (req : SensorThresholdReq) (st : State)
    (tree' : SensorSubTree) (connection path : string)
    (sensorMap : SensorMap) (sensorObject : PropertyMap) (max min : float)
    (attrs : SensorAttributes) :
  Z.land (mask req) 0xC0 = 0 ->
  Z.land (mask req) (setLowerNonRecoverable (thresholdReqEnable P)) = 0 ->
  Z.land (mask req) (setUpperNonRecoverable (thresholdReqEnable P)) = 0 ->
  mask req <> 0 ->
  getSensorConnection P (sensorTree st) (sensorNum req)
    = ((0, connection, path), tree') ->
  fst (getSensorMap (R := ipmi_ret_t) P now connection path
         (stateAfterLookup req tree' st))
    = Next (Some sensorMap) ->
  sensorMap !! "xyz.openbmc_project.Sensor.Value" = Some sensorObject ->
  getSensorMaxMin P sensorObject = Some (max, min) ->
  getSensorAttributes P max min = Some attrs ->
  selectsMissingThreshold (thresholdReqEnable P) (mask req) sensorMap = false ->
  forallb (writeAccepted P connection path attrs)
    (selectedThresholds (thresholdReqEnable P) req) = true ->
  fst (ipmiSenSetSensorThresholds P now 8 req st) = Return IPMI_CC_OK /\
  propertyWrites (snd (ipmiSenSetSensorThresholds P now 8 req st))
    = propertyWrites st
      ++ map (thresholdWrite P connection path attrs)
           (selectedThresholds (thresholdReqEnable P) req).
Proof.
  intros H1 H2 H3 H4 Hconn Hmap Hvalue Hrange Hattrs Hmiss Hacc.
  rewrite (setThresholds_accepted_outcome P now req st tree' connection path
             sensorMap sensorObject max min attrs) by assumption.
  split; [reflexivity |]. cbn [snd].
  rewrite propertyWrites_logWrites, getSensorMap_propertyWrites.
  f_equal. unfold stateAfterLookup, propertyWrites. simpl.
  rewrite List.filter_app. simpl. apply app_nil_r.
Qed.

Lemma setThresholds_writes_selected_witness :
  fst (ipmiSenSetSensorThresholds demoPlatform demoNow 8 warningRequest startup)
    = Return IPMI_CC_OK /\
  propertyWrites
    (snd (ipmiSenSetSensorThresholds demoPlatform demoNow 8 warningRequest
            startup))
    = propertyWrites startup
      ++ map (thresholdWrite demoPlatform demoConnection demoPath
                {| mValue := 1; rExp := 0; bValue := 0; bExp := -2;
                   bSigned := true |})
           (selectedThresholds (thresholdReqEnable demoPlatform) warningRequest).
Proof.
  apply (setThresholds_writes_selected demoPlatform demoNow warningRequest
           startup demoTree demoConnection demoPath demoSensorMap
           demoValueProperties 127%float (-128)%float).
  - reflexivity.
  - reflexivity.
  - reflexivity.
  - discriminate.
  - reflexivity.
  - apply demo_getSensorMap. reflexivity.
  - apply lookup_insert_eq.
  - vm_compute. reflexivity.
  - vm_compute. reflexivity.
  - vm_compute. reflexivity.
  - reflexivity.
Defined.

(** ** Get SDR: what a successful response carries *)

Lemma getSDR_success_inv P now rid recordID off len st next payload :
  fst (ipmiStorageGetSDR P now rid recordID off len st)
    = Return (responseSuccess (next, payload)) ->
  let id := effectiveRecordID P st recordID in
  let count := Z.of_nat (length (sensorTreeAfterRefresh P st)) in
  let last := size_t P (recordCount P st - 1) in
  id <= last /\
  next = (if last >? id then uint16_t (id + 1) else 0xFFFF) /\
  ((count <= id /\
    off <= sizeof_SensorDataFruRecord /\
    let n := clampBytesToRead P sizeof_SensorDataFruRecord off len in
    off + n <= sizeof_SensorDataFruRecord /\
    payload =
      take (Z.to_nat n)
        (drop (Z.to_nat off)
           (fru_record_bytes
              (set_record_id id
                 (snd (getFruSdrs P (size_t P (id - count))))))))
   \/
   (id < count /\
    exists path sensorMap record s s',
      buildFullRecord (T := Z * list Z) P id path sensorMap s
        = (Next record, s') /\
      let n := clampBytesToRead P sizeof_SensorDataFullRecord off len in
      off + n <= sizeof_SensorDataFullRecord /\
      payload =
        take (Z.to_nat n) (drop (Z.to_nat off) (full_record_bytes record)))).
Proof.
  unfold effectiveRecordID, recordCount.
  remember (sensorTreeAfterRefresh P st) as tree eqn:Htree.
  unfold ipmiStorageGetSDR. cbv zeta. run.
  destruct (((sdrReservationID st =? 0) || negb (rid =? sdrReservationID st))
            && nonzero off) eqn:Hcheck; [discriminate |].
  run.
  match goal with
  | |- context [bind ?m (fun haveTree => if negb haveTree then _ else ?rest)] =>
      set (tail := rest)
  end.
  match goal with
  | |- _ -> ?G =>
      assert (Htail : forall s, sensorTree s = tree ->
                fst (tail s) = Return (responseSuccess (next, payload)) -> G)
  end.
  { intros s Hs. subst tail. run.
    destruct (negb (fst (getFruSdrCount P) =? IPMI_CC_OK)); run;
      [discriminate |].
    rewrite Hs.
    set (last := size_t P (Z.of_nat (length tree)
                           + size_t P (snd (getFruSdrCount P)) - 1)).
    set (id := if recordID =? 65535 then uint16_t last else recordID).
    cbv zeta.
    destruct (id >? last) eqn:Hgt; [discriminate |].
    rewrite Z.gtb_ltb in Hgt. apply Z.ltb_ge in Hgt.
    destruct (id >=? Z.of_nat (length tree)) eqn:Hfru.
    - apply Z.geb_le in Hfru.
      match goal with
      | |- fst ((if ?c then _ else _) _) = _ -> _ =>
          destruct c; [discriminate |]
      end.
      destruct (off >? sizeof_SensorDataFruRecord) eqn:Hoff; [discriminate |].
      rewrite Z.gtb_ltb in Hoff. apply Z.ltb_ge in Hoff.
      run.
      match goal with
      | |- fst ((if ?c then _ else _) _) = _ -> _ =>
          destruct c; [discriminate |]
      end.
      unfold bind at 1, readWindow. rewrite fru_record_bytes_length.
      match goal with
      | |- context [if ?c then ret _ else overread _ _ _] =>
          destruct c eqn:Hin; [| discriminate]
      end.
      apply Z.leb_le in Hin.
      unfold ret, reply. cbn [fst]. intros [= <- <-].
      split; [exact Hgt |]. split; [reflexivity |]. left.
      split; [exact Hfru |]. split; [exact Hoff |]. split; [exact Hin |].
      reflexivity.
    - rewrite Z.geb_leb in Hfru. apply Z.leb_gt in Hfru.
      destruct (selectSensor tree id) as [[connection path] |];
        [| discriminate].
      unfold bind at 1.
      destruct (getSensorMap P now connection path _)
        as [[[sensorMap |] | r | |] s1] eqn:Hg; try discriminate.
      2: { exfalso.
           exact (replies_getSensorMap (fun _ => False) _ _ _ _ _ _ _ Hg). }
      unfold bind at 1.
      destruct (buildFullRecord P id path sensorMap s1)
        as [[record | r | |] s2] eqn:Hb; try discriminate.
      2: { rewrite (replies_buildFullRecord
                      (fun r => r = responseResponseError) _ _ _ _ eq_refl
                      _ _ _ Hb).
           discriminate. }
      unfold bind at 1, readWindow. rewrite full_record_bytes_length.
      match goal with
      | |- context [if ?c then ret _ else overread _ _ _] =>
          destruct c eqn:Hin; [| discriminate]
      end.
      apply Z.leb_le in Hin.
      unfold ret, reply. cbn [fst]. intros [= <- <-].
      split; [exact Hgt |]. split; [reflexivity |]. right.
      split; [exact Hfru |].
      exists path, sensorMap, record, s1, s2.
      split; [exact Hb |]. split; [exact Hin | reflexivity]. }
  unfold sensorTreeAfterRefresh in Htree.
  destruct (sensorTree st) as [| sensor0 rest] eqn:Et; run.
  - destruct (fst (getSensorSubtree P [])); run; [| discriminate].
    apply Htail. symmetry. exact Htree.
  - apply Htail. rewrite Et. symmetry. exact Htree.
Qed.

(** X7. Get SDR announces the successor: when the record space holds at
    most 65536 records, a successful read of a record other than the last
    one (and not requested as 0xFFFF) returns the next record ID
    [recordID + 1], which is again the ID of a record, so that following
    the announced IDs from record 0 visits every record in order. *)
Theorem getSDR_next_record
    (P : Platform) (now rid recordID off len : Z) (st : State)
    (next : Z) (payload : list Z) :
  recordCount P st <= 65536 ->
  0 <= recordID < recordCount P st - 1 ->
  fst (ipmiStorageGetSDR P now rid recordID off len st)
    = Return (responseSuccess (next, payload)) ->
  next = recordID + 1 /\ next <= recordCount P st - 1.
Proof.
  intros Hcount Hid Hrun.
  destruct (getSDR_success_inv _ _ _ _ _ _ _ _ _ Hrun) as (_ & Hnext & _).
  unfold effectiveRecordID in Hnext.
  replace (recordID =? 65535) with false in Hnext
    by (symmetry; apply Z.eqb_neq; lia).
  rewrite size_t_small in Hnext by lia.
  replace (recordCount P st - 1 >? recordID) with true in Hnext
    by (symmetry; apply Z.gtb_lt; lia).
  rewrite uint16_t_small in Hnext by lia. lia.
Qed.

Lemma getSDR_next_record_witness :
  1 = 0 + 1 /\ 1 <= recordCount demoPlatform demoState - 1.
Proof.
  apply (getSDR_next_record demoPlatform demoNow 1 0 0 5 demoState 1
           [0; 0; 81; 1; 59]).
  - vm_compute. discriminate.
  - vm_compute. split; [discriminate | reflexivity].
  - vm_compute. reflexivity.
Defined.

(** ** Get SDR: reads beyond the end of a record *)

Lemma getSensorMap_no_overread {R} P now c p st o l s st' :
  getSensorMap (R := R) P now c p st <> (Overread o l s, st').
Proof.
  unfold getSensorMap, bind, gets, modify, ret. simpl.
  destruct (duration_cast_seconds (now - default 0 (updateTimeMap st !! c))
              >? sensorMapUpdatePeriod); simpl.
  - destruct (GetManagedObjects P c) as [objects |]; simpl; [| discriminate].
    rewrite lookup_insert_eq. destruct (objects !! p); discriminate.
  - destruct (SensorCache st !! c) as [objects |]; simpl; [| discriminate].
    destruct (objects !! p); discriminate.
Qed.

Lemma buildFullRecord_no_overread {T} P recordID path (sensorMap : SensorMap)
    st o l s st' :
  buildFullRecord (T := T) P recordID path sensorMap st <> (Overread o l s, st').
Proof.
  unfold buildFullRecord, bind, orThrow.
  destruct (sensorMap !! "xyz.openbmc_project.Sensor.Value")
    as [sensorObject |]; [| discriminate].
  destruct (match sensorObject !! "MaxValue" with
            | Some v => VariantToDoubleVisitor P v
            | None => Some 128%float
            end) as [max |]; [| discriminate].
  cbn [ret throw].
  destruct (match sensorObject !! "MinValue" with
            | Some v => VariantToDoubleVisitor P v
            | None => Some (-127)%float
            end) as [min |]; [| discriminate].
  cbn [ret throw].
  destruct (getSensorAttributes P max min) as [a |]; [| discriminate].
  destruct (getIPMIThresholds P sensorMap) as [thresholdData |]; discriminate.
Qed.


(** X8. Get SDR can read beyond the end of a record only on one path: the
    record is that of a live sensor and the requested offset lies beyond
    the 64 bytes of the full record. A FRU record is never over-read, and
    neither is a sensor record read at an offset of at most 64. *)
Theorem getSDR_overread_only_beyond_full_record
    (P : Platform) (now rid recordID off len : Z) (st : State) (o l s : Z) :
  0 <= off -> 0 <= len ->
  fst (ipmiStorageGetSDR P now rid recordID off len st) = Overread o l s ->
  o = off /\ s = sizeof_SensorDataFullRecord /\
  sizeof_SensorDataFullRecord < off /\
  effectiveRecordID P st recordID
    < Z.of_nat (length (sensorTreeAfterRefresh P st)).
Proof.
  intros Hoff0 Hlen0.
  unfold effectiveRecordID, recordCount.
  remember (sensorTreeAfterRefresh P st) as tree eqn:Htree.
  unfold ipmiStorageGetSDR. cbv zeta. run.
  destruct (((sdrReservationID st =? 0) || negb (rid =? sdrReservationID st))
            && nonzero off) eqn:Hcheck; [discriminate |].
  run.
  match goal with
  | |- context [bind ?m (fun haveTree => if negb haveTree then _ else ?rest)] =>
      set (tail := rest)
  end.
  match goal with
  | |- _ -> ?G =>
      assert (Htail : forall s0, sensorTree s0 = tree ->
                fst (tail s0) = Overread o l s -> G)
  end.
  { intros s0 Hs. subst tail. run.
    destruct (negb (fst (getFruSdrCount P) =? IPMI_CC_OK)); run;
      [discriminate |].
    rewrite Hs.
    set (last := size_t P (Z.of_nat (length tree)
                           + size_t P (snd (getFruSdrCount P)) - 1)).
    set (id := if recordID =? 65535 then uint16_t last else recordID).
    destruct (id >? last) eqn:Hgt; [discriminate |].
    destruct (id >=? Z.of_nat (length tree)) eqn:Hfru.
    - match goal with
      | |- fst ((if ?c then _ else _) _) = _ -> _ =>
          destruct c; [discriminate |]
      end.
      destruct (off >? sizeof_SensorDataFruRecord) eqn:Hoff; [discriminate |].
      rewrite Z.gtb_ltb in Hoff. apply Z.ltb_ge in Hoff.
      run.
      match goal with
      | |- fst ((if ?c then _ else _) _) = _ -> _ =>
          destruct c; [discriminate |]
      end.
      unfold bind at 1.
      match goal with
      | |- context [readWindow ?obj ?a ?b ?st0] =>
          destruct (fru_window_inside (R := RspType (Z * list Z)) P
                      (set_record_id id
                         (snd (getFruSdrs P
                                 (size_t P (id - Z.of_nat (length tree))))))
                      off len st0 ltac:(lia) Hlen0) as [recordData Hw]
      end.
      rewrite Hw. discriminate.
    - rewrite Z.geb_leb in Hfru. apply Z.leb_gt in Hfru.
      destruct (selectSensor tree id) as [[connection path] |];
        [| discriminate].
      unfold bind at 1.
      destruct (getSensorMap P now connection path _)
        as [[[sensorMap |] | r | | o1 l1 s1] st1] eqn:Hg; try discriminate.
      2: { exfalso. exact (getSensorMap_no_overread _ _ _ _ _ _ _ _ _ Hg). }
      unfold bind at 1.
      destruct (buildFullRecord P id path sensorMap st1)
        as [[record | r | | o2 l2 s2] st2] eqn:Hb; try discriminate.
      2: { exfalso.
           exact (buildFullRecord_no_overread _ _ _ _ _ _ _ _ _ Hb). }
      unfold bind at 1, readWindow. rewrite full_record_bytes_length.
      match goal with
      | |- context [if ?c then ret _ else overread _ _ _] =>
          destruct c eqn:Hin; [discriminate |]
      end.
      apply Z.leb_gt in Hin.
      unfold overread. cbn [fst]. intros [= <- <- <-].
      split; [reflexivity |]. split; [reflexivity |]. split; [| exact Hfru].
      destruct (Z_lt_le_dec sizeof_SensorDataFullRecord off) as [Hb' | Hb'];
        [exact Hb' |].
      destruct (clampBytesToRead_inside P sizeof_SensorDataFullRecord off len
                  ltac:(lia) ltac:(reflexivity) Hlen0) as [_ Hin'].
      lia. }
  unfold sensorTreeAfterRefresh in Htree.
  destruct (sensorTree st) as [| sensor0 rest] eqn:Et; run.
  - destruct (fst (getSensorSubtree P [])); run; [| discriminate].
    apply Htail. symmetry. exact Htree.
  - apply Htail. rewrite Et. symmetry. exact Htree.
Qed.

Lemma getSDR_overread_only_beyond_full_record_witness :
  200 = 200 /\ sizeof_SensorDataFullRecord = sizeof_SensorDataFullRecord /\
  sizeof_SensorDataFullRecord < 200 /\
  effectiveRecordID demoPlatform demoState 0
    < Z.of_nat (length (sensorTreeAfterRefresh demoPlatform demoState)).
Proof.
  apply (getSDR_overread_only_beyond_full_record demoPlatform demoNow 1 0 200 1
           demoState 200 120 sizeof_SensorDataFullRecord).
  - lia.
  - lia.
  - vm_compute. reflexivity.
Defined.

(** ** Get SDR: the payload *)

Lemma clampBytesToRead_min P size offset bytesToRead :
  0 <= offset <= size -> size < 256 -> 0 <= bytesToRead ->
  clampBytesToRead P size offset bytesToRead = Z.min bytesToRead (size - offset).
Proof.
  intros Hoff Hsize Hlen. unfold clampBytesToRead.
  destruct (size <? offset + bytesToRead) eqn:E.
  - apply Z.ltb_lt in E. rewrite uint8_t_size_t, uint8_t_small by lia. lia.
  - apply Z.ltb_ge in E. lia.
Qed.

Lemma window_length (l : list Z) (off n : Z) :
  0 <= off -> 0 <= n -> off + n <= Z.of_nat (length l) ->
  Z.of_nat (length (take (Z.to_nat n) (drop (Z.to_nat off) l))) = n.
Proof.
  intros Hoff Hn Hin. rewrite length_take, length_drop. lia.
Qed.




(** The header and the key of an assembled full record. *)
Lemma buildFullRecord_header {T} P recordID path (sensorMap : SensorMap)
    st record st' :
  buildFullRecord (T := T) P recordID path sensorMap st = (Next record, st') ->
  record_id_lsb (header record) = Z.land recordID 0xFF /\
  record_id_msb (header record) = uint8_t (Z.shiftl recordID 8) /\
  sensor_number (key record) = Z.land recordID 0xFF /\
  id_string_info (body record) = Z.of_nat (String.length (sensorName path)) /\
  id_string (body record)
    = strncpy FULL_RECORD_ID_STR_MAX_LENGTH (string_bytes (sensorName path)).
Proof.
  unfold buildFullRecord, bind, orThrow. intros H.
  destruct (sensorMap !! "xyz.openbmc_project.Sensor.Value")
    as [sensorObject |]; [| discriminate H].
  destruct (match sensorObject !! "MaxValue" with
            | Some v => VariantToDoubleVisitor P v
            | None => Some 128%float
            end) as [max |]; [| discriminate H].
  cbn [ret throw] in H.
  destruct (match sensorObject !! "MinValue" with
            | Some v => VariantToDoubleVisitor P v
            | None => Some (-127)%float
            end) as [min |]; [| discriminate H].
  cbn [ret throw] in H.
  destruct (getSensorAttributes P max min) as [a |]; [| discriminate H].
  destruct (getIPMIThresholds P sensorMap) as [thresholdData |];
    [| discriminate H].
  unfold ret in H. injection H as Hrec Hst. subst record st'.
  repeat split; reflexivity.
Qed.

Lemma record_id_msb_zero recordID : uint8_t (Z.shiftl recordID 8) = 0.
Proof.
  unfold uint8_t. rewrite Z.shiftl_mul_pow2 by lia. apply Z.mod_mul. lia.
Qed.

Lemma land_255_range z : 0 <= Z.land z 0xFF < 256.
Proof.
  change 0xFF with (Z.ones 8). rewrite Z.land_ones by lia.
  apply Z.mod_pos_bound. lia.
Qed.

(** X10. The record ID in the header of every record that Get SDR returns
    is the low byte of the record ID followed by a zero byte: the high
    byte, assigned from [recordID << 8] into a [uint8_t], is always 0, for
    sensor records and FRU records alike. Records whose IDs differ by a
    multiple of 256 therefore carry the same header ID. *)
Theorem getSDR_record_id_bytes
    (P : Platform) (now rid recordID len : Z) (st : State)
    (next : Z) (payload : list Z) :
  2 <= len ->
  fst (ipmiStorageGetSDR P now rid recordID 0 len st)
    = Return (responseSuccess (next, payload)) ->
  nth 0 payload 0 = Z.land (effectiveRecordID P st recordID) 0xFF /\
  nth 1 payload 0 = 0.
Proof.
  intros Hlen Hrun.
  destruct (getSDR_success_inv _ _ _ _ _ _ _ _ _ Hrun)
    as (_ & _ & [(Hfru & Hle & Hin & ->)
                | (Hlive & path & sensorMap & record & s & s' & Hb & Hin & ->)]);
    cbv zeta in *.
  - rewrite clampBytesToRead_min
      by (unfold sizeof_SensorDataFruRecord, sizeof_SensorDataFullRecord; lia).
    change (Z.to_nat 0) with 0%nat.
    rewrite (nth_window _ 0 0) by (unfold sizeof_SensorDataFruRecord; lia).
    rewrite (nth_window _ 1 0) by (unfold sizeof_SensorDataFruRecord; lia).
    unfold fru_record_bytes, header_bytes, set_record_id. simpl.
    rewrite record_id_msb_zero. split; [| reflexivity].
    apply uint8_t_small. apply land_255_range.
  - destruct (buildFullRecord_header _ _ _ _ _ _ _ Hb) as (Hl & Hm & _).
    rewrite clampBytesToRead_min
      by (unfold sizeof_SensorDataFruRecord, sizeof_SensorDataFullRecord; lia).
    change (Z.to_nat 0) with 0%nat.
    rewrite (nth_window _ 0 0) by (unfold sizeof_SensorDataFullRecord; lia).
    rewrite (nth_window _ 1 0) by (unfold sizeof_SensorDataFullRecord; lia).
    unfold full_record_bytes, header_bytes. simpl. rewrite Hl, Hm.
    rewrite record_id_msb_zero. split; [| reflexivity].
    apply uint8_t_small. apply land_255_range.
Qed.

Lemma getSDR_record_id_bytes_witness :
  nth 0 [0; 0; 81; 1; 59] 0
    = Z.land (effectiveRecordID demoPlatform demoState 0) 0xFF /\
  nth 1 [0; 0; 81; 1; 59] 0 = 0.
Proof.
  apply (getSDR_record_id_bytes demoPlatform demoNow 1 0 5 demoState 1
           [0; 0; 81; 1; 59]).
  - lia.
  - vm_compute. reflexivity.
Defined.

(** ** The sensor name of a full record *)

Lemma substring_length_le n : forall s m,
  (String.length (String.substring m n s) <= n)%nat.
Proof.
  induction n as [| n IH]; intros s m.
  - destruct s, m; simpl; try lia.
    + clear. revert m. induction s as [| a s IHs]; intros m.
      * destruct m; simpl; lia.
      * destruct m; simpl; [lia | apply IHs].
  - revert m. induction s as [| a s IHs]; intros m.
    + destruct m; simpl; lia.
    + destruct m; simpl.
      * specialize (IH s 0%nat). lia.
      * apply IHs.
Qed.

Lemma substring_chars n : forall s m c,
  In c (list_ascii_of_string (String.substring m n s)) ->
  In c (list_ascii_of_string s).
Proof.
  induction n as [| n IH]; intros s m c.
  - revert m. induction s as [| a s IHs]; intros m; destruct m; simpl;
      try contradiction.
    intros H. right. exact (IHs _ H).
  - revert m. induction s as [| a s IHs]; intros m; destruct m; simpl;
      try contradiction.
    + intros [H | H]; [left; exact H | right; exact (IH _ _ _ H)].
    + intros H. right. exact (IHs _ H).
Qed.

Lemma replace_char_chars from to s c :
  from <> to ->
  In c (list_ascii_of_string (replace_char from to s)) -> c <> from.
Proof.
  intros Hne. induction s as [| a s IH]; simpl; [contradiction |].
  intros [H | H]; [| exact (IH H)].
  subst c. destruct (Ascii.eqb a from) eqn:E.
  - congruence.
  - apply Ascii.eqb_neq. exact E.
Qed.

Lemma sensorName_chars path c :
  In c (list_ascii_of_string (sensorName path)) -> c <> "_"%char.
Proof.
  unfold sensorName. cbv zeta.
  match goal with
  | |- context [replace_char _ _ ?n] => generalize n
  end.
  intros name.
  destruct (FULL_RECORD_ID_STR_MAX_LENGTH
            <? String.length (replace_char "_" " " name))%nat.
  - intros H. apply substring_chars in H. revert H.
    apply replace_char_chars. discriminate.
  - apply replace_char_chars. discriminate.
Qed.

Lemma sensorName_length path :
  (String.length (sensorName path) <= FULL_RECORD_ID_STR_MAX_LENGTH)%nat.
Proof.
  unfold sensorName. cbv zeta.
  match goal with
  | |- context [replace_char _ _ ?n] => generalize n
  end.
  intros name.
  destruct (FULL_RECORD_ID_STR_MAX_LENGTH
            <? String.length (replace_char "_" " " name))%nat eqn:E.
  - apply substring_length_le.
  - apply Nat.ltb_ge in E. exact E.
Qed.

Lemma c_str_incl l b : In b (c_str l) -> In b l.
Proof.
  induction l as [| c l IH]; simpl; [contradiction |].
  destruct (c =? 0); simpl; [contradiction |].
  intros [H | H]; [left; exact H | right; exact (IH H)].
Qed.

Lemma strncpy_bytes n src b :
  In b (strncpy n src) -> In b src \/ b = 0.
Proof.
  unfold strncpy. intros H.
  apply list_elem_of_In, elem_of_take in H as (i & H & _).
  apply lookup_app_Some in H as [H | [_ H]].
  - left. apply c_str_incl. apply list_elem_of_In.
    eapply list_elem_of_lookup_2. exact H.
  - right. apply lookup_replicate in H as [-> _]. reflexivity.
Qed.

(** X11. The display name of a sensor record never overflows its field:
    the name taken from the last path segment has at most 16 characters
    and contains no underscore, the length byte of every assembled record
    is the length of that name (at most 16), and the 16-byte name field
    holds no underscore byte. *)
Theorem sensorName_fits_field
    (P : Platform) (recordID : Z) (path : string) (sensorMap : SensorMap)
    (st st' : State) (record : SensorDataFullRecord) :
  buildFullRecord (T := Z * list Z) P recordID path sensorMap st
    = (Next record, st') ->
  (String.length (sensorName path) <= 16)%nat /\
  (forall c, In c (list_ascii_of_string (sensorName path)) -> c <> "_"%char) /\
  0 <= id_string_info (body record) <= 16 /\
  id_string_info (body record) = Z.of_nat (String.length (sensorName path)) /\
  length (id_string (body record)) = 16%nat /\
  (forall b, In b (id_string (body record)) -> b <> 95).
Proof.
  intros Hb.
  destruct (buildFullRecord_header _ _ _ _ _ _ _ Hb) as (_ & _ & _ & Hi & Hs).
  pose proof (sensorName_length path) as Hlen.
  unfold FULL_RECORD_ID_STR_MAX_LENGTH in Hlen.
  split; [exact Hlen |].
  split; [apply sensorName_chars |].
  split; [lia |]. split; [exact Hi |]. split.
  - rewrite Hs. unfold strncpy.
    rewrite length_take, length_app, length_replicate.
    unfold FULL_RECORD_ID_STR_MAX_LENGTH. lia.
  - intros b Hin. rewrite Hs in Hin.
    apply strncpy_bytes in Hin as [Hin | ->]; [| discriminate].
    unfold string_bytes in Hin. apply in_map_iff in Hin as (c & <- & Hc).
    apply sensorName_chars in Hc. intros E. apply Hc.
    apply (f_equal Z.to_nat) in E. rewrite Nat2Z.id in E.
    apply (f_equal ascii_of_nat) in E. rewrite ascii_nat_embedding in E.
    exact E.
Qed.

Lemma sensorName_fits_field_witness :
  (String.length (sensorName demoPath) <= 16)%nat /\
  (forall c, In c (list_ascii_of_string (sensorName demoPath)) -> c <> "_"%char) /\
  0 <= id_string_info (body demoRecord) <= 16 /\
  id_string_info (body demoRecord)
    = Z.of_nat (String.length (sensorName demoPath)) /\
  length (id_string (body demoRecord)) = 16%nat /\
  (forall b, In b (id_string (body demoRecord)) -> b <> 95).
Proof.
  apply (sensorName_fits_field demoPlatform 0 demoPath demoSensorMap demoState
           demoState demoRecord).
  vm_compute. reflexivity.
Defined.

(** ** The 10-bit M and B and the 4-bit exponent of a full record *)

Lemma pack_msb_round_trip v :
  -512 <= v < 512 ->
  Z.land v 0xFF + 256 * (pack_msb v / 64) = v mod 1024 /\
  pack_msb v mod 64 = 0.
Proof.
  intros H.
  assert (Hall : forallb
            (fun v => (Z.land v 0xFF + 256 * (pack_msb v / 64) =? v mod 1024)
                      && (pack_msb v mod 64 =? 0))
            (seqZ (-512) 1024) = true) by (vm_compute; reflexivity).
  rewrite forallb_forall in Hall.
  specialize (Hall v).
  assert (Hin : In v (seqZ (-512) 1024)).
  { apply list_elem_of_In, elem_of_seqZ. lia. }
  apply Hall in Hin. apply andb_true_iff in Hin as [H1 H2].
  split; [apply Z.eqb_eq, H1 | apply Z.eqb_eq, H2].
Qed.

Lemma pack_r_round_trip b r :
  -8 <= r < 8 -> pack_r_b_exponents b r / 16 = r mod 16.
Proof.
  intros H.
  assert (Hall : forallb
            (fun r => pack_r_b_exponents 0 r / 16 =? r mod 16)
            (seqZ (-8) 16) = true) by (vm_compute; reflexivity).
  rewrite forallb_forall in Hall.
  rewrite (pack_r_b_exponents_bExp b 0).
  apply Z.eqb_eq, Hall, list_elem_of_In, elem_of_seqZ. lia.
Qed.

(** X12. The linearization of an assembled full record can be read back:
    when M and B fit their 10 signed bits, the low byte and the two top
    bits of the following byte are the 10-bit two's complement of the
    value and the six tolerance/accuracy bits are 0; when the R exponent
    fits 4 signed bits, the high nibble of the exponent byte is its 4-bit
    two's complement. *)
Theorem linearization_round_trip
    (P : Platform) (recordID : Z) (path : string) (sensorMap : SensorMap)
    (st st' : State) (record : SensorDataFullRecord) :
  buildFullRecord (T := Z * list Z) P recordID path sensorMap st
    = (Next record, st') ->
  exists a max min,
    getSensorAttributes P max min = Some a /\
    (-512 <= mValue a < 512 ->
     m_lsb (body record) + 256 * (m_msb_and_tolerance (body record) / 64)
       = mValue a mod 1024 /\
     m_msb_and_tolerance (body record) mod 64 = 0) /\
    (-512 <= bValue a < 512 ->
     b_lsb (body record) + 256 * (b_msb_and_accuracy_lsb (body record) / 64)
       = bValue a mod 1024 /\
     b_msb_and_accuracy_lsb (body record) mod 64 = 0) /\
    (-8 <= rExp a < 8 -> r_b_exponents (body record) / 16 = rExp a mod 16).
Proof.
  intros H.
  destruct (buildFullRecord_inv _ _ _ _ _ _ _ H)
    as (obj & max & min & a & td & _ & _ & _ & Ha & _ & Hm & Hmm & Hbl & Hbm
        & Hr & _).
  exists a, max, min. rewrite Hm, Hmm, Hbl, Hbm, Hr.
  split; [exact Ha |].
  split; [apply pack_msb_round_trip |].
  split; [apply pack_msb_round_trip | apply pack_r_round_trip].
Qed.

Lemma linearization_round_trip_witness :
  exists a max min,
    getSensorAttributes demoPlatform max min = Some a /\
    (-512 <= mValue a < 512 ->
     m_lsb (body demoRecord) + 256 * (m_msb_and_tolerance (body demoRecord) / 64)
       = mValue a mod 1024 /\
     m_msb_and_tolerance (body demoRecord) mod 64 = 0) /\
    (-512 <= bValue a < 512 ->
     b_lsb (body demoRecord)
       + 256 * (b_msb_and_accuracy_lsb (body demoRecord) / 64)
       = bValue a mod 1024 /\
     b_msb_and_accuracy_lsb (body demoRecord) mod 64 = 0) /\
    (-8 <= rExp a < 8 -> r_b_exponents (body demoRecord) / 16 = rExp a mod 16).
Proof.
  apply (linearization_round_trip demoPlatform 0 demoPath demoSensorMap
           demoState demoState demoRecord).
  vm_compute. reflexivity.
Defined.

(** ** The sensor of a record *)

(** X13. Record [k] of the SDR is assembled for the [k]-th sensor of the
    tree in iteration order, through the first connection listed for it;
    if that sensor lists no connection, the selection fails (and Get SDR
    answers response-error). *)
Theorem selectSensor_index
    (tree : SensorSubTree) (k : nat) (path : string)
    (connections : list (string * list string)) :
  tree !! k = Some (path, connections) ->
  Z.of_nat k < 65536 ->
  selectSensor tree (Z.of_nat k) =
  match connections with
  | [] => None
  | first :: _ => Some (fst first, path)
  end.
Proof.
  revert k. induction tree as [| sensor tree IH]; intros k Hk Hrange.
  - destruct k; discriminate Hk.
  - destruct k as [| k].
    + simpl in Hk. injection Hk as ->. reflexivity.
    + simpl in Hk. cbn [selectSensor].
      replace (Z.of_nat (S k) =? 0) with false
        by (symmetry; apply Z.eqb_neq; lia).
      rewrite uint16_t_small by lia.
      replace (Z.of_nat (S k) - 1) with (Z.of_nat k) by lia.
      apply IH; [exact Hk | lia].
Qed.

Lemma selectSensor_index_witness :
  selectSensor demoTree (Z.of_nat 0) =
  match [(demoConnection, ["xyz.openbmc_project.Sensor.Value"%string])] with
  | [] => None
  | first :: _ => Some (fst first, demoPath)
  end.
Proof.
  apply (selectSensor_index demoTree 0 demoPath
           [(demoConnection, ["xyz.openbmc_project.Sensor.Value"%string])]).
  - reflexivity.
  - lia.
Defined.

(** ** Relations maintained by handlers *)

Section Preservation.
Context {R : Type}.
Variable I : State -> State -> Prop.
Hypothesis I_refl : forall st, I st st.
Hypothesis I_trans : forall a b c, I a b -> I b c -> I a c.

Lemma preserves_ret {A} (a : A) : Preserves I (ret (R := R) a).
Proof. intros st. apply I_refl. Qed.

Lemma preserves_reply {A} (r : R) : Preserves I (reply (A := A) r).
Proof. intros st. apply I_refl. Qed.

Lemma preserves_throw {A} : Preserves I (throw (R := R) (A := A)).
Proof. intros st. apply I_refl. Qed.

Lemma preserves_overread {A} o l s :
  Preserves I (overread (R := R) (A := A) o l s).
Proof. intros st. apply I_refl. Qed.

Lemma preserves_gets {A} (f : State -> A) : Preserves I (gets (R := R) f).
Proof. intros st. apply I_refl. Qed.

Lemma preserves_modify (f : State -> State) :
  (forall st, I st (f st)) -> Preserves I (modify (R := R) f).
Proof. intros Hf st. apply Hf. Qed.

Lemma preserves_bind {A B} (m : Handler R A) (k : A -> Handler R B) :
  Preserves I m -> (forall a, Preserves I (k a)) -> Preserves I (bind m k).
Proof.
  intros Hm Hk st. unfold bind. specialize (Hm st).
  destruct (m st) as [[a | r | | o l s] st1]; simpl in *; try exact Hm.
  eapply I_trans; [exact Hm | apply Hk].
Qed.
End Preservation.

Ltac preserves_with Hrefl Htrans tac :=
  repeat first
    [ apply preserves_ret; exact Hrefl
    | apply preserves_reply; exact Hrefl
    | apply preserves_throw; exact Hrefl
    | apply preserves_overread; exact Hrefl
    | apply preserves_gets; exact Hrefl
    | tac
    | apply preserves_bind; [exact Htrans | | intros ?]
    | handler_cases
    | progress cbv zeta ].

Lemma sameWrites_refl st : sameWrites st st.
Proof. reflexivity. Qed.

Lemma sameWrites_trans a b c : sameWrites a b -> sameWrites b c -> sameWrites a c.
Proof. unfold sameWrites. congruence. Qed.

Lemma sameWrites_log_call c st :
  isPropertyWrite c = false -> sameWrites st (log_call c st).
Proof.
  intros Hc. unfold sameWrites, propertyWrites. simpl.
  rewrite List.filter_app. simpl. rewrite Hc. apply app_nil_r.
Qed.

Ltac same_writes_with tac :=
  preserves_with sameWrites_refl sameWrites_trans
    ltac:(first
      [ apply preserves_modify; intros ?;
        first [ reflexivity | apply sameWrites_log_call; reflexivity ]
      | tac ]).

Lemma sameWrites_callGetSensorConnection {R} P n :
  Preserves sameWrites (callGetSensorConnection (R := R) P n).
Proof. unfold callGetSensorConnection. same_writes_with fail. Qed.

Lemma sameWrites_getSensorMap {R} P now c p :
  Preserves sameWrites (getSensorMap (R := R) P now c p).
Proof. intros st. apply getSensorMap_propertyWrites. Qed.

Lemma sameWrites_readLatch {R} path name :
  Preserves sameWrites (readLatch (R := R) path name).
Proof. unfold readLatch. same_writes_with fail. Qed.

Lemma sameWrites_get_bool {R} v : Preserves sameWrites (get_bool (R := R) v).
Proof. unfold get_bool. destruct v; same_writes_with fail. Qed.

Lemma sameWrites_orAlarm {R} alarm bit x :
  Preserves sameWrites (orAlarm (R := R) alarm bit x).
Proof.
  unfold orAlarm. same_writes_with ltac:(apply sameWrites_get_bool).
Qed.

Lemma sameWrites_alarmFlag {R} alarm :
  Preserves sameWrites (alarmFlag (R := R) alarm).
Proof.
  unfold alarmFlag. same_writes_with ltac:(apply sameWrites_get_bool).
Qed.

Lemma sameWrites_readWindow {R} obj o l :
  Preserves sameWrites (readWindow (R := R) obj o l).
Proof. unfold readWindow. same_writes_with fail. Qed.

Lemma sameWrites_buildFullRecord {T} P r p m :
  Preserves sameWrites (buildFullRecord (T := T) P r p m).
Proof. unfold buildFullRecord. same_writes_with fail. Qed.

Ltac same_writes :=
  same_writes_with
    ltac:(first
      [ apply sameWrites_callGetSensorConnection
      | apply sameWrites_getSensorMap
      | apply sameWrites_readLatch
      | apply sameWrites_orAlarm
      | apply sameWrites_alarmFlag
      | apply sameWrites_readWindow
      | apply sameWrites_buildFullRecord ]).

(** X14. The handlers that read never write: Get Sensor Reading, Get
    Sensor Thresholds, Get Sensor Event Enable, Get Sensor Event Status,
    Get SDR and Get SDR Repository Info issue no backend property write,
    whatever their arguments and outcome. *)
Theorem read_handlers_issue_no_write
    (P : Platform) (Hd : SensorCommandsHeader) (stamps : SdrTimestamps)
    (now n dataLen rid recordID off len : Z) (st : State) :
  propertyWrites (snd (ipmiSenGetSensorReading P Hd now n st))
    = propertyWrites st /\
  propertyWrites (snd (ipmiSenGetSensorThresholds P Hd now n st))
    = propertyWrites st /\
  propertyWrites (snd (ipmiSenGetSensorEventEnable P Hd now dataLen n st))
    = propertyWrites st /\
  propertyWrites (snd (ipmiSenGetSensorEventStatus P Hd now dataLen n st))
    = propertyWrites st /\
  propertyWrites (snd (ipmiStorageGetSDR P now rid recordID off len st))
    = propertyWrites st /\
  propertyWrites (snd (ipmiStorageGetSDRRepositoryInfo P Hd stamps dataLen st))
    = propertyWrites st.
Proof.
  repeat split.
  - revert st. change (Preserves sameWrites (ipmiSenGetSensorReading P Hd now n)).
    unfold ipmiSenGetSensorReading. same_writes.
  - revert st.
    change (Preserves sameWrites (ipmiSenGetSensorThresholds P Hd now n)).
    unfold ipmiSenGetSensorThresholds. same_writes.
  - revert st.
    change (Preserves sameWrites
              (ipmiSenGetSensorEventEnable P Hd now dataLen n)).
    unfold ipmiSenGetSensorEventEnable. same_writes.
  - revert st.
    change (Preserves sameWrites
              (ipmiSenGetSensorEventStatus P Hd now dataLen n)).
    unfold ipmiSenGetSensorEventStatus. same_writes.
  - revert st.
    change (Preserves sameWrites (ipmiStorageGetSDR P now rid recordID off len)).
    unfold ipmiStorageGetSDR. same_writes.
  - revert st.
    change (Preserves sameWrites
              (ipmiStorageGetSDRRepositoryInfo P Hd stamps dataLen)).
    unfold ipmiStorageGetSDRRepositoryInfo. same_writes.
Qed.

(** ** The sensor handlers after the lookup *)

Lemma demo_getSensorMap_sensor {R} (sensorMap : SensorMap) n st :
  updateTimeMap st = ∅ ->
  fst (getSensorMap (R := R) (demoPlatformWith (demoBackend sensorMap))
         demoNow demoConnection demoPath (stateAfterSensorLookup n demoTree st))
  = Next (Some sensorMap).
Proof.
  intros Hst.
  apply (getSensorMap_refreshed _ _ _ _ _ (<[demoPath := sensorMap]> ∅)).
  - unfold refreshDue, stateAfterSensorLookup. simpl updateTimeMap. rewrite Hst.
    rewrite lookup_empty. reflexivity.
  - apply demoBackend_demoConnection.
  - apply lookup_insert_eq.
Qed.

(** Run a sensor handler up to the sensor map. *)
Ltac run_lookup Hconn Hmap :=
  unfold callGetSensorConnection; run; rewrite Hconn; cbn [fst snd];
  change (nonzero 0) with false; cbv iota;
  unfold bind at 1;
  match goal with
  | |- context [getSensorMap ?P ?now ?c ?p ?s] =>
      let found := fresh "found" in
      let st1 := fresh "st1" in
      destruct (getSensorMap P now c p s) as [found st1];
      cbn [fst snd] in *; subst found; cbv beta iota
  end.

(** ** Get Sensor Thresholds *)

Lemma getSensorThresholds_outcome P Hd now n st tree' connection path
    (sensorMap : SensorMap) :
  getSensorConnection P (sensorTree st) n = ((0, connection, path), tree') ->
  fst (getSensorMap (R := RspType (Z * Z * Z * Z * Z * Z * Z)) P now connection
         path (stateAfterSensorLookup n tree' st))
    = Next (Some sensorMap) ->
  fst (ipmiSenGetSensorThresholds P Hd now n st) =
  match getIPMIThresholds P sensorMap with
  | None => Return responseResponseError
  | Some thresholdData =>
      Return
        (responseSuccess
           (orWhen (criticalLow thresholdData)
              (Z.shiftl 1 (uint8_t (IPMIThresholdRespBits.lowerCritical
                                      (thresholdRespBits Hd))))
              (orWhen (criticalHigh thresholdData)
                 (Z.shiftl 1 (uint8_t (IPMIThresholdRespBits.upperCritical
                                         (thresholdRespBits Hd))))
                 (orWhen (warningLow thresholdData)
                    (Z.shiftl 1
                       (uint8_t (IPMIThresholdRespBits.lowerNonCritical
                                   (thresholdRespBits Hd))))
                    (orWhen (warningHigh thresholdData)
                       (Z.shiftl 1
                          (uint8_t (IPMIThresholdRespBits.upperNonCritical
                                      (thresholdRespBits Hd))))
                       0))),
            default 0 (warningLow thresholdData),
            default 0 (criticalLow thresholdData), 0,
            default 0 (warningHigh thresholdData),
            default 0 (criticalHigh thresholdData), 0))
  end.
Proof.
  intros Hconn Hmap. unfold stateAfterSensorLookup in *.
  unfold ipmiSenGetSensorThresholds. cbv zeta.
  run_lookup Hconn Hmap.
  destruct (getIPMIThresholds P sensorMap); reflexivity.
Qed.

(** The threshold bytes of an assembled full record. *)
Lemma buildFullRecord_thresholds {T} P recordID path (sensorMap : SensorMap)
    st record st' :
  buildFullRecord (T := T) P recordID path sensorMap st = (Next record, st') ->
  exists thresholdData,
    getIPMIThresholds P sensorMap = Some thresholdData /\
    upper_nonrecoverable_threshold (body record) = 0 /\
    upper_critical_threshold (body record)
      = default 0 (criticalHigh thresholdData) /\
    upper_noncritical_threshold (body record)
      = default 0 (warningHigh thresholdData) /\
    lower_nonrecoverable_threshold (body record) = 0 /\
    lower_critical_threshold (body record)
      = default 0 (criticalLow thresholdData) /\
    lower_noncritical_threshold (body record)
      = default 0 (warningLow thresholdData) /\
    supported_assertions (body record)
      = (orWhen (warningLow thresholdData)
           (lowerNonCriticalGoingLow (eventEnableThresholds P))
           (orWhen (criticalLow thresholdData)
              (lowerCriticalGoingLow (eventEnableThresholds P))
              (orWhen (warningHigh thresholdData)
                 (upperNonCriticalGoingHigh (eventEnableThresholds P)) 0)),
         orWhen (criticalHigh thresholdData)
           (upperCriticalGoingHigh (eventEnableThresholds P)) 0) /\
    supported_deassertions (body record) = supported_assertions (body record) /\
    snd (discrete_reading_setting_mask (body record))
      = fst (discrete_reading_setting_mask (body record)).
Proof.
  unfold buildFullRecord, bind, orThrow. intros H.
  destruct (sensorMap !! "xyz.openbmc_project.Sensor.Value")
    as [sensorObject |]; [| discriminate H].
  destruct (match sensorObject !! "MaxValue" with
            | Some v => VariantToDoubleVisitor P v
            | None => Some 128%float
            end) as [max |]; [| discriminate H].
  cbn [ret throw] in H.
  destruct (match sensorObject !! "MinValue" with
            | Some v => VariantToDoubleVisitor P v
            | None => Some (-127)%float
            end) as [min |]; [| discriminate H].
  cbn [ret throw] in H.
  destruct (getSensorAttributes P max min) as [a |]; [| discriminate H].
  destruct (getIPMIThresholds P sensorMap) as [thresholdData |];
    [| discriminate H].
  exists thresholdData.
  unfold ret in H. injection H as Hrec Hst. subst record st'.
  repeat split; reflexivity.
Qed.

(** X15. Get Sensor Thresholds and Get SDR agree: for the same sensor map,
    the four threshold bytes that Get Sensor Thresholds returns are the
    threshold bytes of the full record that Get SDR assembles, and both
    report the non-recoverable thresholds as 0. *)
Theorem thresholds_agree_with_sdr
    (P : Platform) (Hd : SensorCommandsHeader) (now n recordID : Z)
    (st s s' : State) (tree' : SensorSubTree) (connection path : string)
    (sensorMap : SensorMap) (record : SensorDataFullRecord) :
  getSensorConnection P (sensorTree st) n = ((0, connection, path), tree') ->
  fst (getSensorMap (R := RspType (Z * Z * Z * Z * Z * Z * Z)) P now connection
         path (stateAfterSensorLookup n tree' st))
    = Next (Some sensorMap) ->
  buildFullRecord (T := Z * list Z) P recordID path sensorMap s
    = (Next record, s') ->
  exists readable,
    fst (ipmiSenGetSensorThresholds P Hd now n st) =
    Return
      (responseSuccess
         (readable,
          lower_noncritical_threshold (body record),
          lower_critical_threshold (body record),
          lower_nonrecoverable_threshold (body record),
          upper_noncritical_threshold (body record),
          upper_critical_threshold (body record),
          upper_nonrecoverable_threshold (body record))) /\
    lower_nonrecoverable_threshold (body record) = 0 /\
    upper_nonrecoverable_threshold (body record) = 0.
Proof.
  intros Hconn Hmap Hb.
  destruct (buildFullRecord_thresholds _ _ _ _ _ _ _ Hb)
    as (td & Htd & Hunr & Huc & Hunc & Hlnr & Hlc & Hlnc & _).
  rewrite (getSensorThresholds_outcome P Hd now n st tree' connection path
             sensorMap Hconn Hmap), Htd.
  rewrite Hunr, Huc, Hunc, Hlnr, Hlc, Hlnc.
  eexists. repeat split; reflexivity.
Qed.

Lemma thresholds_agree_with_sdr_witness :
  exists readable,
    fst (ipmiSenGetSensorThresholds demoPlatform ipmiSensorCommandsHeader
           demoNow 0 startup) =
    Return
      (responseSuccess
         (readable,
          lower_noncritical_threshold (body demoRecord),
          lower_critical_threshold (body demoRecord),
          lower_nonrecoverable_threshold (body demoRecord),
          upper_noncritical_threshold (body demoRecord),
          upper_critical_threshold (body demoRecord),
          upper_nonrecoverable_threshold (body demoRecord))) /\
    lower_nonrecoverable_threshold (body demoRecord) = 0 /\
    upper_nonrecoverable_threshold (body demoRecord) = 0.
Proof.
  apply (thresholds_agree_with_sdr demoPlatform ipmiSensorCommandsHeader
           demoNow 0 0 startup demoState demoState demoTree demoConnection
           demoPath demoSensorMap demoRecord).
  - reflexivity.
  - apply demo_getSensorMap_sensor. reflexivity.
  - vm_compute. reflexivity.
Defined.

Lemma getIPMIThresholds_no_interface P (sensorMap : SensorMap) :
  sensorMap !! "xyz.openbmc_project.Sensor.Threshold.Warning" = None ->
  sensorMap !! "xyz.openbmc_project.Sensor.Threshold.Critical" = None ->
  getIPMIThresholds P sensorMap
  = Some {| warningLow := None; warningHigh := None;
            criticalLow := None; criticalHigh := None |}.
Proof. intros Hw Hc. unfold getIPMIThresholds. rewrite Hw, Hc. reflexivity. Qed.

Lemma getIPMIThresholds_no_value P (sensorMap : SensorMap) :
  is_Some (sensorMap !! "xyz.openbmc_project.Sensor.Threshold.Warning")
  \/ is_Some (sensorMap !! "xyz.openbmc_project.Sensor.Threshold.Critical") ->
  sensorMap !! "xyz.openbmc_project.Sensor.Value" = None ->
  getIPMIThresholds P sensorMap = None.
Proof.
  intros Hi Hv. unfold getIPMIThresholds. rewrite Hv.
  destruct Hi as [[w Hw] | [c Hc]].
  - rewrite Hw. reflexivity.
  - rewrite Hc.
    destruct (sensorMap !! "xyz.openbmc_project.Sensor.Threshold.Warning");
      reflexivity.
Qed.

(** X16. Get Sensor Thresholds on sensors at the edge: a sensor that
    exposes neither threshold interface is answered with success, no
    threshold readable and all six bytes 0, even when it has no value
    interface; a sensor that exposes a threshold interface but no value
    interface is answered with response-error. *)
Theorem getSensorThresholds_without_thresholds
    (P : Platform) (Hd : SensorCommandsHeader) (now n : Z) (st : State)
    (tree' : SensorSubTree) (connection path : string) (sensorMap : SensorMap) :
  getSensorConnection P (sensorTree st) n = ((0, connection, path), tree') ->
  fst (getSensorMap (R := RspType (Z * Z * Z * Z * Z * Z * Z)) P now connection
         path (stateAfterSensorLookup n tree' st))
    = Next (Some sensorMap) ->
  (sensorMap !! "xyz.openbmc_project.Sensor.Threshold.Warning" = None ->
   sensorMap !! "xyz.openbmc_project.Sensor.Threshold.Critical" = None ->
   fst (ipmiSenGetSensorThresholds P Hd now n st)
     = Return (responseSuccess (0, 0, 0, 0, 0, 0, 0))) /\
  (is_Some (sensorMap !! "xyz.openbmc_project.Sensor.Threshold.Warning")
   \/ is_Some (sensorMap !! "xyz.openbmc_project.Sensor.Threshold.Critical") ->
   sensorMap !! "xyz.openbmc_project.Sensor.Value" = None ->
   fst (ipmiSenGetSensorThresholds P Hd now n st)
     = Return responseResponseError).
Proof.
  intros Hconn Hmap.
  rewrite (getSensorThresholds_outcome P Hd now n st tree' connection path
             sensorMap Hconn Hmap).
  split.
  - intros Hw Hc. rewrite getIPMIThresholds_no_interface by assumption.
    reflexivity.
  - intros Hi Hv. rewrite getIPMIThresholds_no_value by assumption.
    reflexivity.
Qed.

Lemma getSensorThresholds_without_thresholds_witness :
  fst (ipmiSenGetSensorThresholds warningOnlyPlatform ipmiSensorCommandsHeader
         demoNow 0 startup)
    = Return responseResponseError.
Proof.
  apply (proj2 (getSensorThresholds_without_thresholds warningOnlyPlatform
                  ipmiSensorCommandsHeader demoNow 0 startup demoTree
                  demoConnection demoPath warningOnlySensorMap eq_refl
                  (demo_getSensorMap_sensor warningOnlySensorMap 0 startup
                     eq_refl))).
  - left. eexists. apply lookup_insert_eq.
  - vm_compute. reflexivity.
Defined.

(** ** Bit sets in a byte *)

Lemma uint8_t_land z : uint8_t z = Z.land z (Z.ones 8).
Proof. unfold uint8_t. symmetry. apply Z.land_ones. lia. Qed.

Lemma uint8_t_lor x y : uint8_t (Z.lor x y) = Z.lor (uint8_t x) (uint8_t y).
Proof. rewrite !uint8_t_land. apply Z.land_lor_distr_l. Qed.

Lemma uint8_t_idem z : uint8_t (uint8_t z) = uint8_t z.
Proof. apply uint8_t_small. apply uint8_t_range. Qed.

Lemma orWhen_presence {A B} (p : option A) (q : option B) bits x :
  (is_Some p <-> is_Some q) -> orWhen p bits x = orWhen q bits x.
Proof.
  intros H. destruct p as [a |], q as [b |]; try reflexivity.
  - destruct (proj1 H (ltac:(eexists; reflexivity))) as [? E]. discriminate E.
  - destruct (proj2 H (ltac:(eexists; reflexivity))) as [? E]. discriminate E.
Qed.

Lemma orWhen_comm {A B} (p : option A) (q : option B) b1 b2 x :
  orWhen p b1 (orWhen q b2 x) = orWhen q b2 (orWhen p b1 x).
Proof.
  destruct p, q; try reflexivity. simpl.
  rewrite !uint8_t_lor, !uint8_t_idem.
  rewrite <- !Z.lor_assoc. f_equal. apply Z.lor_comm.
Qed.

(** ** The thresholds that a sensor exposes *)

Lemma scaledThreshold_presence P a property r :
  scaledThreshold P a property = Some r -> (is_Some r <-> is_Some property).
Proof.
  unfold scaledThreshold. destruct property as [v |].
  - destruct (VariantToDoubleVisitor P v); [| discriminate].
    intros [= <-]. split; intros _; eexists; reflexivity.
  - intros [= <-]. split; intros [? E]; discriminate E.
Qed.

(** What a successful [getIPMIThresholds] has computed. *)
Lemma getIPMIThresholds_inv P (sensorMap : SensorMap) td :
  getIPMIThresholds P sensorMap = Some td ->
  let warningMap :=
    default ∅ (sensorMap !! "xyz.openbmc_project.Sensor.Threshold.Warning") in
  let criticalMap :=
    default ∅ (sensorMap !! "xyz.openbmc_project.Sensor.Threshold.Critical") in
  (is_Some (warningHigh td) <-> is_Some (warningMap !! "WarningHigh")) /\
  (is_Some (warningLow td) <-> is_Some (warningMap !! "WarningLow")) /\
  (is_Some (criticalHigh td) <-> is_Some (criticalMap !! "CriticalHigh")) /\
  (is_Some (criticalLow td) <-> is_Some (criticalMap !! "CriticalLow")) /\
  (is_Some (sensorMap !! "xyz.openbmc_project.Sensor.Threshold.Warning")
   \/ is_Some (sensorMap !! "xyz.openbmc_project.Sensor.Threshold.Critical") ->
   exists sensorObject max min a,
     sensorMap !! "xyz.openbmc_project.Sensor.Value" = Some sensorObject /\
     getSensorMaxMin P sensorObject = Some (max, min) /\
     getSensorAttributes P max min = Some a /\
     scaledThreshold P a (warningMap !! "WarningHigh")
       = Some (warningHigh td) /\
     scaledThreshold P a (warningMap !! "WarningLow") = Some (warningLow td) /\
     scaledThreshold P a (criticalMap !! "CriticalHigh")
       = Some (criticalHigh td) /\
     scaledThreshold P a (criticalMap !! "CriticalLow")
       = Some (criticalLow td)).
Proof.
  unfold getIPMIThresholds. cbv zeta. intros H.
  destruct (bool_decide
              (is_Some
                 (sensorMap !! "xyz.openbmc_project.Sensor.Threshold.Warning"))
            || bool_decide
                 (is_Some
                    (sensorMap
                       !! "xyz.openbmc_project.Sensor.Threshold.Critical")))
    eqn:Hi.
  - destruct (sensorMap !! "xyz.openbmc_project.Sensor.Value")
      as [sensorObject |] eqn:Hv; [| discriminate H].
    destruct (getSensorMaxMin P sensorObject) as [[max min] |] eqn:Hr;
      [| discriminate H].
    destruct (getSensorAttributes P max min) as [a |] eqn:Ha;
      [| discriminate H].
    destruct (scaledThreshold P a (_ !! "WarningHigh")) as [wh |] eqn:Hwh;
      [| discriminate H].
    destruct (scaledThreshold P a (_ !! "WarningLow")) as [wl |] eqn:Hwl;
      [| discriminate H].
    destruct (scaledThreshold P a (_ !! "CriticalHigh")) as [ch |] eqn:Hch;
      [| discriminate H].
    destruct (scaledThreshold P a (_ !! "CriticalLow")) as [cl |] eqn:Hcl;
      [| discriminate H].
    injection H as <-. cbn [warningHigh warningLow criticalHigh criticalLow].
    split; [exact (scaledThreshold_presence _ _ _ _ Hwh) |].
    split; [exact (scaledThreshold_presence _ _ _ _ Hwl) |].
    split; [exact (scaledThreshold_presence _ _ _ _ Hch) |].
    split; [exact (scaledThreshold_presence _ _ _ _ Hcl) |].
    intros _. exists sensorObject, max, min, a. repeat split; try assumption;
      reflexivity.
  - apply orb_false_iff in Hi as [Hw Hc].
    apply bool_decide_eq_false in Hw, Hc.
    apply eq_None_not_Some in Hw, Hc. rewrite Hw, Hc.
    injection H as <-. cbn [warningHigh warningLow criticalHigh criticalLow].
    simpl default. rewrite !lookup_empty.
    repeat split; try (intros [? E]; discriminate E).
    intros [[? E] | [? E]]; discriminate E.
Qed.

(** ** Get Sensor Event Enable *)

(** X17. Get Sensor Event Enable and Get SDR agree on assertions: for a
    sensor with a threshold interface, the two assertion-enable bytes of
    the response are the two supported-assertion bytes of the full record
    that Get SDR assembles from the same sensor map (which also carries
    them as its supported deassertions), and the first byte announces
    sensor scanning only; for a sensor without threshold interface the
    response is the single byte with both enable flags, and the record
    supports no assertion. *)
Theorem eventEnable_agrees_with_sdr
    (P : Platform) (Hd : SensorCommandsHeader) (now n recordID : Z)
    (st s s' : State) (tree' : SensorSubTree) (connection path : string)
    (sensorMap : SensorMap) (record : SensorDataFullRecord) :
  getSensorConnection P (sensorTree st) n = ((0, connection, path), tree') ->
  fst (getSensorMap (R := ipmi_ret_t * Z * option EventEnableResponse) P now
         connection path (stateAfterSensorLookup n tree' st))
    = Next (Some sensorMap) ->
  buildFullRecord (T := Z * list Z) P recordID path sensorMap s
    = (Next record, s') ->
  (is_Some (sensorMap !! "xyz.openbmc_project.Sensor.Threshold.Warning")
   \/ is_Some (sensorMap !! "xyz.openbmc_project.Sensor.Threshold.Critical") ->
   exists resp,
     fst (ipmiSenGetSensorEventEnable P Hd now 1 n st)
       = Return (IPMI_CC_OK, sizeof_SensorEventEnableResp Hd,
                 Some (EventEnableThresholds resp)) /\
     SensorEventEnableResp.enabled resp
       = uint8_t (IPMISensorEventEnableByte2.sensorScanningEnable
                    (eventEnableByte2 Hd)) /\
     SensorEventEnableResp.assertionEnabledLSB resp
       = fst (supported_assertions (body record)) /\
     SensorEventEnableResp.assertionEnabledMSB resp
       = snd (supported_assertions (body record)) /\
     supported_deassertions (body record) = supported_assertions (body record))
  /\
  (sensorMap !! "xyz.openbmc_project.Sensor.Threshold.Warning" = None ->
   sensorMap !! "xyz.openbmc_project.Sensor.Threshold.Critical" = None ->
   fst (ipmiSenGetSensorEventEnable P Hd now 1 n st)
     = Return (IPMI_CC_OK, 1,
               Some (EventEnableByte
                       (uint8_t
                          (Z.lor
                             (uint8_t
                                (IPMISensorEventEnableByte2.eventMessagesEnable
                                   (eventEnableByte2 Hd)))
                             (IPMISensorEventEnableByte2.sensorScanningEnable
                                (eventEnableByte2 Hd)))))) /\
   supported_assertions (body record) = (0, 0)).
Proof.
  intros Hconn Hmap Hb.
  destruct (buildFullRecord_thresholds _ _ _ _ _ _ _ Hb)
    as (td & Htd & _ & _ & _ & _ & _ & _ & Hsa & Hsd & _).
  unfold stateAfterSensorLookup in *.
  unfold ipmiSenGetSensorEventEnable. cbv zeta.
  simpl (negb (1 =? 1)). cbv iota.
  split.
  - run_lookup Hconn Hmap. intros Hi.
    assert (Hc : bool_decide
                   (is_Some (sensorMap
                               !! "xyz.openbmc_project.Sensor.Threshold.Warning"))
                 || bool_decide
                      (is_Some
                         (sensorMap
                            !! "xyz.openbmc_project.Sensor.Threshold.Critical"))
                 = true).
    { destruct Hi as [Hi | Hi].
      - rewrite (bool_decide_eq_true_2 _ Hi). reflexivity.
      - rewrite (bool_decide_eq_true_2 _ Hi). apply orb_true_r. }
    rewrite Hc. eexists. split; [reflexivity |].
    cbn [SensorEventEnableResp.enabled
         SensorEventEnableResp.assertionEnabledLSB
         SensorEventEnableResp.assertionEnabledMSB].
    split; [reflexivity |].
    destruct (getIPMIThresholds_inv P sensorMap td Htd)
      as (Hwh & Hwl & Hch & Hcl & _).
    split; [| split; [| exact Hsd]]; rewrite Hsa; cbn [fst snd].
    + rewrite (orWhen_presence _ _ _ _ Hwh), (orWhen_presence _ _ _ _ Hwl),
        (orWhen_presence _ _ _ _ Hcl).
      apply orWhen_comm.
    + apply orWhen_presence. symmetry. exact Hch.
  - run_lookup Hconn Hmap. intros Hw Hc. rewrite Hw, Hc.
    split; [reflexivity |].
    rewrite (getIPMIThresholds_no_interface P sensorMap Hw Hc) in Htd.
    injection Htd as <-. rewrite Hsa. reflexivity.
Qed.

Lemma eventEnable_agrees_with_sdr_witness :
  exists resp,
    fst (ipmiSenGetSensorEventEnable demoPlatform ipmiSensorCommandsHeader
           demoNow 1 0 startup)
      = Return (IPMI_CC_OK,
                sizeof_SensorEventEnableResp ipmiSensorCommandsHeader,
                Some (EventEnableThresholds resp)) /\
    SensorEventEnableResp.enabled resp
      = uint8_t (IPMISensorEventEnableByte2.sensorScanningEnable
                   (eventEnableByte2 ipmiSensorCommandsHeader)) /\
    SensorEventEnableResp.assertionEnabledLSB resp
      = fst (supported_assertions (body demoRecord)) /\
    SensorEventEnableResp.assertionEnabledMSB resp
      = snd (supported_assertions (body demoRecord)) /\
    supported_deassertions (body demoRecord)
      = supported_assertions (body demoRecord).
Proof.
  apply (proj1 (eventEnable_agrees_with_sdr demoPlatform
                  ipmiSensorCommandsHeader demoNow 0 0 startup demoState
                  demoState demoTree demoConnection demoPath demoSensorMap
                  demoRecord eq_refl
                  (demo_getSensorMap_sensor demoSensorMap 0 startup eq_refl)
                  ltac:(vm_compute; reflexivity))).
  left. eexists. unfold demoSensorMap.
  rewrite lookup_insert_ne by discriminate. apply lookup_insert_eq.
Defined.

(** ** Get Sensor Reading *)

Lemma orAlarm_run {R} alarm bit x (st : State) :
  (booleanOrAbsent alarm /\
   orAlarm (R := R) alarm bit x st = (Next (orIf (alarmSet alarm) bit x), st))
  \/ orAlarm (R := R) alarm bit x st = (Throw, st).
Proof.
  unfold orAlarm, get_bool.
  destruct alarm as [[s | [|] | z | d] |]; try (right; reflexivity);
    left; split; try reflexivity; exact I.
Qed.

(** What a successful Get Sensor Reading has computed. *)
Lemma getSensorReading_success_inv P Hd now n st tree' connection path
    (sensorMap : SensorMap) value operation thresholds optional :
  getSensorConnection P (sensorTree st) n = ((0, connection, path), tree') ->
  fst (getSensorMap (R := RspType (Z * Z * Z * option Z)) P now connection path
         (stateAfterSensorLookup n tree' st))
    = Next (Some sensorMap) ->
  fst (ipmiSenGetSensorReading P Hd now n st)
    = Return (responseSuccess (value, operation, thresholds, optional)) ->
  exists sensorObject v reading max min a,
    sensorMap !! "xyz.openbmc_project.Sensor.Value" = Some sensorObject /\
    sensorObject !! "Value" = Some v /\
    VariantToDoubleVisitor P v = Some reading /\
    getSensorMaxMin P sensorObject = Some (max, min) /\
    getSensorAttributes P max min = Some a /\
    value = uint8_t (scaleIPMIValueFromDouble P reading (mValue a) (rExp a)
                       (bValue a) (bExp a) (bSigned a)) /\
    operation =
      uint8_t (Z.lor (uint8_t (IPMISensorReadingByte2.sensorScanningEnable
                                 (readingByte2 Hd)))
                 (IPMISensorReadingByte2.eventMessagesEnable (readingByte2 Hd)))
    /\
    optional = None /\
    thresholds = alarmByte (readingByte3 P) sensorMap /\
    booleanOrAbsent
      (propertyOf sensorMap "xyz.openbmc_project.Sensor.Threshold.Warning"
         "WarningAlarmHigh") /\
    booleanOrAbsent
      (propertyOf sensorMap "xyz.openbmc_project.Sensor.Threshold.Warning"
         "WarningAlarmLow") /\
    booleanOrAbsent
      (propertyOf sensorMap "xyz.openbmc_project.Sensor.Threshold.Critical"
         "CriticalAlarmHigh") /\
    booleanOrAbsent
      (propertyOf sensorMap "xyz.openbmc_project.Sensor.Threshold.Critical"
         "CriticalAlarmLow").
Proof.
  intros Hconn Hmap. unfold stateAfterSensorLookup in *.
  unfold ipmiSenGetSensorReading. cbv zeta.
  run_lookup Hconn Hmap.
  destruct (sensorMap !! "xyz.openbmc_project.Sensor.Value")
    as [sensorObject |] eqn:Hv; [| discriminate].
  destruct (sensorObject !! "Value") as [v |] eqn:Hvalue; [| discriminate].
  destruct (VariantToDoubleVisitor P v) as [reading |] eqn:Hreading;
    cbn [orThrow]; run; [| discriminate].
  destruct (getSensorMaxMin P sensorObject) as [[max min] |] eqn:Hrange;
    cbn [orThrow]; run; [| discriminate].
  cbn [fst snd].
  destruct (getSensorAttributes P max min) as [a |] eqn:Ha; [| discriminate].
  unfold alarmByte, propertyOf. cbv zeta.
  destruct (sensorMap !! "xyz.openbmc_project.Sensor.Threshold.Warning")
    as [warningObject |]; run;
    destruct (sensorMap !! "xyz.openbmc_project.Sensor.Threshold.Critical")
      as [criticalObject |]; run;
    repeat (unfold bind at 1;
            match goal with
            | |- context [orAlarm ?al ?b ?x ?s] =>
                let E := fresh "E" in
                let B := fresh "B" in
                destruct (orAlarm_run (R := RspType (Z * Z * Z * option Z))
                            al b x s) as [[B E] | E];
                rewrite E; clear E; [| discriminate]
            end; run);
    unfold reply; cbn [fst]; intros [= <- <- <- <-];
    exists sensorObject, v, reading, max, min, a;
    repeat split; first [assumption | exact I | reflexivity].
Qed.

(** X18. Get Sensor Reading and the thresholds are on one scale: the
    reading byte is computed with the same linearization attributes as the
    raw thresholds of the sensor (those that Get Sensor Thresholds returns
    and Get SDR puts into the record), so a reading whose backend value
    equals the backend value of a threshold is reported as the raw byte of
    that threshold. *)
Theorem reading_shares_threshold_scale
    (P : Platform) (Hd : SensorCommandsHeader) (now n : Z) (st : State)
    (tree' : SensorSubTree) (connection path : string) (sensorMap : SensorMap)
    (td : IPMIThresholds) (value operation thresholds : Z) (optional : option Z)
    (v t : DbusVariant) (d : float) :
  getSensorConnection P (sensorTree st) n = ((0, connection, path), tree') ->
  fst (getSensorMap (R := RspType (Z * Z * Z * option Z)) P now connection path
         (stateAfterSensorLookup n tree' st))
    = Next (Some sensorMap) ->
  fst (ipmiSenGetSensorReading P Hd now n st)
    = Return (responseSuccess (value, operation, thresholds, optional)) ->
  getIPMIThresholds P sensorMap = Some td ->
  propertyOf sensorMap "xyz.openbmc_project.Sensor.Value" "Value" = Some v ->
  VariantToDoubleVisitor P v = Some d ->
  VariantToDoubleVisitor P t = Some d ->
  (propertyOf sensorMap "xyz.openbmc_project.Sensor.Threshold.Warning"
     "WarningHigh" = Some t ->
   exists x, warningHigh td = Some x /\ uint8_t x = value) /\
  (propertyOf sensorMap "xyz.openbmc_project.Sensor.Threshold.Warning"
     "WarningLow" = Some t ->
   exists x, warningLow td = Some x /\ uint8_t x = value) /\
  (propertyOf sensorMap "xyz.openbmc_project.Sensor.Threshold.Critical"
     "CriticalHigh" = Some t ->
   exists x, criticalHigh td = Some x /\ uint8_t x = value) /\
  (propertyOf sensorMap "xyz.openbmc_project.Sensor.Threshold.Critical"
     "CriticalLow" = Some t ->
   exists x, criticalLow td = Some x /\ uint8_t x = value).
Proof.
  intros Hconn Hmap Hrun Htd Hv Hd1 Hd2.
  destruct (getSensorReading_success_inv _ _ _ _ _ _ _ _ _ _ _ _ _
              Hconn Hmap Hrun)
    as (obj & v' & reading & max & min & a & Hobj & Hvalue & Hreading & Hrange
        & Ha & -> & _).
  unfold propertyOf in Hv. rewrite Hobj in Hv. simpl in Hv.
  rewrite Hvalue in Hv. injection Hv as ->.
  rewrite Hd1 in Hreading. injection Hreading as <-.
  destruct (getIPMIThresholds_inv P sensorMap td Htd)
    as (_ & _ & _ & _ & Hinv).
  assert (Hscaled : forall interface name property,
            propertyOf sensorMap interface name = Some t ->
            scaledThreshold P a (default ∅ (sensorMap !! interface) !! name)
              = Some property ->
            exists x, property = Some x /\
              uint8_t x
              = uint8_t (scaleIPMIValueFromDouble P d (mValue a) (rExp a)
                           (bValue a) (bExp a) (bSigned a))).
  { intros interface name property Hp Hs. unfold propertyOf in Hp.
    destruct (sensorMap !! interface) as [properties |]; [| discriminate Hp].
    simpl in Hp, Hs. rewrite Hp in Hs. unfold scaledThreshold in Hs.
    rewrite Hd2 in Hs. injection Hs as <-. eexists. split; reflexivity. }
  assert (Hsame : forall interface name,
            propertyOf sensorMap interface name = Some t ->
            is_Some (sensorMap !! interface)).
  { intros interface name Hp. unfold propertyOf in Hp.
    destruct (sensorMap !! interface); [eexists; reflexivity | discriminate Hp]. }
  repeat split; intros Hp;
    (destruct Hinv as (obj' & max' & min' & a' & Hobj' & Hrange' & Ha' & Hwh
                       & Hwl & Hch & Hcl);
     [first [ left; exact (Hsame _ _ Hp) | right; exact (Hsame _ _ Hp) ] |]);
    rewrite Hobj in Hobj'; injection Hobj' as <-;
    rewrite Hrange in Hrange'; injection Hrange' as <- <-;
    rewrite Ha in Ha'; injection Ha' as <-;
    eapply Hscaled; eassumption.
Qed.

Lemma reading_shares_threshold_scale_witness :
  exists x,
    warningHigh {| warningLow := None; warningHigh := Some 80;
                   criticalLow := None; criticalHigh := Some 95 |} = Some x /\
    uint8_t x = 80.
Proof.
  apply (proj1 (reading_shares_threshold_scale alarmPlatform
                  ipmiSensorCommandsHeader demoNow 0 startup demoTree
                  demoConnection demoPath alarmSensorMap
                  {| warningLow := None; warningHigh := Some 80;
                     criticalLow := None; criticalHigh := Some 95 |}
                  80 192 8 None (VariantDouble 80%float)
                  (VariantDouble 80%float) 80%float
                  eq_refl
                  (demo_getSensorMap_sensor alarmSensorMap 0 startup eq_refl)
                  ltac:(vm_compute; reflexivity)
                  ltac:(vm_compute; reflexivity)
                  ltac:(vm_compute; reflexivity)
                  eq_refl eq_refl)).
  vm_compute. reflexivity.
Defined.

(** ** Alarm bits *)

Lemma testbit_uint8_t z i :
  0 <= i -> Z.testbit (uint8_t z) i = Z.testbit z i && (i <? 8).
Proof.
  intros Hi. rewrite uint8_t_land, Z.land_spec. f_equal.
  destruct (i <? 8) eqn:E.
  - apply Z.ones_spec_low. apply Z.ltb_lt in E. lia.
  - apply Z.ones_spec_high. apply Z.ltb_ge in E. lia.
Qed.

Lemma orIf_includes_new bits x :
  Z.land (orIf true bits x) (uint8_t bits) = uint8_t bits.
Proof.
  unfold orIf. apply Z.bits_inj'. intros i Hi.
  rewrite Z.land_spec, !testbit_uint8_t, Z.lor_spec by exact Hi.
  destruct (Z.testbit x i), (Z.testbit bits i), (i <? 8); reflexivity.
Qed.

Lemma orIf_includes_keep flag bits x c :
  Z.land x (uint8_t c) = uint8_t c ->
  Z.land (orIf flag bits x) (uint8_t c) = uint8_t c.
Proof.
  intros H. unfold orIf. destruct flag; [| exact H].
  apply Z.bits_inj'. intros i Hi.
  apply (f_equal (fun z => Z.testbit z i)) in H.
  rewrite Z.land_spec, !testbit_uint8_t in H by exact Hi.
  rewrite Z.land_spec, !testbit_uint8_t, Z.lor_spec by exact Hi.
  destruct (Z.testbit x i), (Z.testbit bits i), (Z.testbit c i), (i <? 8);
    simpl in *; congruence.
Qed.

(** X19. The alarm byte of Get Sensor Reading: on success the optional
    fourth byte is never returned and the operation byte announces sensor
    scanning and event messages; the alarm byte holds the bits of every
    alarm property that exists with the value [true] (upper and lower,
    warning and critical), and is 0 when no alarm property holds [true];
    and every alarm property that exists is a boolean, since any other
    value makes the handler throw instead of answering. *)
Theorem reading_alarm_bits
    (P : Platform) (Hd : SensorCommandsHeader) (now n : Z) (st : State)
    (tree' : SensorSubTree) (connection path : string) (sensorMap : SensorMap)
    (value operation thresholds : Z) (optional : option Z) :
  getSensorConnection P (sensorTree st) n = ((0, connection, path), tree') ->
  fst (getSensorMap (R := RspType (Z * Z * Z * option Z)) P now connection path
         (stateAfterSensorLookup n tree' st))
    = Next (Some sensorMap) ->
  fst (ipmiSenGetSensorReading P Hd now n st)
    = Return (responseSuccess (value, operation, thresholds, optional)) ->
  let warning := "xyz.openbmc_project.Sensor.Threshold.Warning"%string in
  let critical := "xyz.openbmc_project.Sensor.Threshold.Critical"%string in
  let B3 := readingByte3 P in
  optional = None /\
  operation =
    uint8_t (Z.lor (uint8_t (IPMISensorReadingByte2.sensorScanningEnable
                               (readingByte2 Hd)))
               (IPMISensorReadingByte2.eventMessagesEnable (readingByte2 Hd))) /\
  (propertyOf sensorMap warning "WarningAlarmHigh" = Some (VariantBool true) ->
   Z.land thresholds (uint8_t (upperNonCritical B3))
     = uint8_t (upperNonCritical B3)) /\
  (propertyOf sensorMap warning "WarningAlarmLow" = Some (VariantBool true) ->
   Z.land thresholds (uint8_t (lowerNonCritical B3))
     = uint8_t (lowerNonCritical B3)) /\
  (propertyOf sensorMap critical "CriticalAlarmHigh" = Some (VariantBool true) ->
   Z.land thresholds (uint8_t (upperCritical B3)) = uint8_t (upperCritical B3)) /\
  (propertyOf sensorMap critical "CriticalAlarmLow" = Some (VariantBool true) ->
   Z.land thresholds (uint8_t (lowerCritical B3)) = uint8_t (lowerCritical B3)) /\
  (alarmSet (propertyOf sensorMap warning "WarningAlarmHigh") = false ->
   alarmSet (propertyOf sensorMap warning "WarningAlarmLow") = false ->
   alarmSet (propertyOf sensorMap critical "CriticalAlarmHigh") = false ->
   alarmSet (propertyOf sensorMap critical "CriticalAlarmLow") = false ->
   thresholds = 0) /\
  (booleanOrAbsent (propertyOf sensorMap warning "WarningAlarmHigh") /\
   booleanOrAbsent (propertyOf sensorMap warning "WarningAlarmLow") /\
   booleanOrAbsent (propertyOf sensorMap critical "CriticalAlarmHigh") /\
   booleanOrAbsent (propertyOf sensorMap critical "CriticalAlarmLow")).
Proof.
  intros Hconn Hmap Hrun warning critical B3.
  destruct (getSensorReading_success_inv _ _ _ _ _ _ _ _ _ _ _ _ _
              Hconn Hmap Hrun)
    as (obj & v & reading & max & min & a & _ & _ & _ & _ & _ & _ & Hop & Hopt
        & Hthr & Hbool).
  split; [exact Hopt |]. split; [exact Hop |].
  subst thresholds. unfold alarmByte. cbv zeta. fold warning critical B3.
  split; [| split; [| split; [| split; [| split; [| exact Hbool]]]]].
  - intros ->. cbn [alarmSet].
    do 3 apply orIf_includes_keep. apply orIf_includes_new.
  - intros ->. cbn [alarmSet].
    do 2 apply orIf_includes_keep. apply orIf_includes_new.
  - intros ->. cbn [alarmSet].
    apply orIf_includes_keep. apply orIf_includes_new.
  - intros ->. cbn [alarmSet]. apply orIf_includes_new.
  - intros -> -> -> ->. reflexivity.
Qed.

Lemma reading_alarm_bits_witness :
  fst (ipmiSenGetSensorReading alarmPlatform ipmiSensorCommandsHeader demoNow 0
         startup)
    = Return (responseSuccess (80, 192, 8, None)) /\
  Z.land 8 (uint8_t (upperNonCritical (readingByte3 alarmPlatform)))
    = uint8_t (upperNonCritical (readingByte3 alarmPlatform)).
Proof.
  split; [vm_compute; reflexivity |].
  apply (proj1 (proj2 (proj2
           (reading_alarm_bits alarmPlatform ipmiSensorCommandsHeader demoNow 0
              startup demoTree demoConnection demoPath alarmSensorMap
              80 192 8 None eq_refl
              (demo_getSensorMap_sensor alarmSensorMap 0 startup eq_refl)
              ltac:(vm_compute; reflexivity))))).
  vm_compute. reflexivity.
Defined.

(** ** Get Sensor Event Status and the deassertion latches *)

Lemma sameLatches_refl st : sameLatches st st.
Proof. intros path name. reflexivity. Qed.

Lemma sameLatches_trans a b c :
  sameLatches a b -> sameLatches b c -> sameLatches a c.
Proof. intros Hab Hbc path name. rewrite Hbc. apply Hab. Qed.

Lemma readLatch_inv {R} path name (st : State) v st' :
  readLatch (R := R) path name st = (v, st') ->
  v = Next (latchOf (thresholdDeassertMap st) path name) /\ sameLatches st st'.
Proof.
  unfold readLatch. run. unfold ret. intros [= <- <-].
  split; [reflexivity |].
  intros p n. cbn [thresholdDeassertMap set_thresholdDeassertMap].
  rewrite latchOf_insert.
  destruct (bool_decide (path = p /\ name = n)) eqn:E; [| reflexivity].
  apply bool_decide_eq_true in E as [<- <-]. reflexivity.
Qed.

Lemma sameLatches_readLatch {R} path name :
  Preserves sameLatches (readLatch (R := R) path name).
Proof.
  intros st. destruct (readLatch path name st) as [v st'] eqn:E.
  exact (proj2 (readLatch_inv _ _ _ _ _ E)).
Qed.

Ltac same_latches_with tac :=
  preserves_with sameLatches_refl sameLatches_trans
    ltac:(first
      [ apply preserves_modify; intros ? ? ?; reflexivity
      | tac ]).

Lemma sameLatches_callGetSensorConnection {R} P n :
  Preserves sameLatches (callGetSensorConnection (R := R) P n).
Proof. unfold callGetSensorConnection. same_latches_with fail. Qed.

Lemma sameLatches_getSensorMap {R} P now c p :
  Preserves sameLatches (getSensorMap (R := R) P now c p).
Proof. unfold getSensorMap. same_latches_with fail. Qed.

Lemma sameLatches_get_bool {R} v : Preserves sameLatches (get_bool (R := R) v).
Proof. unfold get_bool. destruct v; same_latches_with fail. Qed.

Lemma sameLatches_alarmFlag {R} alarm :
  Preserves sameLatches (alarmFlag (R := R) alarm).
Proof.
  unfold alarmFlag. same_latches_with ltac:(apply sameLatches_get_bool).
Qed.

(** X20. Get Sensor Event Status never changes a latch: although reading
    [thresholdDeassertMap[path][name]] creates the entries it does not
    find, every deassertion latch of every sensor reads the same after the
    call as before it, whatever the outcome. A latched deassertion is
    therefore not consumed by being reported. *)
Theorem eventStatus_keeps_latches
    (P : Platform) (Hd : SensorCommandsHeader) (now dataLen n : Z) (st : State)
    (path name : string) :
  latchOf
    (thresholdDeassertMap
       (snd (ipmiSenGetSensorEventStatus P Hd now dataLen n st))) path name
  = latchOf (thresholdDeassertMap st) path name.
Proof.
  revert st path name.
  change (Preserves sameLatches (ipmiSenGetSensorEventStatus P Hd now dataLen n)).
  unfold ipmiSenGetSensorEventStatus.
  same_latches_with
    ltac:(first
      [ apply sameLatches_callGetSensorConnection
      | apply sameLatches_getSensorMap
      | apply sameLatches_readLatch
      | apply sameLatches_alarmFlag ]).
Qed.

Lemma getSensorMap_thresholdDeassertMap {R} P now c p (st : State) :
  thresholdDeassertMap (snd (getSensorMap (R := R) P now c p st))
  = thresholdDeassertMap st.
Proof.
  unfold getSensorMap, bind, gets, modify, ret. simpl.
  destruct (duration_cast_seconds (now - default 0 (updateTimeMap st !! c))
              >? sensorMapUpdatePeriod); simpl.
  - destruct (GetManagedObjects P c) as [objects |]; simpl; [| reflexivity].
    rewrite lookup_insert_eq. destruct (objects !! p); reflexivity.
  - destruct (SensorCache st !! c) as [objects |]; simpl; [| reflexivity].
    destruct (objects !! p); reflexivity.
Qed.

Lemma alarmFlag_run {R} alarm (st : State) :
  alarmFlag (R := R) alarm st = (Next (alarmSet alarm), st)
  \/ alarmFlag (R := R) alarm st = (Throw, st).
Proof.
  unfold alarmFlag, get_bool.
  destruct alarm as [[s | [|] | z | d] |]; try (right; reflexivity);
    left; reflexivity.
Qed.

Lemma orDeasserted_orIf latch bits x :
  orDeasserted latch bits x = orIf (deasserted latch) bits x.
Proof. destruct latch as [[|] |]; reflexivity. Qed.

(** The deassertion bytes of a successful Get Sensor Event Status. *)
Lemma eventStatus_success_inv P Hd now n st tree' connection path
    (sensorMap : SensorMap) cc len resp :
  getSensorConnection P (sensorTree st) n = ((0, connection, path), tree') ->
  fst (getSensorMap (R := ipmi_ret_t * Z * option SensorEventStatusResp.t) P
         now connection path (stateAfterSensorLookup n tree' st))
    = Next (Some sensorMap) ->
  fst (ipmiSenGetSensorEventStatus P Hd now 1 n st)
    = Return (cc, len, Some resp) ->
  let latch := latchOf (thresholdDeassertMap st) path in
  cc = IPMI_CC_OK /\
  SensorEventStatusResp.deassertionsMSB resp
    = orIf (deasserted (latch "CriticalAlarmLow"%string))
        (upperCriticalGoingLow (eventEnableDeassertions Hd))
        (orIf (deasserted (latch "CriticalAlarmHigh"%string))
           (upperCriticalGoingHigh (eventEnableThresholds P)) 0) /\
  SensorEventStatusResp.deassertionsLSB resp
    = orIf (deasserted (latch "WarningAlarmLow"%string))
        (lowerNonCriticalGoingHigh (eventEnableDeassertions Hd))
        (orIf (deasserted (latch "WarningAlarmHigh"%string))
           (upperNonCriticalGoingHigh (eventEnableThresholds P)) 0).
Proof.
  intros Hconn Hmap.
  pose proof (getSensorMap_thresholdDeassertMap
                (R := ipmi_ret_t * Z * option SensorEventStatusResp.t) P now
                connection path (stateAfterSensorLookup n tree' st)) as Htdm.
  unfold stateAfterSensorLookup in *.
  cbn [thresholdDeassertMap set_sensorTree log_call] in Htdm.
  unfold ipmiSenGetSensorEventStatus. cbv zeta.
  simpl (negb (1 =? 1)). cbv iota.
  run_lookup Hconn Hmap.
  rewrite <- Htdm.
  unfold bind at 1.
  destruct (readLatch path "CriticalAlarmHigh" st1) as [v1 s1] eqn:E1.
  apply readLatch_inv in E1 as [-> L1]. cbv beta iota.
  unfold bind at 1.
  destruct (readLatch path "CriticalAlarmLow" s1) as [v2 s2] eqn:E2.
  apply readLatch_inv in E2 as [-> L2]. cbv beta iota.
  unfold bind at 1.
  destruct (readLatch path "WarningAlarmHigh" s2) as [v3 s3] eqn:E3.
  apply readLatch_inv in E3 as [-> L3]. cbv beta iota.
  unfold bind at 1.
  destruct (readLatch path "WarningAlarmLow" s3) as [v4 s4] eqn:E4.
  apply readLatch_inv in E4 as [-> L4]. cbv beta iota.
  rewrite (L3 path "WarningAlarmLow"%string), (L2 path "WarningAlarmLow"%string),
    (L1 path "WarningAlarmLow"%string), (L2 path "WarningAlarmHigh"%string),
    (L1 path "WarningAlarmHigh"%string), (L1 path "CriticalAlarmLow"%string).
  rewrite !orDeasserted_orIf.
  destruct (bool_decide _ || bool_decide _).
  - destruct (sensorMap !! "xyz.openbmc_project.Sensor.Threshold.Warning")
      as [warningMap |]; run;
      destruct (sensorMap !! "xyz.openbmc_project.Sensor.Threshold.Critical")
        as [criticalMap |]; run;
      repeat (unfold bind at 1;
              match goal with
              | |- context [alarmFlag ?al ?s] =>
                  let E := fresh "E" in
                  destruct (alarmFlag_run
                              (R := ipmi_ret_t * Z
                                    * option SensorEventStatusResp.t) al s)
                    as [E | E];
                  rewrite E; clear E; [| discriminate]
              end; run);
      unfold reply; cbn [fst]; intros [= <- <- <-];
      repeat split; reflexivity.
  - unfold reply. cbn [fst]. intros [= <- <- <-]. repeat split; reflexivity.
Qed.

(** X21. What Get Sensor Event Status reports as deasserted comes from
    the latches of the watcher: when no latch of the sensor holds a
    deassertion (as on startup, or when its alarms were only ever asserted,
    or deasserted without having been asserted), both deassertion bytes
    are 0; a latched deassertion of the upper critical or upper warning
    alarm sets the upper-critical-going-high bit of the second, or the
    upper-non-critical-going-high bit of the first deassertion byte. *)
Theorem eventStatus_reports_latched_deassertions
    (P : Platform) (Hd : SensorCommandsHeader) (now n : Z) (st : State)
    (tree' : SensorSubTree) (connection path : string) (sensorMap : SensorMap)
    (cc len : Z) (resp : SensorEventStatusResp.t) :
  getSensorConnection P (sensorTree st) n = ((0, connection, path), tree') ->
  fst (getSensorMap (R := ipmi_ret_t * Z * option SensorEventStatusResp.t) P
         now connection path (stateAfterSensorLookup n tree' st))
    = Next (Some sensorMap) ->
  fst (ipmiSenGetSensorEventStatus P Hd now 1 n st)
    = Return (cc, len, Some resp) ->
  let latch := latchOf (thresholdDeassertMap st) path in
  ((forall name, latch name <> Some false) ->
   SensorEventStatusResp.deassertionsLSB resp = 0 /\
   SensorEventStatusResp.deassertionsMSB resp = 0) /\
  (latch "CriticalAlarmHigh"%string = Some false ->
   Z.land (SensorEventStatusResp.deassertionsMSB resp)
     (uint8_t (upperCriticalGoingHigh (eventEnableThresholds P)))
   = uint8_t (upperCriticalGoingHigh (eventEnableThresholds P))) /\
  (latch "WarningAlarmHigh"%string = Some false ->
   Z.land (SensorEventStatusResp.deassertionsLSB resp)
     (uint8_t (upperNonCriticalGoingHigh (eventEnableThresholds P)))
   = uint8_t (upperNonCriticalGoingHigh (eventEnableThresholds P))).
Proof.
  intros Hconn Hmap Hrun latch.
  destruct (eventStatus_success_inv _ _ _ _ _ _ _ _ _ _ _ _ Hconn Hmap Hrun)
    as (_ & Hm & Hl).
  fold latch in Hm, Hl. rewrite Hm, Hl.
  split; [| split].
  - intros Hnone.
    assert (Hd0 : forall name, deasserted (latch name) = false).
    { intros name. specialize (Hnone name).
      destruct (latch name) as [[|] |]; try reflexivity. congruence. }
    rewrite !Hd0. split; reflexivity.
  - intros ->. cbn [deasserted].
    apply orIf_includes_keep. apply orIf_includes_new.
  - intros ->. cbn [deasserted].
    apply orIf_includes_keep. apply orIf_includes_new.
Qed.

Lemma eventStatus_reports_latched_deassertions_witness :
  fst (ipmiSenGetSensorEventStatus demoPlatform ipmiSensorCommandsHeader
         demoNow 1 0 deassertedState)
    = Return (IPMI_CC_OK, 5,
              Some {| SensorEventStatusResp.enabled := 0x80;
                      SensorEventStatusResp.assertionsLSB := 0;
                      SensorEventStatusResp.assertionsMSB := 0;
                      SensorEventStatusResp.deassertionsLSB := 0;
                      SensorEventStatusResp.deassertionsMSB := 0x02 |}) /\
  Z.land 0x02
    (uint8_t (upperCriticalGoingHigh (eventEnableThresholds demoPlatform)))
  = uint8_t (upperCriticalGoingHigh (eventEnableThresholds demoPlatform)).
Proof.
  split; [vm_compute; reflexivity |].
  apply (proj1 (proj2 (eventStatus_reports_latched_deassertions demoPlatform
                         ipmiSensorCommandsHeader demoNow 0 deassertedState
                         demoTree demoConnection demoPath demoSensorMap
                         IPMI_CC_OK 5
                         {| SensorEventStatusResp.enabled := 0x80;
                            SensorEventStatusResp.assertionsLSB := 0;
                            SensorEventStatusResp.assertionsMSB := 0;
                            SensorEventStatusResp.deassertionsLSB := 0;
                            SensorEventStatusResp.deassertionsMSB := 0x02 |}
                         eq_refl
                         (demo_getSensorMap_sensor demoSensorMap 0
                            deassertedState eq_refl)
                         ltac:(vm_compute; reflexivity)))).
  vm_compute. reflexivity.
Defined.

Lemma bool_decide_is_Some {A} (o : option A) :
  bool_decide (is_Some o) = match o with Some _ => true | None => false end.
Proof.
  destruct o.
  - apply bool_decide_eq_true_2. eexists. reflexivity.
  - apply bool_decide_eq_false_2. intros [? E]. discriminate E.
Qed.

(** The assertion bytes of a successful Get Sensor Event Status. *)
Lemma eventStatus_assertions_inv P Hd now n st tree' connection path
    (sensorMap : SensorMap) cc len resp :
  getSensorConnection P (sensorTree st) n = ((0, connection, path), tree') ->
  fst (getSensorMap (R := ipmi_ret_t * Z * option SensorEventStatusResp.t) P
         now connection path (stateAfterSensorLookup n tree' st))
    = Next (Some sensorMap) ->
  fst (ipmiSenGetSensorEventStatus P Hd now 1 n st)
    = Return (cc, len, Some resp) ->
  let warning := "xyz.openbmc_project.Sensor.Threshold.Warning"%string in
  let critical := "xyz.openbmc_project.Sensor.Threshold.Critical"%string in
  let thresholdSensor :=
    match sensorMap !! warning, sensorMap !! critical with
    | None, None => false
    | _, _ => true
    end in
  SensorEventStatusResp.assertionsLSB resp
    = orIf (alarmSet (propertyOf sensorMap critical "CriticalAlarmLow"))
        (lowerCriticalGoingLow (eventEnableThresholds P))
        (orIf (alarmSet (propertyOf sensorMap warning "WarningAlarmLow")) 1
           (orIf (alarmSet (propertyOf sensorMap warning "WarningAlarmHigh"))
              (upperNonCriticalGoingHigh (eventEnableThresholds P)) 0)) /\
  SensorEventStatusResp.assertionsMSB resp
    = orIf (alarmSet (propertyOf sensorMap critical "CriticalAlarmHigh"))
        (upperCriticalGoingHigh (eventEnableThresholds P)) 0 /\
  SensorEventStatusResp.enabled resp
    = (if thresholdSensor
       then uint8_t (IPMISensorEventEnableByte2.eventMessagesEnable
                       (eventEnableByte2 Hd))
       else uint8_t (IPMISensorEventEnableByte2.sensorScanningEnable
                       (eventEnableByte2 Hd))) /\
  len = (if thresholdSensor then sizeof_SensorEventStatusResp Hd
         else sizeof_SensorEventStatusResp Hd - 1).
Proof.
  intros Hconn Hmap. unfold stateAfterSensorLookup in *.
  unfold ipmiSenGetSensorEventStatus, propertyOf. cbv zeta.
  simpl (negb (1 =? 1)). cbv iota.
  run_lookup Hconn Hmap.
  unfold bind at 1.
  destruct (readLatch path "CriticalAlarmHigh" st1) as [v1 s1] eqn:E1.
  apply readLatch_inv in E1 as [-> _]. cbv beta iota.
  unfold bind at 1.
  destruct (readLatch path "CriticalAlarmLow" s1) as [v2 s2] eqn:E2.
  apply readLatch_inv in E2 as [-> _]. cbv beta iota.
  unfold bind at 1.
  destruct (readLatch path "WarningAlarmHigh" s2) as [v3 s3] eqn:E3.
  apply readLatch_inv in E3 as [-> _]. cbv beta iota.
  unfold bind at 1.
  destruct (readLatch path "WarningAlarmLow" s3) as [v4 s4] eqn:E4.
  apply readLatch_inv in E4 as [-> _]. cbv beta iota.
  rewrite !bool_decide_is_Some.
  destruct (sensorMap !! "xyz.openbmc_project.Sensor.Threshold.Warning")
    as [warningMap |];
    destruct (sensorMap !! "xyz.openbmc_project.Sensor.Threshold.Critical")
      as [criticalMap |]; cbn [orb]; cbv iota; run;
    repeat (unfold bind at 1;
            match goal with
            | |- context [alarmFlag ?al ?s] =>
                let E := fresh "E" in
                destruct (alarmFlag_run
                            (R := ipmi_ret_t * Z
                                  * option SensorEventStatusResp.t) al s)
                  as [E | E];
                rewrite E; clear E; [| discriminate]
            end; run);
    unfold reply; cbn [fst]; intros [= <- <- <-];
    repeat split; reflexivity.
Qed.

(** X29. Get Sensor Event Status reports the alarms that Get Sensor
    Reading reports: on success, an alarm property that exists with the
    value [true] sets its assertion bit (upper warning and lower critical
    in the first assertion byte, upper critical in the second; the lower
    warning alarm sets bit 0 of the first byte), and when no alarm property
    holds [true] both assertion bytes are 0. The first byte of the
    response announces event messages for a sensor with a threshold
    interface and sensor scanning otherwise, and the response is one byte
    shorter for a sensor without threshold interface. *)
Theorem eventStatus_assertions_follow_alarms
    (P : Platform) (Hd : SensorCommandsHeader) (now n : Z) (st : State)
    (tree' : SensorSubTree) (connection path : string) (sensorMap : SensorMap)
    (cc len : Z) (resp : SensorEventStatusResp.t) :
  getSensorConnection P (sensorTree st) n = ((0, connection, path), tree') ->
  fst (getSensorMap (R := ipmi_ret_t * Z * option SensorEventStatusResp.t) P
         now connection path (stateAfterSensorLookup n tree' st))
    = Next (Some sensorMap) ->
  fst (ipmiSenGetSensorEventStatus P Hd now 1 n st)
    = Return (cc, len, Some resp) ->
  let warning := "xyz.openbmc_project.Sensor.Threshold.Warning"%string in
  let critical := "xyz.openbmc_project.Sensor.Threshold.Critical"%string in
  let Ev := eventEnableThresholds P in
  (propertyOf sensorMap warning "WarningAlarmHigh" = Some (VariantBool true) ->
   Z.land (SensorEventStatusResp.assertionsLSB resp)
     (uint8_t (upperNonCriticalGoingHigh Ev))
   = uint8_t (upperNonCriticalGoingHigh Ev)) /\
  (propertyOf sensorMap warning "WarningAlarmLow" = Some (VariantBool true) ->
   Z.land (SensorEventStatusResp.assertionsLSB resp) (uint8_t 1) = uint8_t 1) /\
  (propertyOf sensorMap critical "CriticalAlarmLow" = Some (VariantBool true) ->
   Z.land (SensorEventStatusResp.assertionsLSB resp)
     (uint8_t (lowerCriticalGoingLow Ev))
   = uint8_t (lowerCriticalGoingLow Ev)) /\
  (propertyOf sensorMap critical "CriticalAlarmHigh" = Some (VariantBool true) ->
   Z.land (SensorEventStatusResp.assertionsMSB resp)
     (uint8_t (upperCriticalGoingHigh Ev))
   = uint8_t (upperCriticalGoingHigh Ev)) /\
  (alarmSet (propertyOf sensorMap warning "WarningAlarmHigh") = false ->
   alarmSet (propertyOf sensorMap warning "WarningAlarmLow") = false ->
   alarmSet (propertyOf sensorMap critical "CriticalAlarmHigh") = false ->
   alarmSet (propertyOf sensorMap critical "CriticalAlarmLow") = false ->
   SensorEventStatusResp.assertionsLSB resp = 0 /\
   SensorEventStatusResp.assertionsMSB resp = 0) /\
  (sensorMap !! warning = None -> sensorMap !! critical = None ->
   SensorEventStatusResp.enabled resp
     = uint8_t (IPMISensorEventEnableByte2.sensorScanningEnable
                  (eventEnableByte2 Hd)) /\
   len = sizeof_SensorEventStatusResp Hd - 1 /\
   SensorEventStatusResp.assertionsLSB resp = 0 /\
   SensorEventStatusResp.assertionsMSB resp = 0) /\
  (is_Some (sensorMap !! warning) \/ is_Some (sensorMap !! critical) ->
   SensorEventStatusResp.enabled resp
     = uint8_t (IPMISensorEventEnableByte2.eventMessagesEnable
                  (eventEnableByte2 Hd)) /\
   len = sizeof_SensorEventStatusResp Hd).
Proof.
  intros Hconn Hmap Hrun warning critical Ev.
  destruct (eventStatus_assertions_inv _ _ _ _ _ _ _ _ _ _ _ _ Hconn Hmap Hrun)
    as (Hl & Hm & He & Hlen).
  fold warning critical Ev in Hl, Hm, He, Hlen.
  rewrite Hl, Hm, He, Hlen.
  split; [| split; [| split; [| split; [| split; [| split]]]]].
  - intros ->. cbn [alarmSet].
    do 2 apply orIf_includes_keep. apply orIf_includes_new.
  - intros ->. cbn [alarmSet].
    apply orIf_includes_keep. apply orIf_includes_new.
  - intros ->. cbn [alarmSet]. apply orIf_includes_new.
  - intros ->. cbn [alarmSet]. apply orIf_includes_new.
  - intros -> -> -> ->. split; reflexivity.
  - intros Hw Hc. unfold propertyOf. rewrite Hw, Hc. repeat split.
  - intros [[w Hw] | [c Hc]].
    + rewrite Hw. split; reflexivity.
    + rewrite Hc. destruct (sensorMap !! warning); split; reflexivity.
Qed.

Lemma eventStatus_assertions_follow_alarms_witness :
  fst (ipmiSenGetSensorEventStatus alarmPlatform ipmiSensorCommandsHeader
         demoNow 1 0 startup)
    = Return (IPMI_CC_OK, 5,
              Some {| SensorEventStatusResp.enabled := 0x80;
                      SensorEventStatusResp.assertionsLSB := 0x80;
                      SensorEventStatusResp.assertionsMSB := 0;
                      SensorEventStatusResp.deassertionsLSB := 0;
                      SensorEventStatusResp.deassertionsMSB := 0 |}) /\
  Z.land 0x80
    (uint8_t (upperNonCriticalGoingHigh (eventEnableThresholds alarmPlatform)))
  = uint8_t (upperNonCriticalGoingHigh (eventEnableThresholds alarmPlatform)).
Proof.
  split; [vm_compute; reflexivity |].
  apply (proj1 (eventStatus_assertions_follow_alarms alarmPlatform
                  ipmiSensorCommandsHeader demoNow 0 startup demoTree
                  demoConnection demoPath alarmSensorMap IPMI_CC_OK 5
                  {| SensorEventStatusResp.enabled := 0x80;
                     SensorEventStatusResp.assertionsLSB := 0x80;
                     SensorEventStatusResp.assertionsMSB := 0;
                     SensorEventStatusResp.deassertionsLSB := 0;
                     SensorEventStatusResp.deassertionsMSB := 0 |}
                  eq_refl
                  (demo_getSensorMap_sensor alarmSensorMap 0 startup eq_refl)
                  ltac:(vm_compute; reflexivity))).
  vm_compute. reflexivity.
Defined.

(** ** SDR repository information and topology changes *)

Lemma little_endian_count c :
  0 <= c -> Z.land c 0xFF + 256 * Z.shiftr c 8 = c.
Proof.
  intros H. change 0xFF with (Z.ones 8). rewrite Z.land_ones by lia.
  rewrite Z.shiftr_div_pow2 by lia.
  pose proof (Z.div_mod c (2 ^ 8) ltac:(lia)). lia.
Qed.

Lemma repositoryInfo_outcome P Hd stamps st :
  sensorTreeAvailable P st ->
  exists resp,
    ipmiStorageGetSDRRepositoryInfo P Hd stamps 0 st
    = (Return (IPMI_CC_OK, sizeof_GetSDRInfoResp Hd, Some resp),
       match sensorTree st with
       | [] => set_sensorTree (snd (getSensorSubtree P []))
                 (log_call CallGetSensorSubtree st)
       | _ :: _ => st
       end) /\
    recordCountLS resp + 256 * recordCountMS resp
      = uint16_t (Z.of_nat (length (sensorTreeAfterRefresh P st))) /\
    sdrVersion resp = ipmiSdrVersion P /\
    freeSpace resp = (0xFF, 0xFF) /\
    mostRecentAddition resp = sdrLastAdd stamps /\
    mostRecentErase resp = sdrLastRemove stamps.
Proof.
  intros Havail. unfold sensorTreeAvailable in Havail.
  unfold ipmiStorageGetSDRRepositoryInfo, sensorTreeAfterRefresh. cbv zeta.
  change (nonzero 0) with false. cbv iota. run.
  destruct (sensorTree st) as [| sensor0 rest] eqn:Et; run.
  - destruct Havail as [Havail | Havail]; [congruence |].
    rewrite Havail. run.
    eexists. split; [reflexivity |].
    cbn [recordCountLS recordCountMS sdrVersion freeSpace mostRecentAddition
         mostRecentErase].
    split; [| repeat split; reflexivity].
    apply little_endian_count. apply uint16_t_range.
  - rewrite Et. eexists. split; [reflexivity |].
    cbn [recordCountLS recordCountMS sdrVersion freeSpace mostRecentAddition
         mostRecentErase].
    split; [| repeat split; reflexivity].
    apply little_endian_count. apply uint16_t_range.
Qed.

(** X22. Get SDR Repository Info counts sensors only: with the sensor tree
    at hand (or fetched when the stored one is empty), the 16-bit record
    count of the response is the number of sensors in the tree, that is
    the number of records that Get SDR serves less the FRU records; the
    free space is reported as unspecified (0xFFFF) and the two timestamps
    are the stored ones. When the stored tree is empty and cannot be
    fetched, the answer is response-error without a response. *)
Theorem repositoryInfo_counts_sensors_only
    (P : Platform) (Hd : SensorCommandsHeader) (stamps : SdrTimestamps)
    (st : State) :
  (sensorTreeAvailable P st ->
   exists resp,
     fst (ipmiStorageGetSDRRepositoryInfo P Hd stamps 0 st)
       = Return (IPMI_CC_OK, sizeof_GetSDRInfoResp Hd, Some resp) /\
     recordCountLS resp + 256 * recordCountMS resp
       = uint16_t (recordCount P st - size_t P (snd (getFruSdrCount P))) /\
     freeSpace resp = (0xFF, 0xFF) /\
     mostRecentAddition resp = sdrLastAdd stamps /\
     mostRecentErase resp = sdrLastRemove stamps /\
     sensorTree (snd (ipmiStorageGetSDRRepositoryInfo P Hd stamps 0 st))
       = sensorTreeAfterRefresh P st) /\
  (sensorTree st = [] -> fst (getSensorSubtree P []) = false ->
   fst (ipmiStorageGetSDRRepositoryInfo P Hd stamps 0 st)
     = Return (IPMI_CC_RESPONSE_ERROR, 0, None)).
Proof.
  split.
  - intros Havail.
    destruct (repositoryInfo_outcome P Hd stamps st Havail)
      as (resp & Hrun & Hcount & _ & Hfree & Hadd & Herase).
    exists resp. rewrite Hrun. cbn [fst snd].
    split; [reflexivity |]. split.
    + rewrite Hcount. unfold recordCount. f_equal. lia.
    + repeat split; try assumption.
      unfold sensorTreeAfterRefresh.
      destruct (sensorTree st) eqn:Et; [reflexivity | exact Et].
  - intros Et Hfail.
    unfold ipmiStorageGetSDRRepositoryInfo. cbv zeta.
    change (nonzero 0) with false. cbv iota. run.
    rewrite Et. run. rewrite Hfail. reflexivity.
Qed.

Lemma repositoryInfo_counts_sensors_only_witness :
  exists resp,
    fst (ipmiStorageGetSDRRepositoryInfo demoPlatform ipmiSensorCommandsHeader
           noTimestamps 0 demoState)
      = Return (IPMI_CC_OK, sizeof_GetSDRInfoResp ipmiSensorCommandsHeader,
                Some resp) /\
    recordCountLS resp + 256 * recordCountMS resp
      = uint16_t (recordCount demoPlatform demoState
                  - size_t demoPlatform (snd (getFruSdrCount demoPlatform))) /\
    freeSpace resp = (0xFF, 0xFF) /\
    mostRecentAddition resp = sdrLastAdd noTimestamps /\
    mostRecentErase resp = sdrLastRemove noTimestamps /\
    sensorTree
      (snd (ipmiStorageGetSDRRepositoryInfo demoPlatform
              ipmiSensorCommandsHeader noTimestamps 0 demoState))
      = sensorTreeAfterRefresh demoPlatform demoState.
Proof.
  apply (proj1 (repositoryInfo_counts_sensors_only demoPlatform
                  ipmiSensorCommandsHeader noTimestamps demoState)).
  left. discriminate.
Defined.

(** X23. A topology notification empties the sensor tree and stamps the
    time: the next Get SDR Repository Info fetches the tree anew with one
    [getSensorSubtree] call, counts the sensors of the fetched tree
    whatever the tree held before, and reports the time of the
    notification (its seconds since the epoch, truncated to 32 bits) as
    the most recent addition after [sensorAdded], or as the most recent
    erase after [sensorRemoved], leaving the other timestamp as it was. *)
Theorem topology_change_refetches
    (P : Platform) (Hd : SensorCommandsHeader) (stamps : SdrTimestamps)
    (systemSeconds : Z) (st : State) :
  fst (getSensorSubtree P []) = true ->
  (let w := sensorAdded systemSeconds (st, stamps) in
   exists resp,
     fst (ipmiStorageGetSDRRepositoryInfo P Hd (snd w) 0 (fst w))
       = Return (IPMI_CC_OK, sizeof_GetSDRInfoResp Hd, Some resp) /\
     recordCountLS resp + 256 * recordCountMS resp
       = uint16_t (Z.of_nat (length (snd (getSensorSubtree P [])))) /\
     mostRecentAddition resp = uint32_t systemSeconds /\
     mostRecentErase resp = sdrLastRemove stamps /\
     backendCalls (snd (ipmiStorageGetSDRRepositoryInfo P Hd (snd w) 0 (fst w)))
       = backendCalls st ++ [CallGetSensorSubtree]) /\
  (let w := sensorRemoved systemSeconds (st, stamps) in
   exists resp,
     fst (ipmiStorageGetSDRRepositoryInfo P Hd (snd w) 0 (fst w))
       = Return (IPMI_CC_OK, sizeof_GetSDRInfoResp Hd, Some resp) /\
     recordCountLS resp + 256 * recordCountMS resp
       = uint16_t (Z.of_nat (length (snd (getSensorSubtree P [])))) /\
     mostRecentAddition resp = sdrLastAdd stamps /\
     mostRecentErase resp = uint32_t systemSeconds /\
     backendCalls (snd (ipmiStorageGetSDRRepositoryInfo P Hd (snd w) 0 (fst w)))
       = backendCalls st ++ [CallGetSensorSubtree]).
Proof.
  intros Hfetch.
  split; cbv zeta; unfold sensorAdded, sensorRemoved; cbn [fst snd].
  - destruct (repositoryInfo_outcome P Hd
                {| sdrLastAdd := uint32_t systemSeconds;
                   sdrLastRemove := sdrLastRemove stamps |}
                (set_sensorTree [] st) (or_intror Hfetch))
      as (resp & Hrun & Hcount & _ & _ & Hadd & Herase).
    exists resp. rewrite Hrun. cbn [fst snd sensorTree set_sensorTree].
    repeat split; try assumption; reflexivity.
  - destruct (repositoryInfo_outcome P Hd
                {| sdrLastAdd := sdrLastAdd stamps;
                   sdrLastRemove := uint32_t systemSeconds |}
                (set_sensorTree [] st) (or_intror Hfetch))
      as (resp & Hrun & Hcount & _ & _ & Hadd & Herase).
    exists resp. rewrite Hrun. cbn [fst snd sensorTree set_sensorTree].
    repeat split; try assumption; reflexivity.
Qed.

Lemma topology_change_refetches_witness :
  let w := sensorAdded 1700000000 (demoState, noTimestamps) in
  exists resp,
    fst (ipmiStorageGetSDRRepositoryInfo demoPlatform ipmiSensorCommandsHeader
           (snd w) 0 (fst w))
      = Return (IPMI_CC_OK, sizeof_GetSDRInfoResp ipmiSensorCommandsHeader,
                Some resp) /\
    recordCountLS resp + 256 * recordCountMS resp
      = uint16_t (Z.of_nat (length (snd (getSensorSubtree demoPlatform [])))) /\
    mostRecentAddition resp = uint32_t 1700000000 /\
    mostRecentErase resp = sdrLastRemove noTimestamps /\
    backendCalls
      (snd (ipmiStorageGetSDRRepositoryInfo demoPlatform
              ipmiSensorCommandsHeader (snd w) 0 (fst w)))
      = backendCalls demoState ++ [CallGetSensorSubtree].
Proof.
  apply (proj1 (topology_change_refetches demoPlatform ipmiSensorCommandsHeader
                  noTimestamps 1700000000 demoState eq_refl)).
Defined.

(** X24. A topology notification does not cancel a reservation: after
    [sensorAdded] or [sensorRemoved], a Get SDR at a non-zero offset that
    carries the reservation issued before the notification still passes
    the reservation check (it answers invalid-reservation-id only if a
    collaborator hands that code back), although the record it reads is
    now taken from the tree fetched after the change. *)
Theorem reservation_survives_topology_change
    (P : Platform) (stamps : SdrTimestamps)
    (now systemSeconds recordID off len : Z) (st : State) :
  sdrReservationID st <> 0 ->
  fst (getFruSdrCount P) <> IPMI_CC_INVALID_RESERVATION_ID ->
  (forall i, fst (getFruSdrs P i) <> IPMI_CC_INVALID_RESERVATION_ID) ->
  fst (ipmiStorageGetSDR P now (sdrReservationID st) recordID off len
         (fst (sensorAdded systemSeconds (st, stamps))))
    <> Return responseInvalidReservationId /\
  fst (ipmiStorageGetSDR P now (sdrReservationID st) recordID off len
         (fst (sensorRemoved systemSeconds (st, stamps))))
    <> Return responseInvalidReservationId /\
  sensorTree (fst (sensorAdded systemSeconds (st, stamps))) = [] /\
  sensorTree (fst (sensorRemoved systemSeconds (st, stamps))) = [].
Proof.
  intros Hid Hcount Hfru.
  split; [| split; [| split; reflexivity]];
    apply getSDR_check_passed_code; try assumption;
    (right; split; [exact Hid | reflexivity]).
Qed.

Lemma reservation_survives_topology_change_witness :
  fst (ipmiStorageGetSDR demoPlatform demoNow (sdrReservationID demoState) 0 8 8
         (fst (sensorAdded 1700000000 (demoState, noTimestamps))))
    <> Return responseInvalidReservationId.
Proof.
  apply (reservation_survives_topology_change demoPlatform noTimestamps demoNow
           1700000000 0 8 8 demoState).
  - discriminate.
  - discriminate.
  - intros i. discriminate.
Defined.

(** ** Request length checks *)

(** X25. The legacy handlers check the request length first: a Reserve SDR
    Repository or Get SDR Repository Info request with data, a Get Sensor
    Event Enable or Get Sensor Event Status request that is not one byte
    long, and a Set Sensor Thresholds request that is not eight bytes long
    are answered with request-data-length-invalid, with no response data,
    before any lookup: the state, and with it the log of backend calls, is
    unchanged. *)
Theorem length_checks_come_first
    (P : Platform) (Hd : SensorCommandsHeader) (stamps : SdrTimestamps)
    (now dataLen n : Z) (req : SensorThresholdReq) (st : State) :
  (dataLen <> 0 ->
   ipmiStorageReserveSDR dataLen st
     = ((IPMI_CC_REQ_DATA_LEN_INVALID, 0, []), st) /\
   ipmiStorageGetSDRRepositoryInfo P Hd stamps dataLen st
     = (Return (IPMI_CC_REQ_DATA_LEN_INVALID, 0, None), st)) /\
  (dataLen <> 1 ->
   ipmiSenGetSensorEventEnable P Hd now dataLen n st
     = (Return (IPMI_CC_REQ_DATA_LEN_INVALID, 0, None), st) /\
   ipmiSenGetSensorEventStatus P Hd now dataLen n st
     = (Return (IPMI_CC_REQ_DATA_LEN_INVALID, 0, None), st)) /\
  (dataLen <> 8 ->
   ipmiSenSetSensorThresholds P now dataLen req st
     = (Return IPMI_CC_REQ_DATA_LEN_INVALID, st)).
Proof.
  split; [| split]; intros Hlen; apply Z.eqb_neq in Hlen.
  - unfold ipmiStorageReserveSDR, ipmiStorageGetSDRRepositoryInfo, nonzero.
    rewrite Hlen. split; reflexivity.
  - unfold ipmiSenGetSensorEventEnable, ipmiSenGetSensorEventStatus.
    rewrite Hlen. split; reflexivity.
  - unfold ipmiSenSetSensorThresholds. rewrite Hlen. reflexivity.
Qed.

Lemma length_checks_come_first_witness :
  ipmiSenSetSensorThresholds demoPlatform demoNow 7 warningRequest demoState
    = (Return IPMI_CC_REQ_DATA_LEN_INVALID, demoState).
Proof.
  apply (proj2 (proj2 (length_checks_come_first demoPlatform
                         ipmiSensorCommandsHeader noTimestamps demoNow 7 0
                         warningRequest demoState))).
  discriminate.
Defined.

(** ** Set Sensor Thresholds followed by Get Sensor Thresholds *)

Lemma logWrites_fields P c p a l : forall st,
  updateTimeMap (logWrites P c p a l st) = updateTimeMap st /\
  SensorCache (logWrites P c p a l st) = SensorCache st /\
  sensorTree (logWrites P c p a l st) = sensorTree st.
Proof.
  induction l as [| t l IH]; intros st; [repeat split |].
  change (logWrites P c p a (t :: l) st)
    with (logWrites P c p a l (log_call (thresholdWrite P c p a t) st)).
  destruct (IH (log_call (thresholdWrite P c p a t) st)) as (H1 & H2 & H3).
  rewrite H1, H2, H3. repeat split.
Qed.

(** X26. Set Sensor Thresholds does not invalidate the sensor map cache:
    when the handler has refreshed the cache of the connection and written
    the selected thresholds, a Get Sensor Thresholds for the same sensor
    less than three seconds later is answered from the sensor map fetched
    before the writes, whatever the backend holds by then: it returns the
    thresholds of that earlier map. *)
Theorem thresholds_stale_after_set
    (P : Platform) (Hd : SensorCommandsHeader) (now now' : Z)
    (req : SensorThresholdReq) (st : State) (tree' tree'' : SensorSubTree)
    (connection path : string) (objects : ManagedObjectType)
    (sensorMap : SensorMap) (sensorObject : PropertyMap) (max min : float)
    (attrs : SensorAttributes) (td : IPMIThresholds)
    (managed : string -> option ManagedObjectType) :
  Z.land (mask req) 0xC0 = 0 ->
  Z.land (mask req) (setLowerNonRecoverable (thresholdReqEnable P)) = 0 ->
  Z.land (mask req) (setUpperNonRecoverable (thresholdReqEnable P)) = 0 ->
  mask req <> 0 ->
  getSensorConnection P (sensorTree st) (sensorNum req)
    = ((0, connection, path), tree') ->
  refreshDue now connection (stateAfterLookup req tree' st) = true ->
  GetManagedObjects P connection = Some objects ->
  objects !! path = Some sensorMap ->
  sensorMap !! "xyz.openbmc_project.Sensor.Value" = Some sensorObject ->
  getSensorMaxMin P sensorObject = Some (max, min) ->
  getSensorAttributes P max min = Some attrs ->
  selectsMissingThreshold (thresholdReqEnable P) (mask req) sensorMap = false ->
  forallb (writeAccepted P connection path attrs)
    (selectedThresholds (thresholdReqEnable P) req) = true ->
  getIPMIThresholds P sensorMap = Some td ->
  let st2 := snd (ipmiSenSetSensorThresholds P now 8 req st) in
  now' - now < 3 * 1000000000 ->
  getSensorConnection P (sensorTree st2) (sensorNum req)
    = ((0, connection, path), tree'') ->
  fst (ipmiSenSetSensorThresholds P now 8 req st) = Return IPMI_CC_OK /\
  exists readable,
    fst (ipmiSenGetSensorThresholds (withManagedObjects managed P) Hd now'
           (sensorNum req) st2)
    = Return
        (responseSuccess
           (readable, default 0 (warningLow td), default 0 (criticalLow td), 0,
            default 0 (warningHigh td), default 0 (criticalHigh td), 0)).
Proof.
  intros H1 H2 H3 H4 Hconn Hdue Hobjects Hpath Hvalue Hrange Hattrs Hmiss Hacc
    Htd st2 Hsoon Hconn2.
  assert (Hmap : fst (getSensorMap (R := ipmi_ret_t) P now connection path
                        (stateAfterLookup req tree' st))
                 = Next (Some sensorMap))
    by exact (getSensorMap_refreshed P now connection path _ objects sensorMap
                Hdue Hobjects Hpath).
  pose proof (setThresholds_accepted_outcome P now req st tree' connection path
                sensorMap sensorObject max min attrs H1 H2 H3 H4 Hconn Hmap
                Hvalue Hrange Hattrs Hmiss Hacc) as Hset.
  subst st2. rewrite Hset in *. cbn [fst snd] in *.
  split; [reflexivity |].
  set (s1 := snd (getSensorMap (R := ipmi_ret_t) P now connection path
                    (stateAfterLookup req tree' st))) in *.
  set (st2 := logWrites P connection path attrs
                (selectedThresholds (thresholdReqEnable P) req) s1) in *.
  destruct (logWrites_fields P connection path attrs
              (selectedThresholds (thresholdReqEnable P) req) s1)
    as (Htime & Hcache & _).
  fold st2 in Htime, Hcache.
  assert (Hmap2 : fst (getSensorMap (R := RspType (Z * Z * Z * Z * Z * Z * Z))
                         (withManagedObjects managed P) now' connection path
                         (stateAfterSensorLookup (sensorNum req) tree'' st2))
                  = Next (Some sensorMap)).
  { rewrite getSensorMap_cached.
    - cbn [fst]. unfold stateAfterSensorLookup.
      cbn [SensorCache set_sensorTree log_call]. rewrite Hcache.
      subst s1. rewrite (getSensorMap_SensorCache P now connection path _ Hdue).
      rewrite Hobjects, lookup_insert_eq. simpl. rewrite Hpath. reflexivity.
    - unfold refreshDue, stateAfterSensorLookup.
      cbn [updateTimeMap set_sensorTree log_call]. rewrite Htime.
      subst s1. rewrite getSensorMap_updateTimeMap, Hdue, lookup_insert_eq.
      apply quot_seconds_within_period. exact Hsoon. }
  rewrite (getSensorThresholds_outcome (withManagedObjects managed P) Hd now'
             (sensorNum req) st2 tree'' connection path sensorMap Hconn2 Hmap2).
  change (getIPMIThresholds (withManagedObjects managed P) sensorMap)
    with (getIPMIThresholds P sensorMap).
  rewrite Htd. eexists. reflexivity.
Qed.

Lemma thresholds_stale_after_set_witness :
  fst (ipmiSenSetSensorThresholds demoPlatform demoNow 8 warningRequest startup)
    = Return IPMI_CC_OK /\
  exists readable,
    fst (ipmiSenGetSensorThresholds
           (withManagedObjects (fun _ => None) demoPlatform)
           ipmiSensorCommandsHeader (demoNow + 1000000000)
           (sensorNum warningRequest)
           (snd (ipmiSenSetSensorThresholds demoPlatform demoNow 8
                   warningRequest startup)))
    = Return (responseSuccess (readable, 5, 0, 0, 80, 0, 0)).
Proof.
  apply (thresholds_stale_after_set demoPlatform ipmiSensorCommandsHeader
           demoNow (demoNow + 1000000000) warningRequest startup demoTree
           demoTree demoConnection demoPath (<[demoPath := demoSensorMap]> ∅)
           demoSensorMap demoValueProperties 127%float (-128)%float
           {| mValue := 1; rExp := 0; bValue := 0; bExp := -2; bSigned := true |}
           {| warningLow := Some 5; warningHigh := Some 80;
              criticalLow := None; criticalHigh := None |}
           (fun _ => None)).
  - reflexivity.
  - reflexivity.
  - reflexivity.
  - discriminate.
  - reflexivity.
  - vm_compute. reflexivity.
  - apply demoBackend_demoConnection.
  - apply lookup_insert_eq.
  - apply lookup_insert_eq.
  - vm_compute. reflexivity.
  - vm_compute. reflexivity.
  - vm_compute. reflexivity.
  - reflexivity.
  - vm_compute. reflexivity.
  - lia.
  - reflexivity.
Defined.

(** ** The watcher run twice *)

Lemma latchStep_idempotent latch e :
  latchStep (latchStep latch e) e = latchStep latch e.
Proof. destruct e, latch as [[|] |]; reflexivity. Qed.

(** X27. The threshold watcher touches nothing but the latches and is
    idempotent on them: a notification leaves the reservation counter, the
    sensor tree, the sensor map cache, its timestamps and the log of
    backend calls as they were, and delivering the same notification a
    second time leaves every latch as the first delivery left it. *)
Theorem thresholdChanged_idempotent
    (m : PropertiesChanged) (st : State) (path name : string) :
  latchOf (thresholdDeassertMap (thresholdChanged m (thresholdChanged m st)))
    path name
  = latchOf (thresholdDeassertMap (thresholdChanged m st)) path name /\
  sdrReservationID (thresholdChanged m st) = sdrReservationID st /\
  sensorTree (thresholdChanged m st) = sensorTree st /\
  SensorCache (thresholdChanged m st) = SensorCache st /\
  updateTimeMap (thresholdChanged m st) = updateTimeMap st /\
  backendCalls (thresholdChanged m st) = backendCalls st.
Proof.
  split.
  - rewrite !thresholdChanged_latch. apply latchStep_idempotent.
  - unfold thresholdChanged.
    destruct (find (fun pair => containsAlarm (fst pair)) (values m))
      as [[n [[|] | d]] |]; repeat split.
Qed.

(** ** Get SDR: chunked reads of a sensor record *)

Lemma buildFullRecord_any_state {T} P recordID path (sensorMap : SensorMap)
    st record st' :
  buildFullRecord (T := T) P recordID path sensorMap st = (Next record, st') ->
  st' = st /\
  forall s, buildFullRecord (T := T) P recordID path sensorMap s
            = (Next record, s).
Proof.
  unfold buildFullRecord, bind, orThrow. intros H.
  destruct (sensorMap !! "xyz.openbmc_project.Sensor.Value")
    as [sensorObject |]; [| discriminate H].
  destruct (match sensorObject !! "MaxValue" with
            | Some v => VariantToDoubleVisitor P v
            | None => Some 128%float
            end) as [max |]; [| discriminate H].
  cbn [ret throw] in *.
  destruct (match sensorObject !! "MinValue" with
            | Some v => VariantToDoubleVisitor P v
            | None => Some (-127)%float
            end) as [min |]; [| discriminate H].
  cbn [ret throw] in *.
  destruct (getSensorAttributes P max min) as [a |]; [| discriminate H].
  destruct (getIPMIThresholds P sensorMap) as [thresholdData |];
    [| discriminate H].
  unfold ret in *. injection H as Hrec Hst. subst record st'.
  split; reflexivity.
Qed.

(** A sensor map that the cache has served is in the cache. *)
Lemma getSensorMap_served {R} P now c p (st : State) (sensorMap : SensorMap) st' :
  getSensorMap (R := R) P now c p st = (Next (Some sensorMap), st') ->
  SensorCache st' !! c ≫= (.!! p) = Some sensorMap /\
  sensorTree st' = sensorTree st.
Proof.
  unfold getSensorMap, bind, gets, modify, ret. simpl.
  destruct (duration_cast_seconds (now - default 0 (updateTimeMap st !! c))
              >? sensorMapUpdatePeriod); simpl.
  - destruct (GetManagedObjects P c) as [objects |]; simpl; [| discriminate].
    rewrite lookup_insert_eq.
    destruct (objects !! p) as [m |] eqn:Hp; [| discriminate].
    intros [= <- <-]. simpl. rewrite lookup_insert_eq. simpl.
    split; [exact Hp | reflexivity].
  - destruct (SensorCache st !! c) as [objects |] eqn:Hc; simpl;
      [| discriminate].
    destruct (objects !! p) as [m |] eqn:Hp; [| discriminate].
    intros [= <- <-]. rewrite Hc. simpl. split; [exact Hp | reflexivity].
Qed.

(** What a successful read of a sensor record has gone through. *)
Lemma getSDR_sensor_read_inv P now rid recordID off len st next payload stF :
  ipmiStorageGetSDR P now rid recordID off len st
    = (Return (responseSuccess (next, payload)), stF) ->
  effectiveRecordID P st recordID
    < Z.of_nat (length (sensorTreeAfterRefresh P st)) ->
  exists connection path sensorMap record,
    selectSensor (sensorTreeAfterRefresh P st) (effectiveRecordID P st recordID)
      = Some (connection, path) /\
    getSensorMap (R := RspType (Z * list Z)) P now connection path
      (log_call CallGetFruSdrCount (stateWithTree P st))
      = (Next (Some sensorMap), stF) /\
    (forall s,
       buildFullRecord (T := Z * list Z) P (effectiveRecordID P st recordID)
         path sensorMap s = (Next record, s)) /\
    payload = recordWindow P record off len.
Proof.
  unfold effectiveRecordID, recordCount, stateWithTree, recordWindow.
  remember (sensorTreeAfterRefresh P st) as tree eqn:Htree.
  unfold ipmiStorageGetSDR. cbv zeta. run.
  destruct (((sdrReservationID st =? 0) || negb (rid =? sdrReservationID st))
            && nonzero off) eqn:Hcheck; [discriminate |].
  run.
  match goal with
  | |- context [bind ?m (fun haveTree => if negb haveTree then _ else ?rest)] =>
      set (tail := rest)
  end.
  set (last := size_t P (Z.of_nat (length tree)
                         + size_t P (snd (getFruSdrCount P)) - 1)).
  set (id := if recordID =? 65535 then uint16_t last else recordID).
  assert (Htail : forall s0, sensorTree s0 = tree ->
            tail s0 = (Return (responseSuccess (next, payload)), stF) ->
            id < Z.of_nat (length tree) ->
            exists connection path sensorMap record,
              selectSensor tree id = Some (connection, path) /\
              getSensorMap (R := RspType (Z * list Z)) P now connection path
                (log_call CallGetFruSdrCount s0)
                = (Next (Some sensorMap), stF) /\
              (forall s,
                 buildFullRecord (T := Z * list Z) P id path sensorMap s
                 = (Next record, s)) /\
              payload =
                take (Z.to_nat (clampBytesToRead P sizeof_SensorDataFullRecord
                                  off len))
                  (drop (Z.to_nat off) (full_record_bytes record))).
  { intros s0 Hs. subst tail. run.
    destruct (negb (fst (getFruSdrCount P) =? IPMI_CC_OK)); run;
      [discriminate |].
    rewrite Hs. fold last. fold id.
    destruct (id >? last) eqn:Hgt; [discriminate |].
    destruct (id >=? Z.of_nat (length tree)) eqn:Hfru.
    { apply Z.geb_le in Hfru. intros _ Hlive. lia. }
    destruct (selectSensor tree id) as [[connection path] |];
      [| discriminate].
    unfold bind at 1.
    destruct (getSensorMap P now connection path _)
      as [[[sensorMap |] | r | |] s1] eqn:Hg; try discriminate.
    2: { exfalso.
         exact (replies_getSensorMap (fun _ => False) _ _ _ _ _ _ _ Hg). }
    unfold bind at 1.
    destruct (buildFullRecord P id path sensorMap s1)
      as [[record | r | |] s2] eqn:Hb; try discriminate.
    2: { rewrite (replies_buildFullRecord
                    (fun r => r = responseResponseError) _ _ _ _ eq_refl
                    _ _ _ Hb).
         discriminate. }
    destruct (buildFullRecord_any_state _ _ _ _ _ _ _ Hb) as [-> Hany].
    unfold bind at 1, readWindow.
    match goal with
    | |- context [if ?c then ret _ else overread _ _ _] =>
        destruct c; [| discriminate]
    end.
    unfold ret, reply. intros [= <- <- <-] _.
    exists connection, path, sensorMap, record.
    repeat split; try assumption; reflexivity. }
  unfold sensorTreeAfterRefresh in Htree.
  destruct (sensorTree st) as [| sensor0 rest] eqn:Et; run.
  - destruct (fst (getSensorSubtree P [])); run; [| discriminate].
    apply Htail. symmetry. exact Htree.
  - apply Htail. rewrite Et. symmetry. exact Htree.
Qed.

Lemma recordWindow_inside P record off len :
  0 <= off -> 0 <= len -> off + len <= sizeof_SensorDataFullRecord ->
  recordWindow P record off len
  = take (Z.to_nat len) (drop (Z.to_nat off) (full_record_bytes record)).
Proof.
  intros Hoff Hlen Hin. unfold recordWindow.
  rewrite clampBytesToRead_min
    by (unfold sizeof_SensorDataFullRecord in *; lia).
  f_equal. lia.
Qed.

(** The length of a window taken within the record. *)
Lemma recordWindow_length P record off len :
  0 <= off <= sizeof_SensorDataFullRecord -> 0 <= len ->
  Z.of_nat (length (recordWindow P record off len))
  = Z.min len (sizeof_SensorDataFullRecord - off).
Proof.
  intros Hoff Hlen. unfold recordWindow.
  rewrite clampBytesToRead_min by (try reflexivity; lia).
  rewrite window_length; [reflexivity | lia | lia |].
  rewrite full_record_bytes_length. lia.
Qed.

(** X28. Chunked reads of a sensor record, at offsets within the 64
    bytes of the record (where the handler never reads beyond it), fit
    together as long as the sensor map cache is not refreshed in between:
    when a Get SDR of a live sensor's record at such an offset succeeds
    and a second Get SDR of the same record, run on the state the first one
    left, at such an offset and at a time at which no refresh of the
    sensor's connection is due, succeeds too, both payloads are windows of
    one and the same 64-byte record, of [min(bytesToRead, 64 - offset)]
    bytes each; in particular two adjacent chunks concatenate to the window
    that covers both. The reservation ID plays no part in this. *)
Theorem getSDR_chunks_consistent
    (P : Platform) (now now' rid rid' recordID off1 len1 off2 len2 : Z)
    (st : State) (connection path : string)
    (next1 next2 : Z) (payload1 payload2 : list Z) :
  0 <= recordID ->
  0 <= off1 <= sizeof_SensorDataFullRecord -> 0 <= len1 ->
  0 <= off2 <= sizeof_SensorDataFullRecord -> 0 <= len2 ->
  effectiveRecordID P st recordID
    < Z.of_nat (length (sensorTreeAfterRefresh P st)) ->
  selectSensor (sensorTreeAfterRefresh P st) (effectiveRecordID P st recordID)
    = Some (connection, path) ->
  fst (ipmiStorageGetSDR P now rid recordID off1 len1 st)
    = Return (responseSuccess (next1, payload1)) ->
  let st' := snd (ipmiStorageGetSDR P now rid recordID off1 len1 st) in
  refreshDue now' connection st' = false ->
  fst (ipmiStorageGetSDR P now' rid' recordID off2 len2 st')
    = Return (responseSuccess (next2, payload2)) ->
  exists record,
    payload1 = recordWindow P record off1 len1 /\
    payload2 = recordWindow P record off2 len2 /\
    Z.of_nat (length payload1)
      = Z.min len1 (sizeof_SensorDataFullRecord - off1) /\
    Z.of_nat (length payload2)
      = Z.min len2 (sizeof_SensorDataFullRecord - off2) /\
    (off2 = off1 + len1 ->
     off2 + len2 <= sizeof_SensorDataFullRecord ->
     payload1 ++ payload2 = recordWindow P record off1 (len1 + len2)).
Proof.
  intros Hid Hoff1 Hlen1 Hoff2 Hlen2 Hlive Hsel Hrun1 st' Hdue Hrun2.
  destruct (ipmiStorageGetSDR P now rid recordID off1 len1 st)
    as [r1 stF] eqn:E1.
  cbn [fst snd] in *. subst r1 st'.
  destruct (getSDR_sensor_read_inv _ _ _ _ _ _ _ _ _ _ E1 Hlive)
    as (c1 & p1 & sensorMap & record & Hsel1 & Hg1 & Hb1 & ->).
  rewrite Hsel in Hsel1. injection Hsel1 as <- <-.
  destruct (getSensorMap_served _ _ _ _ _ _ _ Hg1) as [Hcache Htree].
  cbn [sensorTree log_call] in Htree.
  assert (Hst : sensorTree (stateWithTree P st) = sensorTreeAfterRefresh P st).
  { unfold stateWithTree, sensorTreeAfterRefresh.
    destruct (sensorTree st) eqn:Et; [reflexivity | exact Et]. }
  rewrite Hst in Htree.
  assert (Hne : sensorTreeAfterRefresh P st <> []).
  { intros Hnil. rewrite Hnil in Hlive. simpl in Hlive.
    unfold effectiveRecordID in Hlive.
    destruct (recordID =? 65535); [| lia].
    pose proof (uint16_t_range (size_t P (recordCount P st - 1))). lia. }
  assert (Hafter : sensorTreeAfterRefresh P stF = sensorTreeAfterRefresh P st).
  { unfold sensorTreeAfterRefresh at 1. rewrite Htree.
    destruct (sensorTreeAfterRefresh P st); [congruence | reflexivity]. }
  assert (Hwith : stateWithTree P stF = stF).
  { unfold stateWithTree. rewrite Htree.
    destruct (sensorTreeAfterRefresh P st); [congruence | reflexivity]. }
  assert (Heff : effectiveRecordID P stF recordID
                 = effectiveRecordID P st recordID).
  { unfold effectiveRecordID, recordCount. rewrite Hafter. reflexivity. }
  destruct (ipmiStorageGetSDR P now' rid' recordID off2 len2 stF)
    as [r2 stF2] eqn:E2.
  cbn [fst] in Hrun2. subst r2.
  destruct (getSDR_sensor_read_inv _ _ _ _ _ _ _ _ _ _ E2
              ltac:(rewrite Heff, Hafter; exact Hlive))
    as (c2 & p2 & sensorMap2 & record2 & Hsel2 & Hg2 & Hb2 & ->).
  rewrite Heff, Hafter, Hsel in Hsel2. injection Hsel2 as <- <-.
  rewrite Hwith, Heff in *.
  rewrite getSensorMap_cached in Hg2 by exact Hdue.
  injection Hg2 as Hm2 _. cbn [SensorCache log_call] in Hm2.
  rewrite Hcache in Hm2. injection Hm2 as <-.
  pose proof (Hb1 st) as B1. pose proof (Hb2 st) as B2.
  rewrite B1 in B2. injection B2 as <-.
  exists record. split; [reflexivity |]. split; [reflexivity |].
  split; [apply recordWindow_length; assumption |].
  split; [apply recordWindow_length; assumption |].
  intros -> Hin.
  rewrite !recordWindow_inside by lia.
  replace (Z.to_nat (off1 + len1)) with (Z.to_nat off1 + Z.to_nat len1)%nat
    by lia.
  rewrite <- drop_drop.
  replace (Z.to_nat (len1 + len2)) with (Z.to_nat len1 + Z.to_nat len2)%nat
    by lia.
  apply take_take_drop.
Qed.

Lemma getSDR_chunks_consistent_witness :
  exists record,
    [0; 0; 81; 1] = recordWindow demoPlatform record 0 4 /\
    [59; 32; 0; 0] = recordWindow demoPlatform record 4 4 /\
    Z.of_nat (length [0; 0; 81; 1])
      = Z.min 4 (sizeof_SensorDataFullRecord - 0) /\
    Z.of_nat (length [59; 32; 0; 0])
      = Z.min 4 (sizeof_SensorDataFullRecord - 4) /\
    (4 = 0 + 4 ->
     4 + 4 <= sizeof_SensorDataFullRecord ->
     [0; 0; 81; 1] ++ [59; 32; 0; 0]
     = recordWindow demoPlatform record 0 (4 + 4)).
Proof.
  apply (getSDR_chunks_consistent demoPlatform demoNow (demoNow + 1000000000)
           1 1 0 0 4 4 4 demoState demoConnection demoPath 1 1
           [0; 0; 81; 1] [59; 32; 0; 0]).
  - lia.
  - unfold sizeof_SensorDataFullRecord. lia.
  - lia.
  - unfold sizeof_SensorDataFullRecord. lia.
  - lia.
  - vm_compute. reflexivity.
  - reflexivity.
  - vm_compute. reflexivity.
  - vm_compute. reflexivity.
  - vm_compute. reflexivity.
Defined.

(** ** Sensor handlers: the sensor cannot be resolved *)

(** X30. The four sensor read handlers pass a failed lookup through: when
    [getSensorConnection] returns a non-zero status, Get Sensor Reading and
    Get Sensor Thresholds answer with that status as completion code and
    Get Sensor Event Enable and Get Sensor Event Status return it, without
    response data and without having asked the backend for the sensor
    map; when the sensor resolves but the enumeration of its connection
    fails, all four answer response-error. *)
Theorem sensor_lookup_failure_passes_through
    (P : Platform) (Hd : SensorCommandsHeader) (now n status : Z) (st : State)
    (connection path : string) (tree' : SensorSubTree) :
  getSensorConnection P (sensorTree st) n = ((status, connection, path), tree') ->
  let st1 := stateAfterSensorLookup n tree' st in
  (status <> 0 ->
   ipmiSenGetSensorReading P Hd now n st = (Return (response status), st1) /\
   ipmiSenGetSensorThresholds P Hd now n st = (Return (response status), st1) /\
   ipmiSenGetSensorEventEnable P Hd now 1 n st
     = (Return (status, 0, None), st1) /\
   ipmiSenGetSensorEventStatus P Hd now 1 n st
     = (Return (status, 0, None), st1) /\
   backendCalls st1 = backendCalls st ++ [CallGetSensorConnection n]) /\
  (status = 0 ->
   refreshDue now connection st1 = true ->
   GetManagedObjects P connection = None ->
   fst (ipmiSenGetSensorReading P Hd now n st) = Return responseResponseError /\
   fst (ipmiSenGetSensorThresholds P Hd now n st)
     = Return responseResponseError /\
   fst (ipmiSenGetSensorEventEnable P Hd now 1 n st)
     = Return (IPMI_CC_RESPONSE_ERROR, 0, None) /\
   fst (ipmiSenGetSensorEventStatus P Hd now 1 n st)
     = Return (IPMI_CC_RESPONSE_ERROR, 0, None)).
Proof.
  intros Hconn st1. subst st1. unfold stateAfterSensorLookup.
  split.
  - intros Hstatus. apply Z.eqb_neq in Hstatus.
    repeat split;
      unfold ipmiSenGetSensorReading, ipmiSenGetSensorThresholds,
        ipmiSenGetSensorEventEnable, ipmiSenGetSensorEventStatus,
        callGetSensorConnection;
      cbv zeta; simpl (negb (1 =? 1)); cbv iota;
      run; rewrite Hconn; cbn [fst snd]; unfold nonzero; rewrite Hstatus;
      reflexivity.
  - intros -> Hdue Hfail.
    repeat split;
      unfold ipmiSenGetSensorReading, ipmiSenGetSensorThresholds,
        ipmiSenGetSensorEventEnable, ipmiSenGetSensorEventStatus,
        callGetSensorConnection;
      cbv zeta; simpl (negb (1 =? 1)); cbv iota;
      run; rewrite Hconn; cbn [fst snd]; change (nonzero 0) with false;
      cbv iota; unfold bind at 1;
      rewrite (getSensorMap_failed P now connection path _ Hdue Hfail);
      reflexivity.
Qed.

Lemma sensor_lookup_failure_passes_through_witness :
  ipmiSenGetSensorReading demoPlatform ipmiSensorCommandsHeader demoNow 1
    startup
  = (Return (response IPMI_CC_INVALID_FIELD_REQUEST),
     stateAfterSensorLookup 1 demoTree startup).
Proof.
  apply (proj1 (sensor_lookup_failure_passes_through demoPlatform
                  ipmiSensorCommandsHeader demoNow 1
                  IPMI_CC_INVALID_FIELD_REQUEST startup EmptyString EmptyString
                  demoTree eq_refl)).
  discriminate.
Defined.
